(** * Student management dashboard: a shallow embedding and its properties

  The development follows the sources of the dashboard:
  - [src/lib/student-storage.ts]      the persistence adapter and the mock API,
  - [src/components/student-form.tsx] the field validators and the
                                      asynchronous e-mail check,
  - [src/components/student-list.tsx] the list filters,
  - [src/app/page.tsx]                the dashboard controller,
  - [src/hooks/use-local-storage.ts]  the hook that keeps a value in the
                                      store.

  JavaScript strings are modelled by [string] whose characters are the code
  units U+0000..U+00FF.  The platform functions the sources call
  ([trim], [toLowerCase], [includes], [RegExp.test], [JSON.stringify],
  [JSON.parse], [Object.entries], [Array.prototype.sort], [localStorage])
  are given executable definitions first; the functions of the repository
  are then transcribed on top of them. *)

From Stdlib Require Import Ascii NArith ZArith Lia Bool.
From Stdlib Require String DecimalString Sorted.
From stdpp Require Import base option list strings gmap.

(** ** JavaScript string primitives *)

Module JsString.

Local Open Scope N_scope.

Definition code (c : ascii) : N := N_of_ascii c.

(** The characters matched by [\s] and stripped by [trim]: TAB, LF, VT, FF,
    CR, SPACE and NO-BREAK SPACE (the only ones below U+0100). *)
Definition isWhiteSpace (c : ascii) : bool :=
  ((9 <=? code c) && (code c <=? 13)) || (code c =? 32) || (code c =? 160).

Definition notSpace (c : ascii) : bool := negb (isWhiteSpace c).

(** [[a-zA-Z]] *)
Definition isLetter (c : ascii) : bool :=
  ((65 <=? code c) && (code c <=? 90)) || ((97 <=? code c) && (code c <=? 122)).

(** [[0-9]] *)
Definition isDigit (c : ascii) : bool :=
  (48 <=? code c) && (code c <=? 57).

(** Upper-case letters with a lower-case partner: A-Z, and the Latin-1
    capitals U+00C0..U+00DE without the multiplication sign U+00D7. *)
Definition isUpper (c : ascii) : bool :=
  ((65 <=? code c) && (code c <=? 90))
  || ((192 <=? code c) && (code c <=? 222) && negb (code c =? 215)).

Definition lowerChar (c : ascii) : ascii :=
  if isUpper c then ascii_of_N (code c + 32) else c.

(** [s.toLowerCase()] *)
Fixpoint toLowerCase (s : string) : string :=
  match s with
  | EmptyString => EmptyString
  | String c s' => String (lowerChar c) (toLowerCase s')
  end.

(** [s.trimStart()] *)
Fixpoint trimStart (s : string) : string :=
  match s with
  | EmptyString => EmptyString
  | String c s' => if isWhiteSpace c then trimStart s' else s
  end.

(** [s.trimEnd()] *)
Fixpoint trimEnd (s : string) : string :=
  match s with
  | EmptyString => EmptyString
  | String c s' =>
      match trimEnd s' with
      | EmptyString => if isWhiteSpace c then EmptyString else String c EmptyString
      | r => String c r
      end
  end.

(** [s.trim()] *)
Definition trim (s : string) : string := trimEnd (trimStart s).

(** [s.startsWith(p)] *)
Fixpoint startsWith (s p : string) {struct p} : bool :=
  match p, s with
  | EmptyString, _ => true
  | String _ _, EmptyString => false
  | String a p', String b s' => Ascii.eqb a b && startsWith s' p'
  end.

(** [s.includes(sub)] *)
Fixpoint includes (s sub : string) : bool :=
  startsWith s sub
  || match s with
     | EmptyString => false
     | String _ s' => includes s' sub
     end.

(** The truth value of a string in a condition: only the empty string is
  falsy. *)
Definition truthy (s : string) : bool :=
  match s with EmptyString => false | String _ _ => true end.

(** Every character of [s] satisfies [p]. *)
Fixpoint all (p : ascii -> bool) (s : string) : bool :=
  match s with
  | EmptyString => true
  | String c s' => p c && all p s'
  end.

End JsString.

(** ** Regular expressions

  The two patterns of the sources are anchored on both sides and use no
  flag, so [RegExp.prototype.test] decides membership of the whole string
  in the language of the pattern.  The matcher works by derivatives; the
  lemmas of [RegexFacts] below relate it to splitting the string. *)

Module Regex.

Inductive regex : Type :=
| Void  : regex
| Eps   : regex
| Class : (ascii -> bool) -> regex
| Seq   : regex -> regex -> regex
| Alt   : regex -> regex -> regex
| Star  : regex -> regex.

(** [r+] *)
Definition Plus (r : regex) : regex := Seq r (Star r).

(** A literal character. *)
Definition Chr (c : ascii) : regex := Class (Ascii.eqb c).

Fixpoint nullable (r : regex) : bool :=
  match r with
  | Void => false
  | Eps => true
  | Class _ => false
  | Seq r1 r2 => nullable r1 && nullable r2
  | Alt r1 r2 => nullable r1 || nullable r2
  | Star _ => true
  end.

Fixpoint deriv (c : ascii) (r : regex) : regex :=
  match r with
  | Void => Void
  | Eps => Void
  | Class p => if p c then Eps else Void
  | Seq r1 r2 =>
      if nullable r1
      then Alt (Seq (deriv c r1) r2) (deriv c r2)
      else Seq (deriv c r1) r2
  | Alt r1 r2 => Alt (deriv c r1) (deriv c r2)
  | Star r1 => Seq (deriv c r1) (Star r1)
  end.

(** [/^r$/.test(s)] *)
Fixpoint test (r : regex) (s : string) : bool :=
  match s with
  | EmptyString => nullable r
  | String c s' => test (deriv c r) s'
  end.

(** Every class of the pattern lies inside [q]. *)
Fixpoint within (q : ascii -> bool) (r : regex) : Prop :=
  match r with
  | Void | Eps => True
  | Class p => forall c, p c = true -> q c = true
  | Seq r1 r2 | Alt r1 r2 => within q r1 /\ within q r2
  | Star r1 => within q r1
  end.

End Regex.

(** ** JSON values, [JSON.stringify] and [JSON.parse]

  A number is kept as the text of its literal: no floating-point arithmetic
  is modelled.  The members of an object are kept in the order of the text.
  A [\uXXXX] escape above U+00FF lies outside the modelled alphabet and is
  refused. *)

Module Json.

#[warnings="-register-all"]
Inductive value : Type :=
| JNull : value
| JBool : bool -> value
| JNum  : string -> value
| JStr  : string -> value
| JArr  : list value -> value
| JObj  : list (string * value) -> value.

Definition field (f : string * string) : string * value := (f.1, JStr f.2).

(** An object whose properties are all strings. *)
Definition record (fields : list (string * string)) : value :=
  JObj (map field fields).


(** *** Writing *)

Definition hexDigit (n : N) : ascii :=
  if (n <? 10)%N then ascii_of_N (48 + n) else ascii_of_N (87 + n).

(** One character of a quoted string (QuoteJSONString): the quote, the
    backslash and the control characters are escaped. *)
Definition escape (c : ascii) (k : string) : string :=
  match c with
  | "034" => String "092" (String "034" k)
  | "092" => String "092" (String "092" k)
  | "008" => String "092" (String "b" k)
  | "012" => String "092" (String "f" k)
  | "010" => String "092" (String "n" k)
  | "013" => String "092" (String "r" k)
  | "009" => String "092" (String "t" k)
  | _ =>
      if (JsString.code c <? 32)%N
      then String "092" (String "u" (String "0" (String "0"
             (String (hexDigit (JsString.code c / 16))
                (String (hexDigit (JsString.code c mod 16)) k)))))
      else String c k
  end%char.

Fixpoint write_chars (s k : string) : string :=
  match s with
  | EmptyString => k
  | String c s' => escape c (write_chars s' k)
  end.

(** A quoted string, followed by [k]. *)
Definition write_string (s k : string) : string :=
  String "034" (write_chars s (String "034" k)).

Section Separated.
Context {A : Type} (write : A -> string -> string) (close : ascii).

(** The items separated by commas, then the closing bracket, then [k]. *)
Fixpoint write_sep (xs : list A) (k : string) : string :=
  match xs with
  | [] => String close k
  | x :: xs' =>
      match xs' with
      | [] => write x (String close k)
      | _ :: _ => write x (String "," (write_sep xs' k))
      end
  end.
End Separated.

(** The text of a value, followed by [k]. *)
Fixpoint write_value (v : value) (k : string) {struct v} : string :=
  match v with
  | JNull => "null" +:+ k
  | JBool true => "true" +:+ k
  | JBool false => "false" +:+ k
  | JNum lexeme => lexeme +:+ k
  | JStr s => write_string s k
  | JArr vs => String "[" (write_sep write_value "]" vs k)
  | JObj ms =>
      String "{"
        (write_sep
           (fun m k' => write_string m.1 (String ":" (write_value m.2 k')))
           "}" ms k)
  end.

(** One member of an object: the quoted key, a colon, the value. *)
Definition writeMember (m : string * value) (k : string) : string :=
  write_string m.1 (String ":" (write_value m.2 k)).

(** [JSON.stringify(v)] *)
Definition stringify (v : value) : string := write_value v "".

(** *** Reading *)

Definition isJsonSpace (c : ascii) : bool :=
  match c with
  | " " | "009" | "010" | "013" => true
  | _ => false
  end%char.

Fixpoint skip_ws (s : string) : string :=
  match s with
  | EmptyString => EmptyString
  | String c r => if isJsonSpace c then skip_ws r else s
  end.

Definition hexValue (c : ascii) : option N :=
  let n := JsString.code c in
  if JsString.isDigit c then Some (n - 48)%N
  else if ((97 <=? n) && (n <=? 102))%N then Some (n - 87)%N
  else if ((65 <=? n) && (n <=? 70))%N then Some (n - 55)%N
  else None.

Definition hex4 (h1 h2 h3 h4 : ascii) : option ascii :=
  a ← hexValue h1; b ← hexValue h2; c ← hexValue h3; d ← hexValue h4;
  let n := (((a * 16 + b) * 16 + c) * 16 + d)%N in
  if (n <? 256)%N then Some (ascii_of_N n) else None.

Definition unescape (e : ascii) : option ascii :=
  match e with
  | "034" => Some "034"
  | "092" => Some "092"
  | "/" => Some "/"
  | "b" => Some "008"
  | "f" => Some "012"
  | "n" => Some "010"
  | "r" => Some "013"
  | "t" => Some "009"
  | _ => None
  end%char.

Definition push (c : ascii) (p : option (string * string)) : option (string * string) :=
  match p with
  | Some (s, r) => Some (String c s, r)
  | None => None
  end.

(** The characters of a string literal after its opening quote: the
    decoded string and the text after the closing quote. *)
Fixpoint parse_chars (s : string) : option (string * string) :=
  match s with
  | EmptyString => None
  | String "034" r => Some (EmptyString, r)
  | String "092" (String "u" (String h1 (String h2 (String h3 (String h4 r))))) =>
      match hex4 h1 h2 h3 h4 with
      | Some c => push c (parse_chars r)
      | None => None
      end
  | String "092" (String e r) =>
      match unescape e with
      | Some c => push c (parse_chars r)
      | None => None
      end
  | String "092" EmptyString => None
  | String c r =>
      if (JsString.code c <? 32)%N then None else push c (parse_chars r)
  end%char.

(** The longest prefix of digits, and the rest. *)
Fixpoint digits (s : string) : string * string :=
  match s with
  | EmptyString => (EmptyString, EmptyString)
  | String c r =>
      if JsString.isDigit c
      then let (d, r') := digits r in (String c d, r')
      else (EmptyString, s)
  end.

Definition scan_int (s : string) : option (string * string) :=
  match s with
  | String "0" r => Some (String "0" EmptyString, r)
  | _ => match digits s with
         | (EmptyString, _) => None
         | p => Some p
         end
  end%char.

Definition scan_frac (s : string) : option (string * string) :=
  match s with
  | String "." r =>
      match digits r with
      | (EmptyString, _) => None
      | (d, r') => Some (String "." d, r')
      end
  | _ => Some (EmptyString, s)
  end%char.

Definition scan_sign (s : string) : string * string :=
  match s with
  | String "+" r => (String "+" EmptyString, r)
  | String "-" r => (String "-" EmptyString, r)
  | _ => (EmptyString, s)
  end%char.

Definition scan_exp (s : string) : option (string * string) :=
  match s with
  | String c r =>
      if Ascii.eqb c "e" || Ascii.eqb c "E"
      then let (sign, r1) := scan_sign r in
           match digits r1 with
           | (EmptyString, _) => None
           | (d, r') => Some (String c (sign +:+ d), r')
           end
      else Some (EmptyString, s)
  | EmptyString => Some (EmptyString, EmptyString)
  end%char.

(** A number literal: [-? int frac? exp?]. *)
Definition scan_number (s : string) : option (string * string) :=
  let (sign, s0) :=
    match s with
    | String "-" r => (String "-" EmptyString, r)
    | _ => (EmptyString, s)
    end%char in
  '(i, s1) ← scan_int s0;
  '(f, s2) ← scan_frac s1;
  '(e, s3) ← scan_exp s2;
  Some (sign +:+ i +:+ f +:+ e, s3).

(** Recursive descent; [fuel] bounds the number of nested calls. *)
Fixpoint parse_value (fuel : nat) (s : string) {struct fuel}
  : option (value * string) :=
  match fuel with
  | O => None
  | S n =>
      match skip_ws s with
      | String "{" r =>
          match skip_ws r with
          | String "}" r' => Some (JObj [], r')
          | _ => '(ms, r') ← parse_members n r; Some (JObj ms, r')
          end
      | String "[" r =>
          match skip_ws r with
          | String "]" r' => Some (JArr [], r')
          | _ => '(vs, r') ← parse_elems n r; Some (JArr vs, r')
          end
      | String "034" r => '(str, r') ← parse_chars r; Some (JStr str, r')
      | String "t" (String "r" (String "u" (String "e" r))) =>
          Some (JBool true, r)
      | String "f" (String "a" (String "l" (String "s" (String "e" r)))) =>
          Some (JBool false, r)
      | String "n" (String "u" (String "l" (String "l" r))) =>
          Some (JNull, r)
      | s' => '(lexeme, r) ← scan_number s'; Some (JNum lexeme, r)
      end%char
  end
with parse_elems (fuel : nat) (s : string) {struct fuel}
  : option (list value * string) :=
  match fuel with
  | O => None
  | S n =>
      '(v, r) ← parse_value n s;
      match skip_ws r with
      | String "," r' => '(vs, r'') ← parse_elems n r'; Some (v :: vs, r'')
      | String "]" r' => Some ([v], r')
      | _ => None
      end%char
  end
with parse_members (fuel : nat) (s : string) {struct fuel}
  : option (list (string * value) * string) :=
  match fuel with
  | O => None
  | S n =>
      match skip_ws s with
      | String "034" r =>
          '(key, r1) ← parse_chars r;
          match skip_ws r1 with
          | String ":" r2 =>
              '(v, r3) ← parse_value n r2;
              match skip_ws r3 with
              | String "," r4 =>
                  '(ms, r5) ← parse_members n r4; Some ((key, v) :: ms, r5)
              | String "}" r4 => Some ([(key, v)], r4)
              | _ => None
              end
          | _ => None
          end
      | _ => None
      end%char
  end.

(** Nested calls that reading an array of records takes at most. *)
Definition weight (objs : list (list (string * string))) : nat :=
  foldr (fun o n => length o + 3 + n) 0 objs.

(** [JSON.parse(text)]; [None] stands for the [SyntaxError] it throws. *)
Definition parse (text : string) : option value :=
  match parse_value (2 * String.length text + 2) text with
  | Some (v, r) =>
      match skip_ws r with
      | EmptyString => Some v
      | String _ _ => None
      end
  | None => None
  end.

End Json.

(** ** Arrays: [Array.prototype.sort]

  The sort is stable (ECMAScript 2019); with a consistent comparator every
  stable sort gives the same array, here by insertion.  [cmp a b <= 0]
  keeps [a] before [b]. *)

Module JsArray.

Section Sort.
Context {A : Type} (cmp : A -> A -> Z).

Fixpoint insert (x : A) (l : list A) : list A :=
  match l with
  | [] => [x]
  | y :: l' => if (cmp x y <=? 0)%Z then x :: y :: l' else y :: insert x l'
  end.

Fixpoint sort (l : list A) : list A :=
  match l with
  | [] => []
  | x :: l' => insert x (sort l')
  end.

End Sort.

End JsArray.

(** ** Objects used as tables

  An object literal filled by assignments [o[k] = v] is a table of own
  properties in creation order.  [Object.entries] lists the keys that are
  array indices first, in ascending numeric order, then the other keys in
  creation order (OrdinaryOwnPropertyKeys).  The keys an object inherits
  from [Object.prototype] are listed in [ObjectPrototype]; the code that
  reads or writes under them says what becomes of them. *)

Module JsObject.

(** The value of a string of decimal digits. *)
Fixpoint decimal (s : string) (acc : N) : option N :=
  match s with
  | EmptyString => Some acc
  | String c r =>
      if JsString.isDigit c
      then decimal r (10 * acc + (JsString.code c - 48))%N
      else None
  end.

(** An array index is the canonical decimal text of an integer below
    [2^32 - 1]. *)
Definition arrayIndex (s : string) : option N :=
  match s with
  | EmptyString => None
  | String "0" EmptyString => Some 0%N
  | String "0" (String _ _) => None
  | _ => n ← decimal s 0%N; if (n <? 4294967295)%N then Some n else None
  end%char.

Definition isIndex (s : string) : bool :=
  match arrayIndex s with Some _ => true | None => false end.

Section Table.
Context {V : Type}.

(** [o[k]], [None] for [undefined] *)
Fixpoint get (k : string) (o : list (string * V)) : option V :=
  match o with
  | [] => None
  | (k', v) :: o' => if String.eqb k k' then Some v else get k o'
  end.

(** [o[k] = v] *)
Fixpoint set (k : string) (v : V) (o : list (string * V)) : list (string * V) :=
  match o with
  | [] => [(k, v)]
  | (k', v') :: o' =>
      if String.eqb k k' then (k, v) :: o' else (k', v') :: set k v o'
  end.

Definition indexOf (e : string * V) : Z :=
  match arrayIndex e.1 with Some n => Z.of_N n | None => 0%Z end.

(** [Object.entries(o)] *)
Definition entries (o : list (string * V)) : list (string * V) :=
  JsArray.sort (fun a b => (indexOf a - indexOf b)%Z)
    (List.filter (fun e => isIndex e.1) o)
  ++ List.filter (fun e => negb (isIndex e.1)) o.

End Table.

End JsObject.

(** ** The data model ([types/student.ts]) *)

Inductive Status : Type := active | inactive | graduated.

Definition statusName (s : Status) : string :=
  match s with
  | active => "active"
  | inactive => "inactive"
  | graduated => "graduated"
  end.

Module Student.

Record t : Type := mk {
  id : string;
  name : string;
  email : string;
  course : string;
  profileImage : option string;
  enrollmentDate : string;
  status : Status
}.

(** The own properties of a record at run time, in declaration order;
    [profileImage] is left out when it is undefined. *)
Definition fields (s : t) : list (string * string) :=
  [("id", id s); ("name", name s); ("email", email s); ("course", course s)]
  ++ match profileImage s with
     | Some img => [("profileImage", img)]
     | None => []
     end
  ++ [("enrollmentDate", enrollmentDate s);
      ("status", statusName (status s))].

(** The object a record is at run time. *)
Definition toJs (s : t) : Json.value := Json.record (fields s).

End Student.

(** ** The browser: [window], [localStorage], the console *)

Module Browser.

Inductive StorageCall : Type :=
| GetItem (key : string)
| SetItem (key value : string)
| RemoveItem (key : string).

(** The state of [localStorage]: its entries, which of its methods throw
    (a denied or full store), and the calls it has received. *)
Record LocalStorage : Type := mkStorage {
  items : gmap string string;
  getItemThrows : bool;
  setItemThrows : bool;
  removeItemThrows : bool;
  calls : list StorageCall
}.

Record Env : Type := mkEnv {
  hasWindow : bool;
  localStorage : LocalStorage;
  console : list string
}.

(** The outcome of a statement that may throw. *)
Inductive completion (A : Type) : Type :=
| Normal (a : A)
| Throw.
Arguments Normal {A} a.
Arguments Throw {A}.

Definition logCall (c : StorageCall) (st : LocalStorage) : LocalStorage :=
  mkStorage (items st) (getItemThrows st) (setItemThrows st)
    (removeItemThrows st) (calls st ++ [c]).

Definition getItem (key : string) (st : LocalStorage)
  : completion (option string) * LocalStorage :=
  let st' := logCall (GetItem key) st in
  if getItemThrows st then (Throw, st') else (Normal (items st !! key), st').

Definition setItem (key value : string) (st : LocalStorage)
  : completion unit * LocalStorage :=
  let st' := logCall (SetItem key value) st in
  if setItemThrows st then (Throw, st')
  else (Normal tt,
        mkStorage (<[key := value]> (items st')) (getItemThrows st')
          (setItemThrows st') (removeItemThrows st') (calls st')).

Definition removeItem (key : string) (st : LocalStorage)
  : completion unit * LocalStorage :=
  let st' := logCall (RemoveItem key) st in
  if removeItemThrows st then (Throw, st')
  else (Normal tt,
        mkStorage (delete key (items st')) (getItemThrows st')
          (setItemThrows st') (removeItemThrows st') (calls st')).

Definition withStorage (st : LocalStorage) (env : Env) : Env :=
  mkEnv (hasWindow env) st (console env).

(** [console.error(msg, ...)] *)
Definition consoleError (msg : string) (env : Env) : Env :=
  mkEnv (hasWindow env) (localStorage env) (console env ++ [msg]).

End Browser.

(** ** The persistence adapter ([lib/student-storage.ts], class
    [StudentStorage])

  [getStudents] returns what [JSON.parse] produced: its [Student[]] type is
  an unchecked cast, so the model returns the parsed values as they are. *)

Module StudentStorage.
Import Browser.

Definition STORAGE_KEY : string := "student-management-data".

Definition getDefaultStudents : list Student.t :=
  [ Student.mk "1" "Alice Johnson" "alice.johnson@email.com"
      "Computer Science" (Some "/professional-woman-portrait.png")
      "2024-01-15" active;
    Student.mk "2" "Bob Smith" "bob.smith@email.com"
      "Data Science" (Some "/professional-man-portrait.png")
      "2024-02-01" active;
    Student.mk "3" "Carol Davis" "carol.davis@email.com"
      "Web Development" (Some "/professional-woman-portrait.png")
      "2023-09-10" graduated ].

(** The [try] block of [getStudents]. *)
Definition getStudents_try (env : Env) : completion (list Json.value) * Env :=
  if negb (hasWindow env) then (Normal [], env)
  else
    let (r, st) := getItem STORAGE_KEY (localStorage env) in
    let env' := withStorage st env in
    match r with
    | Throw => (Throw, env')
    | Normal None => (Normal (map Student.toJs getDefaultStudents), env')
    | Normal (Some stored) =>
        if negb (JsString.truthy stored)
        then (Normal (map Student.toJs getDefaultStudents), env')
        else
          match Json.parse stored with
          | None => (Throw, env')
          | Some (Json.JArr parsed) => (Normal parsed, env')
          | Some _ => (Normal (map Student.toJs getDefaultStudents), env')
          end
    end.

Definition getStudents (env : Env) : list Json.value * Env :=
  match getStudents_try env with
  | (Normal students, env') => (students, env')
  | (Throw, env') =>
      (map Student.toJs getDefaultStudents,
       consoleError "Error loading students from storage:" env')
  end.

(** The [try] block of [saveStudents]. *)
Definition saveStudents_try (students : list Student.t) (env : Env)
  : completion bool * Env :=
  if negb (hasWindow env) then (Normal false, env)
  else
    let text := Json.stringify (Json.JArr (map Student.toJs students)) in
    let (r, st) := setItem STORAGE_KEY text (localStorage env) in
    match r with
    | Throw => (Throw, withStorage st env)
    | Normal _ => (Normal true, withStorage st env)
    end.

Definition saveStudents (students : list Student.t) (env : Env) : bool * Env :=
  match saveStudents_try students env with
  | (Normal ok, env') => (ok, env')
  | (Throw, env') =>
      (false, consoleError "Error saving students to storage:" env')
  end.

(** The [try] block of [clearStudents]. *)
Definition clearStudents_try (env : Env) : completion bool * Env :=
  if negb (hasWindow env) then (Normal false, env)
  else
    let (r, st) := removeItem STORAGE_KEY (localStorage env) in
    match r with
    | Throw => (Throw, withStorage st env)
    | Normal _ => (Normal true, withStorage st env)
    end.

Definition clearStudents (env : Env) : bool * Env :=
  match clearStudents_try env with
  | (Normal ok, env') => (ok, env')
  | (Throw, env') =>
      (false, consoleError "Error clearing students from storage:" env')
  end.

(** The sample set, as the adapter returns it. *)
Definition sampleSet : list Json.value := map Student.toJs getDefaultStudents.


End StudentStorage.

(** ** The field validators and the e-mail check
    ([components/student-form.tsx], [lib/mock-api.ts]) *)

Module StudentForm.
Import Regex.

(** [[^\s@]] *)
Definition emailAtom (c : ascii) : bool :=
  negb (JsString.isWhiteSpace c || Ascii.eqb c "@").

(** [/^[^\s@]+@[^\s@]+\.[^\s@]+$/] *)
Definition emailRegex : regex :=
  Seq (Plus (Class emailAtom))
    (Seq (Chr "@")
       (Seq (Plus (Class emailAtom))
          (Seq (Chr ".") (Plus (Class emailAtom))))).

(** [[a-zA-Z\s\-']] *)
Definition nameChar (c : ascii) : bool :=
  JsString.isLetter c || JsString.isWhiteSpace c
  || Ascii.eqb c "-" || Ascii.eqb c "'".

(** [/^[a-zA-Z\s\-']+$/] *)
Definition nameRegex : regex := Plus (Class nameChar).

Definition validateName (name : string) : option string :=
  if negb (JsString.truthy (JsString.trim name))
  then Some "Name is required"
  else if String.length (JsString.trim name) <? 2
  then Some "Name must be at least 2 characters long"
  else if 50 <? String.length (JsString.trim name)
  then Some "Name must be less than 50 characters"
  else if negb (test nameRegex (JsString.trim name))
  then Some "Name can only contain letters, spaces, hyphens, and apostrophes"
  else None.

Definition validateEmailFormat (email : string) : option string :=
  if negb (JsString.truthy (JsString.trim email))
  then Some "Email is required"
  else if negb (test emailRegex email)
  then Some "Please enter a valid email address"
  else None.

Definition validateCourse (course : string) : option string :=
  if negb (JsString.truthy course) then Some "Please select a course"
  else None.

(** [mockApiService.validateEmail]: the value its promise resolves to (the
    simulated delay does not change it, and the promise never rejects). *)
Definition mockValidateEmail (email : string) : bool :=
  if negb (JsString.includes email "@") then false
  else test emailRegex email.

(** What [validateEmailAsync] does, in order. *)
Inductive Effect : Type :=
| SetEmailValidationResult (r : option bool)
| SetIsValidatingEmail (b : bool)
| CallValidateEmail (email : string)
| ConsoleError (msg : string).

(** [initialData?.email && email.trim().toLowerCase() ===
     initialData.email.trim().toLowerCase()] *)
Definition unchangedEmail (initialData : option Student.t) (email : string)
  : bool :=
  match initialData with
  | None => false
  | Some d =>
      JsString.truthy (Student.email d)
      && String.eqb (JsString.toLowerCase (JsString.trim email))
           (JsString.toLowerCase (JsString.trim (Student.email d)))
  end.

(** [remote] is the availability service; [None] is a rejected promise. *)
Definition validateEmailAsync (remote : string -> option bool)
    (initialData : option Student.t) (email : string) : list Effect :=
  match validateEmailFormat email with
  | Some _ => [SetEmailValidationResult None]
  | None =>
      if unchangedEmail initialData email
      then [SetEmailValidationResult (Some true)]
      else
        [SetIsValidatingEmail true; SetEmailValidationResult None;
         CallValidateEmail email]
        ++ match remote email with
           | Some isValid => [SetEmailValidationResult (Some isValid)]
           | None => [ConsoleError "Email validation failed:";
                      SetEmailValidationResult None]
           end
        ++ [SetIsValidatingEmail false]
  end.

(** The part of the component state the check writes, with the requests
    the service received. *)
Record State : Type := mkState {
  isValidatingEmail : bool;
  emailValidationResult : option bool;
  requests : list string
}.

Definition step (st : State) (e : Effect) : State :=
  match e with
  | SetEmailValidationResult r =>
      mkState (isValidatingEmail st) r (requests st)
  | SetIsValidatingEmail b =>
      mkState b (emailValidationResult st) (requests st)
  | CallValidateEmail email =>
      mkState (isValidatingEmail st) (emailValidationResult st)
        (requests st ++ [email])
  | ConsoleError _ => st
  end.

Definition run (effects : list Effect) (st : State) : State :=
  fold_left step effects st.

(** The service the form imports. *)
Definition mockApiService (email : string) : option bool :=
  Some (mockValidateEmail email).

End StudentForm.

(** ** The list filters ([components/student-list.tsx]) *)

Module StudentList.

Definition matchesSearch (searchTerm : string) (student : Student.t) : bool :=
  String.eqb searchTerm ""
  || JsString.includes (JsString.toLowerCase (Student.name student))
       (JsString.toLowerCase searchTerm)
  || JsString.includes (JsString.toLowerCase (Student.email student))
       (JsString.toLowerCase searchTerm).

Definition matchesStatus (statusFilter : string) (student : Student.t) : bool :=
  String.eqb statusFilter "all"
  || String.eqb (statusName (Student.status student)) statusFilter.

Definition matchesCourse (courseFilter : string) (student : Student.t) : bool :=
  String.eqb courseFilter "all"
  || String.eqb (Student.course student) courseFilter.

Definition filteredStudents (students : list Student.t)
    (searchTerm statusFilter courseFilter : string) : list Student.t :=
  List.filter
    (fun student =>
       matchesSearch searchTerm student
       && matchesStatus statusFilter student
       && matchesCourse courseFilter student)
    students.

(** [text] contains [term], letter case ignored. *)
Definition containsIgnoringCase (text term : string) : Prop :=
  exists before after,
    JsString.toLowerCase text
    = before +:+ JsString.toLowerCase term +:+ after.

(** The conjunction of the three filters, in the words of the
    specification. *)
Definition Selected (searchTerm statusFilter courseFilter : string)
    (student : Student.t) : Prop :=
  (searchTerm = ""
   \/ containsIgnoringCase (Student.name student) searchTerm
   \/ containsIgnoringCase (Student.email student) searchTerm)
  /\ (statusFilter = "all"
      \/ statusName (Student.status student) = statusFilter)
  /\ (courseFilter = "all" \/ Student.course student = courseFilter).

End StudentList.

(** ** The properties every object inherits

  An object literal inherits from [Object.prototype].  Its properties
  are functions held in writable data properties, except [__proto__],
  an accessor: its getter yields the prototype and its setter ignores a
  value that is neither an object nor [null]. *)

Module ObjectPrototype.

Definition methods : list string :=
  ["constructor"; "__defineGetter__"; "__defineSetter__"; "hasOwnProperty";
   "__lookupGetter__"; "__lookupSetter__"; "isPrototypeOf";
   "propertyIsEnumerable"; "toString"; "valueOf"; "toLocaleString"].

Definition isMethod (k : string) : bool := existsb (String.eqb k) methods.

Definition isProto (k : string) : bool := String.eqb k "__proto__".

(** [k in {}] *)
Definition inherited (k : string) : bool := isMethod k || isProto k.

End ObjectPrototype.

(** ** The dashboard controller ([app/page.tsx]) *)

Module Dashboard.

(** What the distribution holds under a key.  The reducer is typed to
    store numbers; under a key that names an inherited function it
    stores a string: the text of that function followed by the ones that
    each [+ 1] appends. *)
Inductive Tally : Type :=
| Count (n : nat)
| FunctionText (member : string) (ones : nat).

Record Stats : Type := mkStats {
  total : nat;
  courseDistribution : list (string * Tally);
  mostPopularCourse : string
}.

(** The reducer of [courseDistribution]:
    [acc[student.course] = (acc[student.course] || 0) + 1].
    The read finds an own property, else an inherited one, else
    [undefined]; a function or the prototype object is truthy and
    [+ 1] turns it into a string.  The write creates or updates an own
    property, except under [__proto__], whose setter ignores the
    string. *)
Definition countCourse (acc : list (string * Tally)) (student : Student.t)
  : list (string * Tally) :=
  let k := Student.course student in
  match JsObject.get k acc with
  | Some (Count n) => JsObject.set k (Count (n + 1)) acc
  | Some (FunctionText member ones) =>
      JsObject.set k (FunctionText member (ones + 1)) acc
  | None =>
      if ObjectPrototype.isMethod k then JsObject.set k (FunctionText k 1) acc
      else if ObjectPrototype.isProto k then acc
      else JsObject.set k (Count 1) acc
  end.

(** [ToNumber]; [None] is [NaN] (the text of a function is no numeral). *)
Definition toNumber (t : Tally) : option Z :=
  match t with
  | Count n => Some (Z.of_nat n)
  | FunctionText _ _ => None
  end.

(** The comparator [([, a], [, b]) => b - a]; [sort] takes [NaN] for
    [+0].  It is consistent among counts, and among entries that all
    compare equal; with a text among counts that differ it is not, and
    the standard then leaves the order to the implementation. *)
Definition byCountDesc (x y : string * Tally) : Z :=
  match toNumber y.2, toNumber x.2 with
  | Some b, Some a => (b - a)%Z
  | _, _ => 0%Z
  end.

(** [entries.sort(...)[0]?.[0] || "None"] *)
Definition firstKeyOrNone (sorted : list (string * Tally)) : string :=
  match sorted with
  | [] => "None"
  | (c, _) :: _ => if JsString.truthy c then c else "None"
  end.

Definition studentStats (students : list Student.t) : Stats :=
  let totalStudents := length students in
  let distribution := fold_left countCourse students [] in
  mkStats totalStudents distribution
    (firstKeyOrNone
       (JsArray.sort byCountDesc (JsObject.entries distribution))).

(** The state the handlers read and write: the [students] array of the
    component and the browser the adapter works on. *)
Record State : Type := mkState {
  students : list Student.t;
  env : Browser.Env
}.

Definition handleDeleteStudent (studentId : string) (d : State) : State :=
  let updatedStudents :=
    List.filter (fun s => negb (String.eqb (Student.id s) studentId))
      (students d) in
  mkState updatedStudents
    (StudentStorage.saveStudents updatedStudents (env d)).2.

(** The number of records assigned to a course. *)
Definition courseCount (c : string) (students : list Student.t) : nat :=
  length (List.filter (fun s => String.eqb (Student.course s) c) students).

(** The count an entry holds; a text holds none. *)
Definition number (t : Tally) : nat :=
  match t with
  | Count n => n
  | FunctionText _ _ => 0
  end.

(** Every entry holds a count. *)
Definition Counts (l : list (string * Tally)) : Prop :=
  forall x, In x l -> x.2 = Count (number x.2).

(** [e] is the first entry of [l] with the greatest count. *)
Definition FirstMax (e : string * Tally) (l : list (string * Tally)) : Prop :=
  exists pre post,
    l = pre ++ e :: post
    /\ (forall x, In x pre -> number x.2 < number e.2)
    /\ (forall x, In x post -> number x.2 <= number e.2).

(** No record is assigned to a course named like an inherited
    property. *)
Definition PlainCourses (students : list Student.t) : Prop :=
  forall s, In s students -> ObjectPrototype.inherited (Student.course s) = false.

End Dashboard.

(** ** The mock API ([lib/mock-api.ts]): the course catalog *)

Module Course.

Record t : Type := mk {
  id : string;
  name : string;
  code : string;
  description : string;
  duration : string;
  instructor : string
}.

Definition fields (c : t) : list (string * string) :=
  [("id", id c); ("name", name c); ("code", code c);
   ("description", description c); ("duration", duration c);
   ("instructor", instructor c)].

(** The object a course is at run time. *)
Definition toJs (c : t) : Json.value := Json.record (fields c).

End Course.

Module MockApi.

(** How a promise settles. *)
Inductive settled (A : Type) : Type :=
| Resolved (a : A)
| Rejected (error : string).
Arguments Resolved {A} a.
Arguments Rejected {A} error.

Definition mockCourses : list Course.t :=
  [ Course.mk "1" "Computer Science" "CS101"
      "Introduction to programming and computer science fundamentals"
      "4 years" "Dr. Sarah Johnson";
    Course.mk "2" "Data Science" "DS201"
      "Data analysis, machine learning, and statistical modeling"
      "2 years" "Prof. Michael Chen";
    Course.mk "3" "Web Development" "WD301"
      "Full-stack web development with modern frameworks"
      "1 year" "Ms. Emily Rodriguez";
    Course.mk "4" "Mobile Development" "MD401"
      "iOS and Android app development"
      "18 months" "Mr. David Kim";
    Course.mk "5" "Cybersecurity" "CY501"
      "Information security and ethical hacking"
      "3 years" "Dr. Lisa Thompson" ].

(** [JSON.parse(JSON.stringify(v))]; a text that does not parse makes
    the promise reject with the [SyntaxError]. *)
Definition copy (v : Json.value) : settled Json.value :=
  match Json.parse (Json.stringify v) with
  | Some w => Resolved w
  | None => Rejected "SyntaxError"
  end.

(** [getCourses]; [unlucky] is the outcome of [Math.random() < 0.1].  The
    simulated delay changes no result. *)
Definition getCourses (unlucky : bool) : settled Json.value :=
  if unlucky then Rejected "Failed to fetch courses from API"
  else copy (Json.JArr (map Course.toJs mockCourses)).

(** [getCourseById]; [None] is [null]. *)
Definition getCourseById (id : string) : settled (option Json.value) :=
  match List.find (fun c => String.eqb (Course.id c) id) mockCourses with
  | Some course =>
      match copy (Course.toJs course) with
      | Resolved v => Resolved (Some v)
      | Rejected e => Rejected e
      end
  | None => Resolved None
  end.

End MockApi.

(** ** The state of the form ([components/student-form.tsx]) *)

Module FormModel.
Import StudentForm.

Record FormData : Type := mkData {
  name : string;
  email : string;
  course : string;
  profileImage : string;
  status : string
}.

(** The [errors] object: an absent key is [None]. *)
Record Errors : Type := mkErrors {
  nameError : option string;
  emailError : option string;
  courseError : option string;
  profileImageError : option string
}.

Definition noErrors : Errors := mkErrors None None None None.

(** [keyof typeof formData] *)
Inductive Field : Type := FName | FEmail | FCourse | FProfileImage | FStatus.

Record State : Type := mkForm {
  formData : FormData;
  errors : Errors;
  isSubmitting : bool;
  isValidatingEmail : bool;
  emailValidationResult : option bool;
  imagePreview : option string
}.

(** The initial state of the hooks. *)
Definition initialState : State :=
  mkForm (mkData "" "" "" "" "active") noErrors false false None None.

(** An optional message in a condition: [undefined] and the empty string
    are falsy. *)
Definition present (e : option string) : bool :=
  match e with
  | Some s => JsString.truthy s
  | None => false
  end.

(** [if (e) o.key = e], starting from an absent key. *)
Definition keep (e : option string) : option string :=
  if present e then e else None.

(** [{ ...prev, [field]: value }] *)
Definition setField (field : Field) (value : string) (d : FormData) : FormData :=
  match field with
  | FName => mkData value (email d) (course d) (profileImage d) (status d)
  | FEmail => mkData (name d) value (course d) (profileImage d) (status d)
  | FCourse => mkData (name d) (email d) value (profileImage d) (status d)
  | FProfileImage => mkData (name d) (email d) (course d) value (status d)
  | FStatus => mkData (name d) (email d) (course d) (profileImage d) value
  end.

Definition getField (field : Field) (d : FormData) : string :=
  match field with
  | FName => name d
  | FEmail => email d
  | FCourse => course d
  | FProfileImage => profileImage d
  | FStatus => status d
  end.

(** [next[field] = e] for [Some], [delete next[field]] for [None]; the
    object has no [status] key. *)
Definition setError (field : Field) (e : option string) (errs : Errors) : Errors :=
  match field with
  | FName =>
      mkErrors e (emailError errs) (courseError errs) (profileImageError errs)
  | FEmail =>
      mkErrors (nameError errs) e (courseError errs) (profileImageError errs)
  | FCourse =>
      mkErrors (nameError errs) (emailError errs) e (profileImageError errs)
  | FProfileImage =>
      mkErrors (nameError errs) (emailError errs) (courseError errs) e
  | FStatus => errs
  end.

Definition getError (field : Field) (errs : Errors) : option string :=
  match field with
  | FName => nameError errs
  | FEmail => emailError errs
  | FCourse => courseError errs
  | FProfileImage => profileImageError errs
  | FStatus => None
  end.

(** The [switch] of [validateField]. *)
Definition fieldVerdict (field : Field) (value : string) : option string :=
  match field with
  | FName => validateName value
  | FEmail => validateEmailFormat value
  | FCourse => validateCourse value
  | FProfileImage | FStatus => None
  end.

(** [validateField]: the new [errors] and the returned flag. *)
Definition validateField (field : Field) (value : string) (errs : Errors)
  : Errors * bool :=
  let fieldError := fieldVerdict field value in
  (setError field (keep fieldError) errs, negb (present fieldError)).

(** [handleInputChange(field)] and [handleSelectChange(field)], applied
    to the new value. *)
Definition handleChange (field : Field) (value : string) (st : State) : State :=
  mkForm (setField field value (formData st))
    (validateField field value (errors st)).1
    (isSubmitting st) (isValidatingEmail st) (emailValidationResult st)
    (imagePreview st).

(** The file picked in the upload control, with the data URL the reader
    will produce for it. *)
Record File : Type := mkFile {
  fileType : string;
  fileSize : N;
  dataUrl : string
}.

(** [handleImageUpload], up to the completion of the reader. *)
Definition handleImageUpload (file : option File) (st : State) : State :=
  match file with
  | None => st
  | Some f =>
      if negb (JsString.startsWith (fileType f) "image/")
      then mkForm (formData st)
             (setError FProfileImage
                (Some "Please select a valid image file") (errors st))
             (isSubmitting st) (isValidatingEmail st)
             (emailValidationResult st) (imagePreview st)
      else if (5 * 1024 * 1024 <? fileSize f)%N
      then mkForm (formData st)
             (setError FProfileImage
                (Some "Image size must be less than 5MB") (errors st))
             (isSubmitting st) (isValidatingEmail st)
             (emailValidationResult st) (imagePreview st)
      else mkForm (setField FProfileImage (dataUrl f) (formData st))
             (setError FProfileImage None (errors st))
             (isSubmitting st) (isValidatingEmail st)
             (emailValidationResult st) (Some (dataUrl f))
  end.

Definition removeImage (st : State) : State :=
  mkForm (setField FProfileImage "" (formData st))
    (setError FProfileImage None (errors st))
    (isSubmitting st) (isValidatingEmail st) (emailValidationResult st) None.

(** [validateForm]: the new [errors] and the returned flag. *)
Definition validateForm (d : FormData) (result : option bool) : Errors * bool :=
  let nameError := validateName (name d) in
  let emailError := validateEmailFormat (email d) in
  let courseError := validateCourse (course d) in
  let newErrors :=
    mkErrors (keep nameError)
      (match result with
       | Some false => Some "This email address is already in use"
       | _ => keep emailError
       end)
      (keep courseError) None in
  (newErrors,
   match newErrors with
   | mkErrors None None None None => true
   | _ => false
   end).

(** What the form hands to [onSubmit]. *)
Record Payload : Type := mkPayload {
  payloadId : option string;
  payloadName : string;
  payloadEmail : string;
  payloadCourse : string;
  payloadImage : option string;
  payloadEnrollmentDate : string;
  payloadStatus : string
}.

(** The [studentData] of [handleSubmit]; [today] is
    [new Date().toISOString().split("T")[0]]. *)
Definition studentData (initialData : option Student.t) (today : string)
    (d : FormData) : Payload :=
  mkPayload
    (match initialData with
     | Some i => if JsString.truthy (Student.id i) then Some (Student.id i) else None
     | None => None
     end)
    (JsString.trim (name d))
    (JsString.toLowerCase (JsString.trim (email d)))
    (course d)
    (if JsString.truthy (profileImage d) then Some (profileImage d) else None)
    (match initialData with
     | Some i => Student.enrollmentDate i
     | None => today
     end)
    (status d).

(** [handleSubmit], up to the settling of [onSubmit] ([accepts] tells
    whether its promise resolves): the final state and the payload handed
    over, if any. *)
Definition handleSubmit (accepts : Payload -> bool)
    (initialData : option Student.t) (today : string) (st : State)
  : State * option Payload :=
  let (newErrors, ok) := validateForm (formData st) (emailValidationResult st) in
  if negb ok
  then (mkForm (formData st) newErrors (isSubmitting st)
          (isValidatingEmail st) (emailValidationResult st) (imagePreview st),
        None)
  else
    let data := studentData initialData today (formData st) in
    if accepts data
    then
      match initialData with
      | None =>
          (mkForm (mkData "" "" "" "" "active") noErrors false
             (isValidatingEmail st) None None,
           Some data)
      | Some _ =>
          (mkForm (formData st) newErrors false (isValidatingEmail st)
             (emailValidationResult st) (imagePreview st),
           Some data)
      end
    else
      (mkForm (formData st)
         (mkErrors None (Some "Failed to save student. Please try again.")
            None None)
         false (isValidatingEmail st) (emailValidationResult st)
         (imagePreview st),
       Some data).

(** [Object.values(errors).some(Boolean)] *)
Definition hasErrors (errs : Errors) : bool :=
  present (nameError errs) || present (emailError errs)
  || present (courseError errs) || present (profileImageError errs).

(** The truth value of [isFormValid]. *)
Definition isFormValid (st : State) : bool :=
  JsString.truthy (JsString.trim (name (formData st)))
  && JsString.truthy (JsString.trim (email (formData st)))
  && JsString.truthy (course (formData st))
  && negb (hasErrors (errors st))
  && negb (match emailValidationResult st with
           | Some false => true
           | _ => false
           end)
  && negb (isValidatingEmail st).

(** The errors shown for the three validated fields are those the
    validators give for the current values, or none. *)
Definition InSync (st : State) : Prop :=
  forall field,
    field = FName \/ field = FEmail \/ field = FCourse ->
    getError field (errors st) = None
    \/ getError field (errors st)
       = fieldVerdict field (getField field (formData st)).

End FormModel.

(** ** The events of the form *)

Module FormEvents.
Import FormModel.

(** What the user does to the fields. *)
Inductive Event : Type :=
| Change (field : Field) (value : string)
| Upload (file : option File)
| Remove.

Definition react (st : State) (e : Event) : State :=
  match e with
  | Change field value => handleChange field value st
  | Upload file => handleImageUpload file st
  | Remove => removeImage st
  end.

End FormEvents.

(** ** [Set] and the default order of [sort] *)

Module JsSet.

(** [set.add(x)], the values kept in insertion order. *)
Definition add (x : string) (seen : list string) : list string :=
  if existsb (String.eqb x) seen then seen else seen ++ [x].

(** [[...new Set(l)]]: the values of [l] in the order of their first
    occurrence. *)
Definition fromList (l : list string) : list string :=
  fold_left (fun seen x => add x seen) l [].

End JsSet.

Module JsSort.

(** [x < y] on strings: the order of the code units. *)
Definition lessThan (x y : string) : bool :=
  match String.compare x y with
  | Lt => true
  | _ => false
  end.

(** The comparison [sort()] uses when it is given none. *)
Definition defaultCompare (x y : string) : Z :=
  if lessThan x y then (-1)%Z else if lessThan y x then 1%Z else 0%Z.

(** Each element is below the next. *)
Definition Ascending (l : list string) : Prop :=
  Sorted.Sorted (fun x y => lessThan x y = true) l.

End JsSort.

(** ** The list component: statistics and filter options
    ([components/student-list.tsx]) *)

Module StudentListView.
Import StudentList.

(** [l.filter((s) => s.status === name).length] *)
Definition countStatus (name : string) (l : list Student.t) : nat :=
  length
    (List.filter (fun s => String.eqb (statusName (Student.status s)) name) l).

Definition availableCourses (students : list Student.t) : list string :=
  JsArray.sort JsSort.defaultCompare
    (JsSet.fromList (map Student.course students)).

(** The three filter states of the component. *)
Record Filters : Type := mkFilters {
  searchTerm : string;
  statusFilter : string;
  courseFilter : string
}.

Definition initialFilters : Filters := mkFilters "" "all" "all".

Definition clearFilters (f : Filters) : Filters := mkFilters "" "all" "all".

(** [filteredStudents] for the current filters. *)
Definition visible (students : list Student.t) (f : Filters) : list Student.t :=
  filteredStudents students (searchTerm f) (statusFilter f) (courseFilter f).

Record Statistics : Type := mkStatistics {
  total : nat;
  active : nat;
  inactive : nat;
  graduated : nat
}.

Definition statistics (filteredStudents : list Student.t) : Statistics :=
  mkStatistics (length filteredStudents)
    (countStatus "active" filteredStudents)
    (countStatus "inactive" filteredStudents)
    (countStatus "graduated" filteredStudents).

End StudentListView.

(** ** The hook [useLocalStorage] ([hooks/use-local-storage.ts])

  The state of the hook and the browser it works on.  Values are those
  [JSON.stringify] writes as they are (no [undefined], no functions). *)

Module UseLocalStorage.
Import Browser.

(** The first argument of the hook's [console.error] calls. *)
Definition message (what key : string) : string :=
  "Error " +:+ what +:+ " localStorage key "
  +:+ String "034" (key +:+ String "034" ":").

(** The [try] block of the initialiser of the state. *)
Definition initial_try (key : string) (initialValue : Json.value) (env : Env)
  : completion Json.value * Env :=
  if negb (hasWindow env) then (Normal initialValue, env)
  else
    let (r, st) := getItem key (localStorage env) in
    let env' := withStorage st env in
    match r with
    | Throw => (Throw, env')
    | Normal None => (Normal initialValue, env')
    | Normal (Some item) =>
        if JsString.truthy item
        then match Json.parse item with
             | Some v => (Normal v, env')
             | None => (Throw, env')
             end
        else (Normal initialValue, env')
    end.

Record Hook : Type := mkHook {
  storedValue : Json.value;
  env : Env
}.

(** The hook when the component mounts. *)
Definition useLocalStorage (key : string) (initialValue : Json.value)
    (env : Env) : Hook :=
  match initial_try key initialValue env with
  | (Normal v, env') => mkHook v env'
  | (Throw, env') =>
      mkHook initialValue (consoleError (message "reading" key) env')
  end.

(** [setValue]: its argument is a value or an updater. *)
Definition setValue (key : string)
    (value : Json.value + (Json.value -> Json.value)) (h : Hook) : Hook :=
  let valueToStore :=
    match value with
    | inl v => v
    | inr f => f (storedValue h)
    end in
  if negb (hasWindow (env h)) then mkHook valueToStore (env h)
  else
    let (r, st) :=
      setItem key (Json.stringify valueToStore) (localStorage (env h)) in
    match r with
    | Normal _ => mkHook valueToStore (withStorage st (env h))
    | Throw =>
        mkHook valueToStore
          (consoleError (message "setting" key) (withStorage st (env h)))
    end.

Definition removeValue (key : string) (initialValue : Json.value) (h : Hook)
  : Hook :=
  if negb (hasWindow (env h)) then mkHook initialValue (env h)
  else
    let (r, st) := removeItem key (localStorage (env h)) in
    match r with
    | Normal _ => mkHook initialValue (withStorage st (env h))
    | Throw =>
        mkHook initialValue
          (consoleError (message "removing" key) (withStorage st (env h)))
    end.

End UseLocalStorage.

(** ** The dashboard controller: adding, editing, searching
    ([app/page.tsx])

  The handlers read and write the [students] array, the record being
  edited, the active tab (kept by [useLocalStorage]) and the browser.  The
  statements of their [try] blocks do not throw: [saveStudents] and the
  setter of the hook catch what the store throws. *)

Module DashboardHandlers.
Import Browser.

Definition TAB_KEY : string := "student-dashboard-tab".

Record State : Type := mkState {
  students : list Student.t;
  editingStudent : option Student.t;
  activeTab : Json.value;
  error : option string;
  env : Env
}.

(** [Date.now().toString()] for the clock reading [now]. *)
Definition dateNowToString (now : N) : string :=
  DecimalString.NilZero.string_of_uint (N.to_uint now).

(** [{ ...studentData, id }] *)
Definition withId (id : string) (studentData : Student.t) : Student.t :=
  Student.mk id (Student.name studentData) (Student.email studentData)
    (Student.course studentData) (Student.profileImage studentData)
    (Student.enrollmentDate studentData) (Student.status studentData).

(** [setActiveTab(tab)], the setter of
    [useLocalStorage("student-dashboard-tab", "list")]. *)
Definition setActiveTab (tab : string) (st : State) : State :=
  let h :=
    UseLocalStorage.setValue TAB_KEY (inl (Json.JStr tab))
      (UseLocalStorage.mkHook (activeTab st) (env st)) in
  mkState (students st) (editingStudent st) (UseLocalStorage.storedValue h)
    (error st) (UseLocalStorage.env h).

(** [setStudents(updatedStudents); studentStorage.saveStudents(updatedStudents)] *)
Definition store (updatedStudents : list Student.t) (st : State) : State :=
  mkState updatedStudents (editingStudent st) (activeTab st) (error st)
    (StudentStorage.saveStudents updatedStudents (env st)).2.

Definition handleAddStudent (studentData : Student.t) (now : N) (st : State)
  : State :=
  let newStudent := withId (dateNowToString now) studentData in
  let updatedStudents := students st ++ [newStudent] in
  setActiveTab "list" (store updatedStudents st).

Definition handleEditStudent (studentData : Student.t) (st : State) : State :=
  match editingStudent st with
  | None => st
  | Some editing =>
      let updatedStudent := withId (Student.id editing) studentData in
      let updatedStudents :=
        map (fun s =>
               if String.eqb (Student.id s) (Student.id editing)
               then updatedStudent else s)
          (students st) in
      let st1 := store updatedStudents st in
      setActiveTab "list"
        (mkState (students st1) None (activeTab st1) (error st1) (env st1))
  end.

(** [handleDeleteStudent] on this state. *)
Definition handleDeleteStudent (studentId : string) (st : State) : State :=
  let d :=
    Dashboard.handleDeleteStudent studentId
      (Dashboard.mkState (students st) (env st)) in
  mkState (Dashboard.students d) (editingStudent st) (activeTab st) (error st)
    (Dashboard.env d).

Definition startEditing (student : Student.t) (st : State) : State :=
  setActiveTab "form"
    (mkState (students st) (Some student) (activeTab st) (error st) (env st)).

Definition cancelEditing (st : State) : State :=
  setActiveTab "list"
    (mkState (students st) None (activeTab st) (error st) (env st)).

(** The search of the page over name, e-mail address and course. *)
Definition filteredStudents (students : list Student.t)
    (debouncedSearchTerm : string) : list Student.t :=
  if negb (JsString.truthy debouncedSearchTerm) then students
  else
    List.filter
      (fun student =>
         JsString.includes (JsString.toLowerCase (Student.name student))
           (JsString.toLowerCase debouncedSearchTerm)
         || JsString.includes (JsString.toLowerCase (Student.email student))
              (JsString.toLowerCase debouncedSearchTerm)
         || JsString.includes (JsString.toLowerCase (Student.course student))
              (JsString.toLowerCase debouncedSearchTerm))
      students.

(** What the user does on the page. *)
Inductive Action : Type :=
| Add (studentData : Student.t) (now : N)
| Edit (studentData : Student.t)
| Delete (studentId : string)
| StartEditing (student : Student.t)
| CancelEditing.

Definition perform (st : State) (a : Action) : State :=
  match a with
  | Add studentData now => handleAddStudent studentData now st
  | Edit studentData => handleEditStudent studentData st
  | Delete studentId => handleDeleteStudent studentId st
  | StartEditing student => startEditing student st
  | CancelEditing => cancelEditing st
  end.

End DashboardHandlers.

(** ** Records read back from storage

  The components read a stored record property by property
  ([student.id], [student.name], ...).  [read] is that view of a parsed
  value: it does not depend on the order in which the properties were
  written, and a key written twice in the text holds its last value. *)

Module StudentView.

Definition text (k : string) (ms : list (string * Json.value)) : option string :=
  match JsObject.get k (rev ms) with
  | Some (Json.JStr s) => Some s
  | _ => None
  end.

Definition statusOf (name : string) : option Status :=
  if String.eqb name "active" then Some active
  else if String.eqb name "inactive" then Some inactive
  else if String.eqb name "graduated" then Some graduated
  else None.

Definition read (v : Json.value) : option Student.t :=
  match v with
  | Json.JObj ms =>
      id ← text "id" ms;
      name ← text "name" ms;
      email ← text "email" ms;
      course ← text "course" ms;
      enrollmentDate ← text "enrollmentDate" ms;
      status ← text "status" ms ≫= statusOf;
      Some (Student.mk id name email course (text "profileImage" ms)
              enrollmentDate status)
  | _ => None
  end.

End StudentView.

(** ** The dashboard and the store side by side *)

Module DashboardStore.
Import Browser DashboardHandlers.

(** A browser whose store can be read and written. *)
Definition Working (env : Env) : Prop :=
  hasWindow env = true
  /\ getItemThrows (localStorage env) = false
  /\ setItemThrows (localStorage env) = false.

(** A browser whose store refuses every write. *)
Definition ReadOnly (env : Env) : Prop :=
  hasWindow env = true /\ setItemThrows (localStorage env) = true.

(** The window and the failure modes of the store are the same. *)
Definition sameBrowser (env1 env2 : Env) : Prop :=
  hasWindow env1 = hasWindow env2
  /\ getItemThrows (localStorage env1) = getItemThrows (localStorage env2)
  /\ setItemThrows (localStorage env1) = setItemThrows (localStorage env2)
  /\ removeItemThrows (localStorage env1)
     = removeItemThrows (localStorage env2).

(** What [getStudents] would return now is the array on the page. *)
Definition Persisted (st : State) : Prop :=
  map StudentView.read (StudentStorage.getStudents (env st)).1
  = map Some (students st).

End DashboardStore.

(** * Properties *)

(** ** Facts about strings *)

Module JsStringFacts.
Import JsString.

Lemma app_cons (c : ascii) (a b : string) :
  String c a +:+ b = String c (a +:+ b).
Proof. reflexivity. Qed.

Lemma app_empty_l (b : string) : "" +:+ b = b.
Proof. reflexivity. Qed.

Lemma all_app (p : ascii -> bool) (a b : string) :
  all p (a +:+ b) = all p a && all p b.
Proof.
  induction a as [|c a IH]; [reflexivity|].
  rewrite app_cons. simpl. rewrite IH. apply andb_assoc.
Qed.

Lemma truthy_false (s : string) : truthy s = false <-> s = "".
Proof. destruct s; simpl; split; congruence. Qed.

Lemma length_zero (s : string) : String.length s = 0 <-> s = "".
Proof. destruct s; simpl; split; (congruence || lia). Qed.

Lemma trimStart_fixed (s : string) : all notSpace s = true -> trimStart s = s.
Proof.
  destruct s as [|c s]; [reflexivity|]. simpl. unfold notSpace.
  destruct (isWhiteSpace c); [discriminate|reflexivity].
Qed.

Lemma trimEnd_fixed (s : string) : all notSpace s = true -> trimEnd s = s.
Proof.
  induction s as [|c s IH]; [reflexivity|]. simpl. unfold notSpace at 1.
  destruct (isWhiteSpace c) eqn:Hc; [discriminate|]. simpl. intros Hs.
  rewrite (IH Hs). destruct s; reflexivity.
Qed.

(** A string without white space is its own trimmed form. *)
Lemma trim_fixed (s : string) : all notSpace s = true -> trim s = s.
Proof.
  intros H. unfold trim. rewrite (trimStart_fixed s H). apply trimEnd_fixed, H.
Qed.

Lemma trimEnd_spaces (s : string) : all isWhiteSpace s = true -> trimEnd s = "".
Proof.
  induction s as [|c s IH]; [reflexivity|]. simpl.
  destruct (isWhiteSpace c); [|discriminate]. simpl. intros Hs.
  rewrite (IH Hs). reflexivity.
Qed.

Lemma trimStart_spaces (s : string) :
  all isWhiteSpace s = true -> trimStart s = "".
Proof.
  induction s as [|c s IH]; [reflexivity|]. simpl.
  destruct (isWhiteSpace c); [|discriminate]. exact IH.
Qed.

(** A string of white space only trims to the empty string. *)
Lemma trim_spaces (s : string) : all isWhiteSpace s = true -> trim s = "".
Proof.
  intros H. unfold trim. rewrite (trimStart_spaces s H). reflexivity.
Qed.

Lemma trimEnd_empty (s : string) : trimEnd s = "" -> all isWhiteSpace s = true.
Proof.
  induction s as [|c s IH]; [reflexivity|]. simpl.
  destruct (trimEnd s) eqn:E; [|discriminate].
  destruct (isWhiteSpace c); [|discriminate]. intros _. apply IH. reflexivity.
Qed.

Lemma trim_empty (s : string) : trim s = "" -> all isWhiteSpace s = true.
Proof.
  unfold trim. induction s as [|c s IH]; [reflexivity|]. simpl.
  destruct (isWhiteSpace c) eqn:Hc; [exact IH|].
  intros H. apply trimEnd_empty in H. simpl in H. rewrite Hc in H. discriminate.
Qed.

End JsStringFacts.

(** ** Facts about the matcher *)

Module RegexFacts.
Import JsString JsStringFacts Regex.

Lemma test_Void (s : string) : test Void s = false.
Proof. induction s; simpl; auto. Qed.

Lemma test_Alt (r1 r2 : regex) (s : string) :
  test (Alt r1 r2) s = test r1 s || test r2 s.
Proof. revert r1 r2. induction s as [|c s IH]; intros; simpl; auto. Qed.

Lemma test_Eps (s : string) : test Eps s = true <-> s = "".
Proof.
  destruct s; simpl; [tauto|]. rewrite test_Void. split; discriminate.
Qed.

Lemma test_Class (p : ascii -> bool) (s : string) :
  test (Class p) s = true <-> exists c, s = String c "" /\ p c = true.
Proof.
  destruct s as [|c s]; simpl.
  - split; [discriminate|]. intros (c & H & _). discriminate.
  - destruct (p c) eqn:Hp.
    + rewrite test_Eps. split.
      * intros ->. eauto.
      * intros (c' & H & _). congruence.
    + rewrite test_Void. split; [discriminate|].
      intros (c' & H & Hc). congruence.
Qed.

(** A concatenation matches exactly the strings that split into a match of
    each part. *)
Lemma test_Seq (r1 r2 : regex) (s : string) :
  test (Seq r1 r2) s = true <->
  exists s1 s2, s = s1 +:+ s2 /\ test r1 s1 = true /\ test r2 s2 = true.
Proof.
  split.
  - revert r1. induction s as [|c s IH]; intros r1; simpl.
    + intros H. apply andb_true_iff in H as [H1 H2].
      exists "", "". auto.
    + destruct (nullable r1) eqn:Hn.
      * rewrite test_Alt. intros H. apply orb_true_iff in H as [H|H].
        -- apply IH in H as (a & b & -> & Ha & Hb).
           exists (String c a), b. auto.
        -- exists "", (String c s). auto.
      * intros H. apply IH in H as (a & b & -> & Ha & Hb).
        exists (String c a), b. auto.
  - intros (s1 & s2 & -> & H1 & H2). revert r1 H1.
    induction s1 as [|c a IH]; intros r1 H1.
    + rewrite app_empty_l. simpl in H1. destruct s2 as [|c s2]; simpl.
      * simpl in H2. rewrite H1, H2. reflexivity.
      * rewrite H1, test_Alt. simpl in H2. rewrite H2. apply orb_true_r.
    + rewrite app_cons. simpl. simpl in H1.
      destruct (nullable r1).
      * rewrite test_Alt, (IH _ H1). reflexivity.
      * apply IH, H1.
Qed.

Lemma test_Seq_Void (r : regex) (s : string) : test (Seq Void r) s = false.
Proof. induction s; simpl; auto. Qed.

Lemma test_Seq_Eps (r : regex) (s : string) : test (Seq Eps r) s = test r s.
Proof.
  destruct s as [|c s]; simpl; [reflexivity|].
  rewrite test_Alt, test_Seq_Void. reflexivity.
Qed.

(** [[p]*] matches the strings whose characters are all in the class. *)
Lemma test_Star_Class (p : ascii -> bool) (s : string) :
  test (Star (Class p)) s = all p s.
Proof.
  induction s as [|c s IH]; simpl; [reflexivity|].
  destruct (p c); simpl.
  - rewrite test_Seq_Eps. exact IH.
  - apply test_Seq_Void.
Qed.

(** [[p]+] matches the non-empty strings whose characters are all in the
    class. *)
Lemma test_Plus_Class (p : ascii -> bool) (s : string) :
  test (Plus (Class p)) s = truthy s && all p s.
Proof.
  destruct s as [|c s]; simpl; [reflexivity|].
  destruct (p c); simpl.
  - rewrite test_Seq_Eps. apply test_Star_Class.
  - apply test_Seq_Void.
Qed.

Lemma within_deriv (q : ascii -> bool) (c : ascii) (r : regex) :
  within q r -> within q (deriv c r).
Proof.
  induction r; simpl; intros H; auto.
  - destruct (b c); exact I.
  - destruct H as [H1 H2]. destruct (nullable r1); simpl; auto.
  - destruct H; auto.
Qed.

Lemma deriv_outside (q : ascii -> bool) (c : ascii) (r : regex) (s : string) :
  within q r -> q c = false -> test (deriv c r) s = false.
Proof.
  intros Hr Hc. revert s. induction r; simpl in *; intros s.
  - apply test_Void.
  - apply test_Void.
  - destruct (b c) eqn:Hb; [|apply test_Void].
    apply Hr in Hb. congruence.
  - destruct Hr as [H1 H2].
    assert (Hseq : test (Seq (deriv c r1) r2) s = false).
    { destruct (test (Seq (deriv c r1) r2) s) eqn:E; [|reflexivity].
      apply test_Seq in E as (a & b & _ & Ha & _).
      rewrite (IHr1 H1) in Ha. discriminate. }
    destruct (nullable r1); [|exact Hseq].
    rewrite test_Alt, Hseq, (IHr2 H2). reflexivity.
  - destruct Hr as [H1 H2]. rewrite test_Alt, (IHr1 H1), (IHr2 H2). reflexivity.
  - destruct (test (Seq (deriv c r) (Star r)) s) eqn:E; [|reflexivity].
    apply test_Seq in E as (a & b & _ & Ha & _).
    rewrite (IHr Hr) in Ha. discriminate.
Qed.

(** If every class of the pattern lies inside [q], so does every character
    of a matched string. *)
Lemma test_within (q : ascii -> bool) (r : regex) (s : string) :
  within q r -> test r s = true -> all q s = true.
Proof.
  revert r. induction s as [|c s IH]; intros r Hr; simpl; [reflexivity|].
  intros H. destruct (q c) eqn:Hc.
  - simpl. apply (IH (deriv c r)); [apply within_deriv, Hr|exact H].
  - rewrite (deriv_outside q c r s Hr Hc) in H. discriminate.
Qed.

End RegexFacts.

(** ** Facts about JSON: reading back what was written *)

Module JsonFacts.
Import JsString Json.

(** Reading an escaped character gives the character back. *)
Lemma parse_escape (c : ascii) (k : string) :
  parse_chars (escape c k) = push c (parse_chars k).
Proof.
  destruct c as [[] [] [] [] [] [] [] []]; reflexivity.
Qed.

(** Reading the body of a written string gives the string back and stops
    after the closing quote. *)
Lemma parse_write_chars (s k : string) :
  parse_chars (write_chars s (String "034" k)) = Some (s, k).
Proof.
  induction s as [|c s IH]; [reflexivity|].
  cbn [write_chars]. rewrite parse_escape, IH. reflexivity.
Qed.

Lemma parse_value_string (n : nat) (s k : string) :
  parse_value (S n) (write_string s k) = Some (JStr s, k).
Proof.
  unfold write_string. cbn [parse_value skip_ws isJsonSpace].
  rewrite parse_write_chars. reflexivity.
Qed.

Lemma write_value_record (fs : list (string * string)) (k : string) :
  write_value (record fs) k = String "{" (write_sep writeMember "}" (map field fs) k).
Proof. reflexivity. Qed.

Lemma write_value_array (vs : list value) (k : string) :
  write_value (JArr vs) k = String "[" (write_sep write_value "]" vs k).
Proof. reflexivity. Qed.

Lemma writeMember_field (f : string * string) (K : string) :
  writeMember (field f) K = write_string f.1 (String ":" (write_string f.2 K)).
Proof. reflexivity. Qed.

Lemma parse_members_step (n : nat) (f : string * string) (K : string) :
  parse_members (S (S n)) (writeMember (field f) K) =
  match skip_ws K with
  | String "," r4 =>
      '(ms, r5) ← parse_members (S n) r4; Some (field f :: ms, r5)
  | String "}" r4 => Some ([field f], r4)
  | _ => None
  end%char.
Proof.
  rewrite writeMember_field.
  unfold write_string at 1. cbn [parse_members skip_ws isJsonSpace].
  rewrite parse_write_chars. cbn [mbind option_bind skip_ws isJsonSpace].
  rewrite parse_value_string. reflexivity.
Qed.

(** The members of a record are read back, with fuel for each of them. *)
Lemma parse_members_record (fs : list (string * string)) (n : nat) (k : string) :
  fs <> [] -> length fs <= n ->
  parse_members (S n) (write_sep writeMember "}" (map field fs) k)
  = Some (map field fs, k).
Proof.
  revert n. induction fs as [|f fs IH]; intros n Hne Hn; [congruence|].
  destruct n as [|n]; [simpl in Hn; lia|].
  destruct fs as [|g fs].
  - cbn [map write_sep]. rewrite parse_members_step. reflexivity.
  - change (write_sep writeMember "}" (map field (f :: g :: fs)) k)
      with (writeMember (field f)
              (String "," (write_sep writeMember "}" (map field (g :: fs)) k))).
    rewrite parse_members_step. cbn [skip_ws isJsonSpace].
    rewrite IH; [reflexivity|congruence|simpl in *; lia].
Qed.

Lemma parse_value_record (fs : list (string * string)) (n : nat) (k : string) :
  length fs + 1 < n ->
  parse_value n (write_value (record fs) k) = Some (record fs, k).
Proof.
  intros Hn. rewrite write_value_record.
  destruct n as [|[|n]]; [lia|lia|].
  destruct fs as [|f fs]; [reflexivity|].
  cbn [parse_value skip_ws isJsonSpace].
  assert (Hhead : exists r, write_sep writeMember "}" (map field (f :: fs)) k = String "034" r).
  { destruct fs; eexists; reflexivity. }
  destruct Hhead as [r Hr].
  rewrite (parse_members_record (f :: fs) n k) by (simpl in *; (congruence || lia)).
  rewrite Hr. reflexivity.
Qed.

Lemma parse_elems_S (n : nat) (s : string) :
  parse_elems (S n) s =
  '(v, r) ← parse_value n s;
  match skip_ws r with
  | String "," r' => '(vs, r'') ← parse_elems n r'; Some (v :: vs, r'')
  | String "]" r' => Some ([v], r')
  | _ => None
  end%char.
Proof. reflexivity. Qed.

(** The records of an array are read back, with fuel for their weight. *)
Lemma parse_elems_records (objs : list (list (string * string))) (n : nat) (k : string) :
  objs <> [] -> weight objs <= n ->
  parse_elems n (write_sep write_value "]" (map record objs) k)
  = Some (map record objs, k).
Proof.
  revert n. induction objs as [|o objs IH]; intros n Hne Hn; [congruence|].
  cbn [weight foldr] in Hn. fold (weight objs) in Hn.
  destruct n as [|n]; [lia|]. rewrite parse_elems_S.
  destruct objs as [|p objs].
  - cbn [map write_sep].
    rewrite parse_value_record by lia. reflexivity.
  - change (write_sep write_value "]" (map record (o :: p :: objs)) k)
      with (write_value (record o)
              (String "," (write_sep write_value "]" (map record (p :: objs)) k))).
    rewrite parse_value_record by lia.
    cbn [mbind option_bind skip_ws isJsonSpace].
    rewrite IH; [reflexivity|congruence|lia].
Qed.

Lemma parse_value_records (objs : list (list (string * string))) (n : nat) (k : string) :
  weight objs < n ->
  parse_value n (write_value (JArr (map record objs)) k)
  = Some (JArr (map record objs), k).
Proof.
  intros Hn. destruct n as [|n]; [lia|].
  rewrite write_value_array. destruct objs as [|o objs]; [reflexivity|].
  cbn [parse_value skip_ws isJsonSpace].
  rewrite (parse_elems_records (o :: objs) n k) by (congruence || lia).
  assert (Hhead : exists r, write_sep write_value "]" (map record (o :: objs)) k = String "{" r).
  { destruct objs; eexists; reflexivity. }
  destruct Hhead as [r ->]. reflexivity.
Qed.

Lemma length_escape (c : ascii) (k : string) :
  String.length k < String.length (escape c k).
Proof.
  destruct c as [[] [] [] [] [] [] [] []]; simpl; lia.
Qed.

Lemma length_write_chars (s k : string) :
  String.length k <= String.length (write_chars s k).
Proof.
  induction s as [|c s IH]; simpl; [lia|].
  pose proof (length_escape c (write_chars s k)). lia.
Qed.

Lemma length_write_string (s k : string) :
  String.length k + 2 <= String.length (write_string s k).
Proof.
  unfold write_string. simpl.
  pose proof (length_write_chars s (String "034" k)). simpl in *. lia.
Qed.

Lemma length_members (fs : list (string * string)) (k : string) :
  length fs + 1 + String.length k
  <= String.length (write_sep writeMember "}" (map field fs) k).
Proof.
  induction fs as [|f fs IH]; [simpl; lia|].
  destruct fs as [|g fs].
  - cbn [map write_sep]. rewrite writeMember_field.
    pose proof (length_write_string f.1 (String ":" (write_string f.2 (String "}" k)))).
    pose proof (length_write_string f.2 (String "}" k)).
    simpl in *. lia.
  - change (write_sep writeMember "}" (map field (f :: g :: fs)) k)
      with (writeMember (field f)
              (String "," (write_sep writeMember "}" (map field (g :: fs)) k))).
    rewrite writeMember_field.
    match goal with |- _ <= String.length (write_string ?a (String ":" (write_string ?b ?K))) =>
      pose proof (length_write_string a (String ":" (write_string b K)));
      pose proof (length_write_string b K) end.
    simpl in *. lia.
Qed.

Lemma length_record (fs : list (string * string)) (k : string) :
  length fs + 2 + String.length k <= String.length (write_value (record fs) k).
Proof.
  rewrite write_value_record. pose proof (length_members fs k). simpl. lia.
Qed.

(** The text of an array of records is at least as long as its weight, so
    the fuel [parse] takes from the length of the text is enough. *)
Lemma length_records (objs : list (list (string * string))) (k : string) :
  weight objs + String.length k
  <= String.length (write_sep write_value "]" (map record objs) k).
Proof.
  induction objs as [|o objs IH]; [simpl; lia|].
  cbn [weight foldr]. fold (weight objs).
  destruct objs as [|p objs].
  - cbn [map write_sep]. pose proof (length_record o (String "]" k)). simpl in *. lia.
  - change (write_sep write_value "]" (map record (o :: p :: objs)) k)
      with (write_value (record o)
              (String "," (write_sep write_value "]" (map record (p :: objs)) k))).
    match goal with |- _ <= String.length (write_value _ ?K) =>
      pose proof (length_record o K) end.
    simpl in *. lia.
Qed.

(** [JSON.parse(JSON.stringify(a))] is [a] for an array of records. *)
Theorem parse_stringify_records (objs : list (list (string * string))) :
  parse (stringify (JArr (map record objs))) = Some (JArr (map record objs)).
Proof.
  unfold parse, stringify.
  rewrite parse_value_records; [reflexivity|].
  rewrite write_value_array. pose proof (length_records objs ""). simpl in *. lia.
Qed.

Lemma stringify_array_truthy (vs : list value) : truthy (stringify (JArr vs)) = true.
Proof. reflexivity. Qed.

End JsonFacts.

(** ** The persistence adapter *)

Module StudentStorageFacts.
Import Browser StudentStorage.

Lemma statusName_inj (a b : Status) : statusName a = statusName b -> a = b.
Proof. destruct a, b; simpl; intros H; congruence. Qed.

(** Two records with the same run-time object are equal. *)
Lemma toJs_inj (s1 s2 : Student.t) : Student.toJs s1 = Student.toJs s2 -> s1 = s2.
Proof.
  destruct s1 as [i1 n1 e1 c1 [p1|] d1 t1], s2 as [i2 n2 e2 c2 [p2|] d2 t2];
    unfold Student.toJs, Json.record, Student.fields, Json.field; simpl;
    intros H; simplify_eq; f_equal; auto using statusName_inj.
Qed.

Lemma map_toJs_inj (R R' : list Student.t) :
  map Student.toJs R = map Student.toJs R' -> R = R'.
Proof.
  revert R'. induction R as [|s R IH]; intros [|s' R'] H;
    try discriminate; [reflexivity|].
  change (Student.toJs s :: map Student.toJs R
          = Student.toJs s' :: map Student.toJs R') in H.
  assert (Hs : Student.toJs s = Student.toJs s') by congruence.
  assert (HR : map Student.toJs R = map Student.toJs R') by congruence.
  f_equal; [apply toJs_inj, Hs|apply IH, HR].
Qed.

Lemma map_toJs_records (R : list Student.t) :
  map Student.toJs R = map Json.record (map Student.fields R).
Proof. rewrite map_map. reflexivity. Qed.



(** C2. With a window and a store whose writes and reads succeed,
    [saveStudents R] reports success and stores the JSON text of [R]; a
    [getStudents] that follows returns the objects of [R], each with its
    properties in the same order and with the same values, so that [R] is
    the only record set it can stand for. *)
Theorem save_then_load_roundtrip
    (R : list Student.t) (st : LocalStorage) (out : list string) :
  setItemThrows st = false ->
  getItemThrows st = false ->
  let env := mkEnv true st out in
  let saved := saveStudents R env in
  saved.1 = true
  /\ items (localStorage saved.2) !! STORAGE_KEY
     = Some (Json.stringify (Json.JArr (map Student.toJs R)))
  /\ (getStudents saved.2).1 = map Student.toJs R
  /\ (forall R', (getStudents saved.2).1 = map Student.toJs R' -> R' = R).
Proof.
  intros Hset Hget env saved.
  assert (Hload : (getStudents saved.2).1 = map Student.toJs R).
  { subst saved env. unfold saveStudents, saveStudents_try, setItem. simpl.
    rewrite Hset. simpl.
    unfold getStudents, getStudents_try, getItem. simpl.
    rewrite Hget, lookup_insert_eq. simpl.
    rewrite map_toJs_records, JsonFacts.parse_stringify_records. reflexivity. }
  split; [|split; [|split]].
  - subst saved env. unfold saveStudents, saveStudents_try, setItem. simpl.
    rewrite Hset. reflexivity.
  - subst saved env. unfold saveStudents, saveStudents_try, setItem. simpl.
    rewrite Hset. simpl. apply lookup_insert_eq.
  - exact Hload.
  - intros R' H. rewrite Hload in H. symmetry. apply map_toJs_inj, H.
Qed.

Lemma save_then_load_witness :
  let env := mkEnv true (mkStorage ∅ false false false []) [] in
  (getStudents (saveStudents getDefaultStudents env).2).1
    = map Student.toJs getDefaultStudents
  /\ (getStudents (saveStudents [] env).2).1 = [].
Proof.
  split.
  - apply (save_then_load_roundtrip getDefaultStudents
             (mkStorage ∅ false false false []) []); reflexivity.
  - apply (save_then_load_roundtrip []
             (mkStorage ∅ false false false []) []); reflexivity.
Defined.

(** C9. Without a window object (server-side rendering) [getStudents]
    returns the empty list, not the sample set, and [saveStudents] and
    [clearStudents] return [false]; none of them touches the store: the
    environment, with the record of the calls the store received, is
    unchanged. *)
Theorem no_window_no_storage (env : Env) :
  hasWindow env = false ->
  getStudents env = ([], env)
  /\ (getStudents env).1 <> sampleSet
  /\ (forall R, saveStudents R env = (false, env))
  /\ clearStudents env = (false, env).
Proof.
  intros H.
  unfold getStudents, getStudents_try, saveStudents, saveStudents_try,
    clearStudents, clearStudents_try.
  rewrite H. simpl. split; [reflexivity|]. split; [discriminate|].
  split; reflexivity.
Qed.

Lemma no_window_witness :
  let env := mkEnv false (mkStorage ∅ false false false []) [] in
  getStudents env = ([], env)
  /\ saveStudents getDefaultStudents env = (false, env)
  /\ clearStudents env = (false, env).
Proof.
  pose proof (no_window_no_storage
                (mkEnv false (mkStorage ∅ false false false []) [])
                eq_refl) as (H1 & _ & H2 & H3).
  split; [exact H1|split; [apply H2|exact H3]].
Defined.

End StudentStorageFacts.

(** ** The validators of the form *)

Module StudentFormFacts.
Import JsString JsStringFacts Regex RegexFacts StudentForm.

Lemma all_impl (p q : ascii -> bool) (s : string) :
  (forall c, p c = true -> q c = true) -> all p s = true -> all q s = true.
Proof.
  intros Hpq. induction s as [|c s IH]; simpl; [auto|].
  intros H. apply andb_true_iff in H as [Hc Hs].
  rewrite (Hpq c Hc), (IH Hs). reflexivity.
Qed.

Lemma all_trimStart (p : ascii -> bool) (s : string) :
  (forall c, isWhiteSpace c = true -> p c = true) ->
  all p (trimStart s) = all p s.
Proof.
  intros Hp. induction s as [|c s IH]; simpl; [reflexivity|].
  destruct (isWhiteSpace c) eqn:Hc; [|reflexivity].
  rewrite (Hp c Hc). exact IH.
Qed.

Lemma all_trimEnd (p : ascii -> bool) (s : string) :
  (forall c, isWhiteSpace c = true -> p c = true) ->
  all p (trimEnd s) = all p s.
Proof.
  intros Hp. induction s as [|c s IH]; simpl; [reflexivity|].
  destruct (trimEnd s) as [|d r] eqn:E.
  - assert (Hs : all p s = true).
    { apply (all_impl isWhiteSpace); [exact Hp|]. apply trimEnd_empty, E. }
    rewrite Hs, andb_true_r.
    destruct (isWhiteSpace c) eqn:Hc; simpl.
    + symmetry. apply Hp, Hc.
    + apply andb_true_r.
  - change (all p (String c (String d r))) with (p c && all p (String d r)).
    rewrite IH. reflexivity.
Qed.

(** Trimming removes white space only. *)
Lemma all_trim (p : ascii -> bool) (s : string) :
  (forall c, isWhiteSpace c = true -> p c = true) ->
  all p (trim s) = all p s.
Proof.
  intros Hp. unfold trim. rewrite all_trimEnd, all_trimStart; auto.
Qed.

Lemma nameChar_space (c : ascii) : isWhiteSpace c = true -> nameChar c = true.
Proof.
  intros H. unfold nameChar. rewrite H. destruct (isLetter c); reflexivity.
Qed.

Lemma truthy_length (s : string) : truthy s = true <-> 0 < String.length s.
Proof. destruct s; simpl; split; (congruence || lia). Qed.

(** C7. [validateName] accepts [Al] and [Jean-Luc O'Brien]; it answers
    [A] with the too-short message and [John123] with the
    invalid-characters message.  In general the checks run in the order of
    the source: an empty or all-white-space name gets the required message;
    otherwise a trimmed length under 2 gets the too-short message and a
    trimmed length over 50 (so every name of 51 characters without
    surrounding white space) the too-long message; otherwise a name with a
    character other than a letter, a space character (the class [\s]), a
    hyphen or an apostrophe gets the invalid-characters message, and a name
    without such a character is accepted. *)
Theorem validateName_cases :
  validateName "Al" = None
  /\ validateName "Jean-Luc O'Brien" = None
  /\ validateName "A" = Some "Name must be at least 2 characters long"
  /\ validateName "John123"
     = Some "Name can only contain letters, spaces, hyphens, and apostrophes"
  /\ validateName "" = Some "Name is required"
  /\ (forall name, all isWhiteSpace name = true ->
        validateName name = Some "Name is required")
  /\ (forall name, String.length (trim name) = 1 ->
        validateName name = Some "Name must be at least 2 characters long")
  /\ (forall name, 50 < String.length (trim name) ->
        validateName name = Some "Name must be less than 50 characters")
  /\ (forall name, String.length name = 51 -> trim name = name ->
        validateName name = Some "Name must be less than 50 characters")
  /\ (forall name,
        2 <= String.length (trim name) <= 50 -> all nameChar name = false ->
        validateName name
        = Some "Name can only contain letters, spaces, hyphens, and apostrophes")
  /\ (forall name,
        2 <= String.length (trim name) <= 50 -> all nameChar name = true ->
        validateName name = None).
Proof.
  assert (Hlong : forall name, 50 < String.length (trim name) ->
            validateName name = Some "Name must be less than 50 characters").
  { intros name H. unfold validateName.
    destruct (truthy (trim name)) eqn:Ht; simpl.
    - destruct (Nat.ltb_spec (String.length (trim name)) 2); [lia|].
      destruct (Nat.ltb_spec 50 (String.length (trim name))); [reflexivity|lia].
    - apply truthy_false in Ht. rewrite Ht in H. simpl in H. lia. }
  assert (Hmid : forall name, 2 <= String.length (trim name) <= 50 ->
            validateName name
            = if all nameChar name then None
              else Some "Name can only contain letters, spaces, hyphens, and apostrophes").
  { intros name H. unfold validateName.
    assert (Ht : truthy (trim name) = true) by (apply truthy_length; lia).
    rewrite Ht. simpl.
    destruct (Nat.ltb_spec (String.length (trim name)) 2); [lia|].
    destruct (Nat.ltb_spec 50 (String.length (trim name))); [lia|].
    unfold nameRegex. rewrite test_Plus_Class, Ht. simpl.
    rewrite (all_trim nameChar name nameChar_space).
    destruct (all nameChar name); reflexivity. }
  repeat (split; [reflexivity|]).
  split; [|split; [|split; [|split; [|split]]]].
  - intros name H. unfold validateName. rewrite (trim_spaces name H). reflexivity.
  - intros name H. unfold validateName.
    assert (Ht : truthy (trim name) = true) by (apply truthy_length; lia).
    rewrite Ht, H. reflexivity.
  - exact Hlong.
  - intros name H Ht. apply Hlong. rewrite Ht. lia.
  - intros name H Hc. rewrite (Hmid name H), Hc. reflexivity.
  - intros name H Hc. rewrite (Hmid name H), Hc. reflexivity.
Qed.

Lemma validateName_witness :
  validateName (String "009" " ") = Some "Name is required"
  /\ validateName " z " = Some "Name must be at least 2 characters long"
  /\ validateName "abcdefghijklmnopqrstuvwxyzabcdefghijklmnopqrstuvwxy"
     = Some "Name must be less than 50 characters"
  /\ validateName "Ann_Lee"
     = Some "Name can only contain letters, spaces, hyphens, and apostrophes"
  /\ validateName "Mary Ann" = None.
Proof.
  destruct validateName_cases as (_ & _ & _ & _ & _ & H1 & H2 & _ & H3 & H4 & H5).
  split; [|split; [|split; [|split]]].
  - apply H1. reflexivity.
  - apply H2. reflexivity.
  - apply H3; reflexivity.
  - apply H4; [vm_compute; lia|reflexivity].
  - apply H5; [vm_compute; lia|reflexivity].
Defined.

(** The format pattern accepts exactly the strings [local@domain.tld] whose
    three parts are non-empty and free of white space and of [@]. *)
Lemma emailRegex_shape (s : string) :
  test emailRegex s = true <->
  exists l d t,
    s = l +:+ "@" +:+ d +:+ "." +:+ t
    /\ (truthy l = true /\ all emailAtom l = true)
    /\ (truthy d = true /\ all emailAtom d = true)
    /\ (truthy t = true /\ all emailAtom t = true).
Proof.
  unfold emailRegex, Chr. split.
  - intros H.
    apply test_Seq in H as (l & r1 & -> & Hl & H).
    apply test_Seq in H as (a & r2 & -> & Ha & H).
    apply test_Seq in H as (d & r3 & -> & Hd & H).
    apply test_Seq in H as (b & t & -> & Hb & Ht).
    apply test_Class in Ha as (ca & -> & Hca). apply Ascii.eqb_eq in Hca as <-.
    apply test_Class in Hb as (cb & -> & Hcb). apply Ascii.eqb_eq in Hcb as <-.
    rewrite test_Plus_Class in Hl, Hd, Ht.
    apply andb_true_iff in Hl, Hd, Ht.
    exists l, d, t. auto.
  - intros (l & d & t & -> & Hl & Hd & Ht).
    apply test_Seq. exists l, ("@" +:+ d +:+ "." +:+ t).
    split; [reflexivity|]. split.
    { rewrite test_Plus_Class. apply andb_true_iff, Hl. }
    apply test_Seq. exists "@", (d +:+ "." +:+ t).
    split; [reflexivity|]. split; [reflexivity|].
    apply test_Seq. exists d, ("." +:+ t).
    split; [reflexivity|]. split.
    { rewrite test_Plus_Class. apply andb_true_iff, Hd. }
    apply test_Seq. exists ".", t.
    split; [reflexivity|]. split; [reflexivity|].
    rewrite test_Plus_Class. apply andb_true_iff, Ht.
Qed.

(** C8. [validateEmailFormat] accepts [a@b.co], answers [no-at-sign.com]
    with the format message, and answers the empty string with the required
    message, not the format message. *)
Theorem validateEmailFormat_cases :
  validateEmailFormat "a@b.co" = None
  /\ validateEmailFormat "no-at-sign.com"
     = Some "Please enter a valid email address"
  /\ validateEmailFormat "" = Some "Email is required"
  /\ validateEmailFormat "" <> Some "Please enter a valid email address".
Proof.
  split; [reflexivity|]. split; [reflexivity|]. split; [reflexivity|].
  discriminate.
Qed.

Lemma emailRegex_within : within notSpace emailRegex.
Proof.
  assert (Hatom : forall c, emailAtom c = true -> notSpace c = true).
  { intros c. unfold emailAtom, notSpace.
    destruct (isWhiteSpace c); simpl; auto. }
  assert (Hchr : forall a c, notSpace a = true ->
            Ascii.eqb a c = true -> notSpace c = true).
  { intros a c Ha Hc. apply Ascii.eqb_eq in Hc as <-. exact Ha. }
  unfold emailRegex, Plus, Chr. cbn [within].
  repeat match goal with |- _ /\ _ => split end;
    try exact Hatom; intros c; apply Hchr; reflexivity.
Qed.

(** An address that passes the format check has no white space, so trimming
    leaves it as it is. *)
Lemma validateEmailFormat_trim (email : string) :
  validateEmailFormat email = None -> trim email = email.
Proof.
  unfold validateEmailFormat.
  destruct (truthy (trim email)); simpl; [|discriminate].
  destruct (test emailRegex email) eqn:E; simpl; [|discriminate].
  intros _. apply trim_fixed.
  apply (test_within notSpace emailRegex); [apply emailRegex_within|exact E].
Qed.

Lemma validateEmailFormat_truthy (email : string) :
  validateEmailFormat email = None -> truthy (trim email) = true.
Proof.
  unfold validateEmailFormat.
  destruct (truthy (trim email)); simpl; [reflexivity|discriminate].
Qed.

Lemma toLowerCase_truthy (s : string) : truthy (toLowerCase s) = truthy s.
Proof. destruct s; reflexivity. Qed.

Lemma trim_truthy (s : string) : truthy (trim s) = true -> truthy s = true.
Proof. destruct s; [discriminate|reflexivity]. Qed.

(** C3, as the code has it.  When the address typed in equals, trimmed and
    in lower case, the address of the record being edited,
    [validateEmailAsync] never calls the availability service.  If the
    address passes the format check (any letter-casing) the result is set to
    [true]; if it does not, which is the case of every address with
    surrounding white space, the result is set to [null]. *)
Theorem unchanged_email_skips_remote
    (remote : string -> option bool) (initial : Student.t) (email : string) :
  toLowerCase (trim email) = toLowerCase (trim (Student.email initial)) ->
  let trace := validateEmailAsync remote (Some initial) email in
  (forall request, ~ In (CallValidateEmail request) trace)
  /\ (forall st, requests (run trace st) = requests st)
  /\ (validateEmailFormat email = None ->
        trace = [SetEmailValidationResult (Some true)])
  /\ (validateEmailFormat email <> None ->
        trace = [SetEmailValidationResult None])
  /\ (trim email <> email -> validateEmailFormat email <> None).
Proof.
  intros Heq trace.
  assert (Hok : validateEmailFormat email = None ->
            trace = [SetEmailValidationResult (Some true)]).
  { intros Hf. subst trace. unfold validateEmailAsync. rewrite Hf.
    assert (Hu : unchangedEmail (Some initial) email = true).
    { unfold unchangedEmail. rewrite Heq, String.eqb_refl, andb_true_r.
      apply trim_truthy. rewrite <- toLowerCase_truthy, <- Heq.
      rewrite toLowerCase_truthy. apply validateEmailFormat_truthy, Hf. }
    rewrite Hu. reflexivity. }
  assert (Hbad : validateEmailFormat email <> None ->
            trace = [SetEmailValidationResult None]).
  { intros Hf. subst trace. unfold validateEmailAsync.
    destruct (validateEmailFormat email); [reflexivity|congruence]. }
  assert (Hcases : trace = [SetEmailValidationResult (Some true)]
                   \/ trace = [SetEmailValidationResult None]).
  { destruct (validateEmailFormat email) eqn:E.
    - right. apply Hbad. discriminate.
    - left. apply Hok. reflexivity. }
  split; [|split; [|split; [|split]]].
  - intros request Hin.
    destruct Hcases as [H|H]; rewrite H in Hin; simpl in Hin;
      destruct Hin as [Hin|[]]; discriminate.
  - intros st. destruct Hcases as [H|H]; rewrite H; reflexivity.
  - exact Hok.
  - exact Hbad.
  - intros Ht Hf. apply Ht, validateEmailFormat_trim, Hf.
Qed.

Lemma unchanged_email_witness :
  let initial :=
    Student.mk "7" "Xavier Young" "x@y.com" "Data Science" None
      "2024-03-01" active in
  validateEmailAsync mockApiService (Some initial) "X@Y.Com"
    = [SetEmailValidationResult (Some true)]
  /\ validateEmailAsync mockApiService (Some initial) "x@y.com "
    = [SetEmailValidationResult None].
Proof.
  split.
  - apply (unchanged_email_skips_remote mockApiService
             (Student.mk "7" "Xavier Young" "x@y.com" "Data Science" None
                "2024-03-01" active) "X@Y.Com"); reflexivity.
  - apply (unchanged_email_skips_remote mockApiService
             (Student.mk "7" "Xavier Young" "x@y.com" "Data Science" None
                "2024-03-01" active) "x@y.com "); [reflexivity|discriminate].
Defined.

(** C3, as stated, fails: the record holds [x@y.com] and the address typed
    in is the same in capitals with a space on either side.  The two are
    equal once trimmed and in lower case, the service is not called, but the
    result is set to [null], not to [true]. *)
Lemma unchanged_email_with_spaces_counterexample :
  let initial :=
    Student.mk "7" "Xavier Young" "x@y.com" "Data Science" None
      "2024-03-01" active in
  let email := " X@Y.COM " in
  let trace := validateEmailAsync mockApiService (Some initial) email in
  toLowerCase (trim email) = toLowerCase (trim (Student.email initial))
  /\ trace = [SetEmailValidationResult None]
  /\ emailValidationResult (run trace (mkState false (Some false) []))
     <> Some true.
Proof.
  split; [reflexivity|]. split; [reflexivity|]. discriminate.
Qed.

End StudentFormFacts.

(** ** Filtering a list *)

Module ListFacts.

Lemma filter_sublist {A : Type} (f : A -> bool) (l : list A) :
  sublist (List.filter f l) l.
Proof.
  induction l as [|x l IH]; simpl; [constructor|].
  destruct (f x); constructor; exact IH.
Qed.

Lemma filter_all {A : Type} (f : A -> bool) (l : list A) :
  (forall x, In x l -> f x = true) -> List.filter f l = l.
Proof.
  induction l as [|x l IH]; simpl; intros H; [reflexivity|].
  rewrite (H x (or_introl eq_refl)), IH; auto.
Qed.

Lemma filter_split {A : Type} (f : A -> bool) (l : list A) :
  Permutation l (List.filter f l ++ List.filter (fun x => negb (f x)) l).
Proof.
  induction l as [|x l IH]; simpl; [constructor|].
  destruct (f x); simpl.
  - constructor. exact IH.
  - apply Permutation_cons_app, IH.
Qed.

End ListFacts.

(** ** The list filters *)

Module StudentListFacts.
Import JsString JsStringFacts ListFacts StudentList.

Lemma startsWith_spec (s p : string) :
  startsWith s p = true <-> exists after, s = p +:+ after.
Proof.
  revert s. induction p as [|a p IH]; intros s; simpl.
  - split; [intros _; exists s; reflexivity|reflexivity].
  - destruct s as [|b s].
    + split; [discriminate|]. intros (after & H). discriminate.
    + rewrite andb_true_iff, Ascii.eqb_eq, IH. split.
      * intros (-> & after & ->). exists after. reflexivity.
      * intros (after & H). rewrite app_cons in H. injection H as -> ->.
        split; [reflexivity|]. exists after. reflexivity.
Qed.

(** [includes] finds exactly the substrings. *)
Lemma includes_spec (s sub : string) :
  includes s sub = true <-> exists before after, s = before +:+ sub +:+ after.
Proof.
  induction s as [|c s IH].
  - simpl. rewrite orb_false_r, startsWith_spec. split.
    + intros (after & H). exists "", after. exact H.
    + intros ([|b before] & after & H); [|discriminate].
      exists after. exact H.
  - simpl. rewrite orb_true_iff, startsWith_spec, IH. split.
    + intros [(after & H)|(before & after & H)].
      * exists "", after. exact H.
      * exists (String c before), after. rewrite H. reflexivity.
    + intros ([|b before] & after & H).
      * left. exists after. exact H.
      * right. rewrite app_cons in H. injection H as -> ->.
        exists before, after. reflexivity.
Qed.

Lemma lowerChar_idem (c : ascii) : lowerChar (lowerChar c) = lowerChar c.
Proof. destruct c as [[] [] [] [] [] [] [] []]; reflexivity. Qed.

(** The comparison ignores the letter case of the search term. *)
Lemma toLowerCase_idem (s : string) :
  toLowerCase (toLowerCase s) = toLowerCase s.
Proof.
  induction s as [|c s IH]; simpl; [reflexivity|].
  rewrite lowerChar_idem, IH. reflexivity.
Qed.

Lemma matchesSearch_spec (searchTerm : string) (student : Student.t) :
  matchesSearch searchTerm student = true <->
  searchTerm = ""
  \/ containsIgnoringCase (Student.name student) searchTerm
  \/ containsIgnoringCase (Student.email student) searchTerm.
Proof.
  unfold matchesSearch, containsIgnoringCase.
  rewrite !orb_true_iff, String.eqb_eq, !includes_spec. tauto.
Qed.

Lemma selected_spec (searchTerm statusFilter courseFilter : string)
    (student : Student.t) :
  matchesSearch searchTerm student
  && matchesStatus statusFilter student
  && matchesCourse courseFilter student = true
  <-> Selected searchTerm statusFilter courseFilter student.
Proof.
  unfold Selected, matchesStatus, matchesCourse.
  rewrite !andb_true_iff, matchesSearch_spec, !orb_true_iff, !String.eqb_eq.
  tauto.
Qed.

(** C6. The filtered list holds exactly the records that satisfy the three
    filters together (search term found in the name or in the e-mail
    address, letter case ignored, an empty term matching all; status equal
    to the status filter, [all] matching all; course equal to the course
    filter, [all] matching all): the same records, in the order of the full
    list, the others left out.  For the records Alice (active, CS) and Bob
    (graduated, DS), the status filter [active] leaves Alice alone and the
    search term [bob] leaves Bob alone (Alice's address is taken not to
    contain it). *)
Theorem filteredStudents_exact
    (students : list Student.t) (searchTerm statusFilter courseFilter : string) :
  let shown := filteredStudents students searchTerm statusFilter courseFilter in
  (forall s, In s shown <->
             In s students /\ Selected searchTerm statusFilter courseFilter s)
  /\ sublist shown students
  /\ (exists hidden,
        Permutation students (shown ++ hidden)
        /\ forall s, In s hidden ->
                     ~ Selected searchTerm statusFilter courseFilter s)
  /\ (forall alice bob,
        Student.name alice = "Alice" -> Student.status alice = active ->
        Student.course alice = "CS" ->
        Student.name bob = "Bob" -> Student.status bob = graduated ->
        Student.course bob = "DS" ->
        filteredStudents [alice; bob] "" "active" "all" = [alice]
        /\ (includes (toLowerCase (Student.email alice)) "bob" = false ->
            filteredStudents [alice; bob] "bob" "all" "all" = [bob]
            /\ filteredStudents [alice; bob] "BOB" "all" "all" = [bob])).
Proof.
  intros shown. split; [|split; [|split]].
  - intros s. subst shown. unfold filteredStudents.
    rewrite List.filter_In, selected_spec. reflexivity.
  - apply filter_sublist.
  - eexists. split; [apply filter_split|].
    intros s Hs. apply List.filter_In in Hs as [_ Hs].
    apply negb_true_iff in Hs. intros Hsel. apply selected_spec in Hsel.
    congruence.
  - intros [i1 n1 e1 c1 p1 d1 t1] [i2 n2 e2 c2 p2 d2 t2]; simpl.
    intros -> -> -> -> -> ->. split; [reflexivity|].
    intros He.
    assert (Hlow : toLowerCase "BOB" = "bob") by reflexivity.
    assert (Ha : forall term, toLowerCase term = "bob" ->
              matchesSearch term
                (Student.mk i1 "Alice" e1 "CS" p1 d1 active) = false).
    { intros term Ht. unfold matchesSearch.
      cbn [Student.name Student.email]. rewrite Ht, He.
      destruct term; [discriminate|reflexivity]. }
    unfold filteredStudents. cbn [List.filter].
    rewrite (Ha "bob" eq_refl), (Ha "BOB" Hlow). split; reflexivity.
Qed.

Lemma filteredStudents_witness :
  let alice :=
    Student.mk "1" "Alice" "alice@example.org" "CS" None "2024-01-15" active in
  let bob :=
    Student.mk "2" "Bob" "bob@example.org" "DS" None "2024-02-01" graduated in
  filteredStudents [alice; bob] "" "active" "all" = [alice]
  /\ filteredStudents [alice; bob] "bob" "all" "all" = [bob]
  /\ (In bob (filteredStudents [alice; bob] "EXAMPLE" "graduated" "DS")
      /\ ~ In alice (filteredStudents [alice; bob] "EXAMPLE" "graduated" "DS")).
Proof.
  intros alice bob.
  pose proof (filteredStudents_exact [alice; bob] "EXAMPLE" "graduated" "DS")
    as (Hin & _ & _ & Hex).
  specialize (Hex alice bob eq_refl eq_refl eq_refl eq_refl eq_refl eq_refl)
    as (Hstatus & Hsearch).
  split; [exact Hstatus|]. split; [apply Hsearch; reflexivity|].
  split.
  - apply Hin. split; [right; left; reflexivity|].
    split; [|split].
    + right. right. exists "bob@", ".org". reflexivity.
    + right. reflexivity.
    + right. reflexivity.
  - intros H. apply Hin in H as (_ & _ & [H|H] & _); discriminate.
Defined.

End StudentListFacts.

(** ** Tables and sorting *)

Module JsObjectFacts.
Import JsObject.

Section Table.
Context {V : Type}.
Implicit Types (o : list (string * V)) (k : string) (v : V).

Lemma get_set_eq k v o : get k (set k v o) = Some v.
Proof.
  induction o as [|[k' v'] o IH]; simpl.
  - rewrite String.eqb_refl. reflexivity.
  - destruct (String.eqb k k') eqn:E; simpl; rewrite ?String.eqb_refl, ?E; auto.
Qed.

Lemma get_set_ne k k' v o : k <> k' -> get k' (set k v o) = get k' o.
Proof.
  intros Hne. induction o as [|[k0 v0] o IH]; simpl.
  - apply String.eqb_neq in Hne. rewrite String.eqb_sym, Hne. reflexivity.
  - destruct (String.eqb k k0) eqn:E; simpl.
    + apply String.eqb_eq in E as <-.
      assert (String.eqb k' k = false) as ->; [|reflexivity].
      apply String.eqb_neq. congruence.
    + destruct (String.eqb k' k0); auto.
Qed.

Lemma keys_set k v o k' :
  In k' (map fst (set k v o)) <-> k' = k \/ In k' (map fst o).
Proof.
  induction o as [|[k0 v0] o IH]; simpl.
  - intuition congruence.
  - destruct (String.eqb k k0) eqn:E; simpl.
    + apply String.eqb_eq in E as <-. intuition congruence.
    + rewrite IH. intuition congruence.
Qed.

Lemma NoDup_set k v o : NoDup (map fst o) -> NoDup (map fst (set k v o)).
Proof.
  induction o as [|[k0 v0] o IH]; simpl; intros H.
  - repeat constructor. apply not_elem_of_nil.
  - apply NoDup_cons in H as [Hk0 Ho].
    destruct (String.eqb k k0) eqn:E; simpl.
    + apply String.eqb_eq in E as <-. apply NoDup_cons. auto.
    + apply NoDup_cons. split; [|auto].
      rewrite list_elem_of_In, keys_set, <- list_elem_of_In.
      intros [->|H]; [|auto]. rewrite String.eqb_refl in E. discriminate.
Qed.

Lemma get_In k v o : get k o = Some v -> In (k, v) o.
Proof.
  induction o as [|[k0 v0] o IH]; simpl; [discriminate|].
  destruct (String.eqb k k0) eqn:E.
  - apply String.eqb_eq in E as <-. intros [= ->]. auto.
  - auto.
Qed.

Lemma In_get k v o : NoDup (map fst o) -> In (k, v) o -> get k o = Some v.
Proof.
  induction o as [|[k0 v0] o IH]; simpl; intros Hnd Hin; [contradiction|].
  apply NoDup_cons in Hnd as [Hk0 Ho].
  destruct Hin as [[= -> ->]|Hin].
  - rewrite String.eqb_refl. reflexivity.
  - destruct (String.eqb k k0) eqn:E; [|auto].
    apply String.eqb_eq in E as <-. exfalso. apply Hk0.
    apply list_elem_of_In, (in_map fst _ _ Hin).
Qed.

End Table.

End JsObjectFacts.

Module JsArrayFacts.
Import JsArray.

Section Sort.
Context {A : Type} (cmp : A -> A -> Z).

Lemma In_insert (x y : A) (l : list A) :
  In y (insert cmp x l) <-> y = x \/ In y l.
Proof.
  induction l as [|z l IH]; simpl.
  - split; intros [H|H]; auto.
  - destruct (cmp x z <=? 0)%Z; simpl; [|rewrite IH]; split; intros H;
      intuition auto.
Qed.

(** Sorting keeps the elements. *)
Lemma In_sort (y : A) (l : list A) : In y (sort cmp l) <-> In y l.
Proof.
  induction l as [|x l IH]; simpl; [reflexivity|].
  rewrite In_insert, IH. split; intros [H|H]; auto.
Qed.

End Sort.

End JsArrayFacts.

(** ** The dashboard controller *)

Module DashboardFacts.
Import JsObject JsObjectFacts JsArray JsArrayFacts Dashboard.

Lemma In_entries {V : Type} (e : string * V) (o : list (string * V)) :
  In e (entries o) <-> In e o.
Proof.
  unfold entries. rewrite in_app_iff, In_sort, !List.filter_In.
  destruct (isIndex e.1); simpl; intuition congruence.
Qed.

Lemma byCountDesc_counts (x y : string * Tally) :
  x.2 = Count (number x.2) -> y.2 = Count (number y.2) ->
  byCountDesc x y = (Z.of_nat (number y.2) - Z.of_nat (number x.2))%Z.
Proof. unfold byCountDesc. intros -> ->. reflexivity. Qed.

(** Among counts, the sorted entries start with the first entry of
    greatest count. *)
Lemma sort_head (l : list (string * Tally)) :
  Counts l -> l <> [] ->
  exists e t, sort byCountDesc l = e :: t /\ FirstMax e l.
Proof.
  induction l as [|x l IH]; [congruence|]. intros Hc _. simpl.
  assert (Hcl : Counts l) by (intros z Hz; apply Hc; right; exact Hz).
  destruct l as [|y l].
  - exists x, []. split; [reflexivity|]. exists [], [].
    split; [reflexivity|]. split; intros ? [].
  - destruct (IH Hcl) as (e & t & Hs & pre & post & Hl & Hpre & Hpost);
      [congruence|].
    assert (He : e.2 = Count (number e.2)).
    { apply Hcl. rewrite Hl. apply in_app_iff. right. left. reflexivity. }
    rewrite Hs. simpl.
    rewrite (byCountDesc_counts x e (Hc x (or_introl eq_refl)) He).
    destruct (Z.leb_spec (Z.of_nat (number e.2) - Z.of_nat (number x.2)) 0)
      as [Hle|Hgt].
    + exists x, (e :: t). split; [reflexivity|]. exists [], (y :: l).
      split; [reflexivity|]. split; [intros ? []|].
      intros z Hz. rewrite Hl in Hz. apply in_app_iff in Hz as [Hz|[<-|Hz]].
      * apply Hpre in Hz. lia.
      * lia.
      * apply Hpost in Hz. lia.
    + exists e, (insert byCountDesc x t). split; [reflexivity|].
      exists (x :: pre), post. split; [rewrite Hl; reflexivity|].
      split; [|exact Hpost].
      intros z [<-|Hz]; [lia|auto].
Qed.

Lemma courseCount_cons (c : string) (s : Student.t) (l : list Student.t) :
  courseCount c (s :: l)
  = (if String.eqb (Student.course s) c then 1 else 0) + courseCount c l.
Proof.
  unfold courseCount. simpl.
  destruct (String.eqb (Student.course s) c); reflexivity.
Qed.

Lemma courseCount_In (c : string) (l : list Student.t) :
  0 < courseCount c l -> In c (map Student.course l).
Proof.
  induction l as [|s l IH]; [unfold courseCount; simpl; lia|].
  rewrite courseCount_cons. simpl.
  destruct (String.eqb (Student.course s) c) eqn:E.
  - apply String.eqb_eq in E. auto.
  - simpl. auto.
Qed.

(** A record of another course leaves the entry of [c] alone. *)
Lemma get_countCourse_ne (acc : list (string * Tally)) (s : Student.t)
    (c : string) :
  Student.course s <> c -> get c (countCourse acc s) = get c acc.
Proof.
  intros Hne. unfold countCourse.
  destruct (get (Student.course s) acc) as [[n|member ones]|];
    [apply get_set_ne, Hne..|].
  destruct (ObjectPrototype.isMethod (Student.course s));
    [apply get_set_ne, Hne|].
  destruct (ObjectPrototype.isProto (Student.course s));
    [reflexivity|apply get_set_ne, Hne].
Qed.

(** What the table built by the reducer holds for a course: the number
    of its records, or, for a course named like an inherited function,
    the text of that function with as many ones as it has records; a
    course named [__proto__] gets no entry. *)
Lemma distribution_get (students : list Student.t)
    (acc : list (string * Tally)) (c : string) :
  get c (fold_left countCourse students acc)
  = match courseCount c students with
    | O => get c acc
    | S n =>
        match get c acc with
        | Some (Count m) => Some (Count (m + S n))
        | Some (FunctionText member ones) =>
            Some (FunctionText member (ones + S n))
        | None =>
            if ObjectPrototype.isMethod c then Some (FunctionText c (S n))
            else if ObjectPrototype.isProto c then None
            else Some (Count (S n))
        end
    end.
Proof.
  revert acc. induction students as [|s l IH]; intros acc; [reflexivity|].
  simpl fold_left. rewrite IH, courseCount_cons.
  destruct (String.eqb (Student.course s) c) eqn:E.
  - apply String.eqb_eq in E as <-. unfold countCourse.
    destruct (get (Student.course s) acc) as [[m|member ones]|] eqn:G.
    + rewrite get_set_eq.
      destruct (courseCount (Student.course s) l); simpl; do 2 f_equal; lia.
    + rewrite get_set_eq.
      destruct (courseCount (Student.course s) l); simpl; do 2 f_equal; lia.
    + destruct (ObjectPrototype.isMethod (Student.course s)).
      * rewrite get_set_eq.
        destruct (courseCount (Student.course s) l); simpl; do 2 f_equal;
          lia.
      * destruct (ObjectPrototype.isProto (Student.course s)).
        -- rewrite G. destruct (courseCount (Student.course s) l); reflexivity.
        -- rewrite get_set_eq.
           destruct (courseCount (Student.course s) l); simpl; do 2 f_equal;
             lia.
  - apply String.eqb_neq in E. rewrite (get_countCourse_ne _ _ _ E).
    reflexivity.
Qed.

Lemma distribution_NoDup (students : list Student.t)
    (acc : list (string * Tally)) :
  NoDup (map fst acc) -> NoDup (map fst (fold_left countCourse students acc)).
Proof.
  revert acc. induction students as [|s l IH]; intros acc H; [exact H|].
  simpl. apply IH. unfold countCourse.
  destruct (get (Student.course s) acc) as [[n|member ones]|];
    [apply NoDup_set, H..|].
  destruct (ObjectPrototype.isMethod (Student.course s));
    [apply NoDup_set, H|].
  destruct (ObjectPrototype.isProto (Student.course s));
    [exact H|apply NoDup_set, H].
Qed.

(** The name of a course that has records is not inherited when no
    course of the record set is. *)
Lemma plain_course (students : list Student.t) (c : string) :
  PlainCourses students -> 0 < courseCount c students ->
  ObjectPrototype.isMethod c = false /\ ObjectPrototype.isProto c = false.
Proof.
  intros Hplain Hpos. apply courseCount_In, in_map_iff in Hpos as (s & <- & Hs).
  apply orb_false_elim, Hplain, Hs.
Qed.

Lemma distribution_plain (students : list Student.t) (c : string) :
  PlainCourses students ->
  get c (courseDistribution (studentStats students))
  = match courseCount c students with
    | O => None
    | S n => Some (Count (S n))
    end.
Proof.
  intros Hplain. simpl. rewrite distribution_get. simpl.
  destruct (courseCount c students) as [|n] eqn:E; [reflexivity|].
  destruct (plain_course students c Hplain) as [-> ->]; [lia|reflexivity].
Qed.

Lemma distribution_In (students : list Student.t) (c : string) (v : Tally) :
  PlainCourses students ->
  (In (c, v) (courseDistribution (studentStats students)) <->
   v = Count (courseCount c students) /\ 0 < courseCount c students).
Proof.
  intros Hplain. split.
  - intros H. apply In_get in H; [|apply distribution_NoDup; constructor].
    rewrite (distribution_plain _ _ Hplain) in H.
    destruct (courseCount c students); [discriminate|].
    injection H as <-. split; [reflexivity|lia].
  - intros [-> H]. apply get_In. rewrite (distribution_plain _ _ Hplain).
    destruct (courseCount c students); [lia|reflexivity].
Qed.

(** C5, as the code has it.  For course assignments CS, CS, DS the
    distribution is CS: 2, DS: 1 and the most popular course is CS.  In
    general, for a record set none of whose courses is named like a
    property that objects inherit, the distribution gives every course its
    number of records; when the record set is not empty, let [c] be the
    first key, in the order in which [Object.entries] lists the
    distribution, among those of greatest count: [c] is the course of some
    record and no course has more records.  [mostPopularCourse] is [c],
    unless [c] is the empty string, in which case it is the text None. *)
Theorem studentStats_most_popular (students : list Student.t) :
  (map Student.course students = ["CS"; "CS"; "DS"] ->
     courseDistribution (studentStats students)
     = [("CS", Count 2); ("DS", Count 1)]
     /\ mostPopularCourse (studentStats students) = "CS")
  /\ (PlainCourses students ->
      (forall c,
         get c (courseDistribution (studentStats students))
         = match courseCount c students with
           | O => None
           | S n => Some (Count (S n))
           end)
      /\ (students <> [] ->
          exists c pre post,
            map fst (entries (courseDistribution (studentStats students)))
            = pre ++ c :: post
            /\ In c (map Student.course students)
            /\ (forall c', courseCount c' students <= courseCount c students)
            /\ (forall c', In c' pre ->
                           courseCount c' students < courseCount c students)
            /\ mostPopularCourse (studentStats students)
               = if JsString.truthy c then c else "None")).
Proof.
  split; [|intros Hplain; split].
  - intros H.
    destruct students as [|[i1 n1 e1 c1 p1 d1 t1]
                           [|[i2 n2 e2 c2 p2 d2 t2]
                             [|[i3 n3 e3 c3 p3 d3 t3] [|]]]];
      simpl in H; try discriminate.
    injection H as -> -> ->. split; reflexivity.
  - intros c. apply distribution_plain, Hplain.
  - intros Hne.
    set (dist := courseDistribution (studentStats students)).
    assert (Hcount : forall c' v', In (c', v') (entries dist) ->
              v' = Count (courseCount c' students)
              /\ 0 < courseCount c' students).
    { intros c' v' H. apply (distribution_In _ _ _ Hplain), In_entries, H. }
    assert (Hcounts : Counts (entries dist)).
    { intros [c' v'] H. destruct (Hcount c' v' H) as [-> _]. reflexivity. }
    assert (Hdist : entries dist <> []).
    { destruct students as [|s l]; [congruence|].
      assert (Hin : In (Student.course s,
                        Count (courseCount (Student.course s) (s :: l)))
                       (entries dist)).
      { apply In_entries, (distribution_In _ _ _ Hplain).
        split; [reflexivity|].
        rewrite courseCount_cons, String.eqb_refl. lia. }
      intros E. rewrite E in Hin. exact Hin. }
    destruct (sort_head (entries dist) Hcounts Hdist)
      as ([c v] & t & Hs & pre & post & Hl & Hpre & Hpost).
    assert (Hc : v = Count (courseCount c students)
                 /\ 0 < courseCount c students).
    { apply Hcount. rewrite Hl. apply in_app_iff. right. left. reflexivity. }
    destruct Hc as [-> Hpos]. simpl in Hpre, Hpost.
    exists c, (map fst pre), (map fst post).
    split; [rewrite Hl, map_app; reflexivity|].
    split; [apply courseCount_In, Hpos|].
    split; [|split].
    + intros c'. destruct (courseCount c' students) eqn:E; [lia|].
      assert (Hin : In (c', Count (courseCount c' students)) (entries dist)).
      { apply In_entries, (distribution_In _ _ _ Hplain).
        split; [reflexivity|lia]. }
      rewrite Hl in Hin. rewrite <- E.
      apply in_app_iff in Hin as [Hin|[Hin|Hin]].
      * apply Hpre in Hin. simpl in Hin. lia.
      * injection Hin as _ Hin. lia.
      * apply Hpost in Hin. simpl in Hin. lia.
    + intros c' Hin. apply in_map_iff in Hin as ([c0 v0] & <- & Hin).
      assert (Hv0 : v0 = Count (courseCount c0 students)
                    /\ 0 < courseCount c0 students).
      { apply Hcount. rewrite Hl. apply in_app_iff. left. exact Hin. }
      destruct Hv0 as [-> _]. apply Hpre in Hin. simpl in *. lia.
    + change (mostPopularCourse (studentStats students))
        with (firstKeyOrNone (sort byCountDesc (entries dist))).
      rewrite Hs. reflexivity.
Qed.

Lemma studentStats_witness :
  let students :=
    [Student.mk "1" "Alice Johnson" "alice.johnson@email.com" "CS" None
       "2024-01-15" active;
     Student.mk "2" "Bob Smith" "bob.smith@email.com" "CS" None
       "2024-02-01" active;
     Student.mk "3" "Carol Davis" "carol.davis@email.com" "DS" None
       "2023-09-10" graduated] in
  PlainCourses students
  /\ (courseDistribution (studentStats students)
      = [("CS", Count 2); ("DS", Count 1)]
      /\ mostPopularCourse (studentStats students) = "CS")
  /\ exists c pre post,
       map fst (entries (courseDistribution (studentStats students)))
       = pre ++ c :: post
       /\ In c (map Student.course students)
       /\ (forall c', courseCount c' students <= courseCount c students)
       /\ (forall c', In c' pre ->
                      courseCount c' students < courseCount c students)
       /\ mostPopularCourse (studentStats students)
          = if JsString.truthy c then c else "None".
Proof.
  intros students.
  assert (Hplain : PlainCourses students).
  { intros s [<-|[<-|[<-|[]]]]; reflexivity. }
  split; [exact Hplain|]. split.
  - apply (proj1 (studentStats_most_popular students)). reflexivity.
  - apply (proj2 (proj2 (studentStats_most_popular students) Hplain)).
    discriminate.
Defined.

(** C5, as stated, fails.  A record set whose only course is the empty
    string: the distribution counts one record for it, but the empty key
    is falsy, so [mostPopularCourse] is the text None: no record has that
    course, and its count (0) is not the greatest.  And a record set with
    a course named toString: the distribution holds a text under that key,
    the comparison with it is [NaN], the order of the entries stays, and
    [mostPopularCourse] is toString, with one record against the two of
    CS; a course named [__proto__] gets no entry at all. *)
Lemma most_popular_counterexample :
  let student course :=
    Student.mk "1" "Alice Johnson" "alice.johnson@email.com" course None
      "2024-01-15" active in
  (let students := [student ""] in
   courseDistribution (studentStats students) = [("", Count 1)]
   /\ mostPopularCourse (studentStats students) = "None"
   /\ ~ In (mostPopularCourse (studentStats students))
          (map Student.course students)
   /\ courseCount (mostPopularCourse (studentStats students)) students
      < courseCount "" students)
  /\ (let students := [student "toString"; student "CS"; student "CS"] in
      courseDistribution (studentStats students)
      = [("toString", FunctionText "toString" 1); ("CS", Count 2)]
      /\ mostPopularCourse (studentStats students) = "toString"
      /\ courseCount (mostPopularCourse (studentStats students)) students
         < courseCount "CS" students)
  /\ (let students := [student "__proto__"] in
      courseDistribution (studentStats students) = []
      /\ mostPopularCourse (studentStats students) = "None"
      /\ ~ In (mostPopularCourse (studentStats students))
             (map Student.course students)).
Proof.
  intros student. split; [|split].
  - split; [reflexivity|]. split; [reflexivity|]. split.
    + simpl. intros [H|[]]. discriminate.
    + vm_compute. lia.
  - split; [reflexivity|]. split; [reflexivity|]. vm_compute. lia.
  - split; [reflexivity|]. split; [reflexivity|].
    simpl. intros [H|[]]. discriminate.
Qed.

(** C10. For the empty record set the statistics are: total 0, an empty
    distribution, and the text None for the most popular course. *)
Theorem studentStats_empty :
  total (studentStats []) = 0
  /\ courseDistribution (studentStats []) = []
  /\ entries (courseDistribution (studentStats [])) = []
  /\ mostPopularCourse (studentStats []) = "None".
Proof. repeat (split; [reflexivity|]). reflexivity. Qed.

(** C4. [handleDeleteStudent] keeps exactly the records whose id differs
    from the one given, in their order (the records with that id are the
    only ones left out), makes that array the new state and hands the same
    array to [saveStudents]: with a window, the store receives one more
    [setItem] call, for the storage key and the JSON text of that array.
    When no record has the id the array is the prior one, and it is saved
    all the same. *)
Theorem handleDeleteStudent_removes (studentId : string) (d : State) :
  let d' := handleDeleteStudent studentId d in
  (forall s, In s (students d') <->
             In s (students d) /\ Student.id s <> studentId)
  /\ sublist (students d') (students d)
  /\ (exists removed,
        Permutation (students d) (students d' ++ removed)
        /\ forall s, In s removed -> Student.id s = studentId)
  /\ env d' = (StudentStorage.saveStudents (students d') (env d)).2
  /\ (Browser.hasWindow (env d) = true ->
      Browser.calls (Browser.localStorage (env d'))
      = Browser.calls (Browser.localStorage (env d))
        ++ [Browser.SetItem StudentStorage.STORAGE_KEY
              (Json.stringify (Json.JArr (map Student.toJs (students d'))))])
  /\ ((forall s, In s (students d) -> Student.id s <> studentId) ->
      students d' = students d
      /\ env d' = (StudentStorage.saveStudents (students d) (env d)).2).
Proof.
  intros d'. subst d'. unfold handleDeleteStudent. simpl.
  set (keep := fun s : Student.t => negb (String.eqb (Student.id s) studentId)).
  assert (Hkeep : forall s, keep s = true <-> Student.id s <> studentId).
  { intros s. unfold keep. rewrite negb_true_iff. apply String.eqb_neq. }
  split; [|split; [|split; [|split; [|split]]]].
  - intros s. rewrite List.filter_In, Hkeep. reflexivity.
  - apply ListFacts.filter_sublist.
  - eexists. split; [apply ListFacts.filter_split|].
    intros s Hs. apply List.filter_In in Hs as [_ Hs].
    unfold keep in Hs. rewrite negb_involutive in Hs.
    apply String.eqb_eq, Hs.
  - reflexivity.
  - intros Hw.
    unfold StudentStorage.saveStudents, StudentStorage.saveStudents_try,
      Browser.setItem.
    rewrite Hw. simpl.
    destruct (Browser.setItemThrows (Browser.localStorage (env d)));
      reflexivity.
  - intros Hnone.
    assert (Hall : List.filter keep (students d) = students d).
    { apply ListFacts.filter_all. intros s Hs. apply Hkeep, Hnone, Hs. }
    rewrite Hall. split; reflexivity.
Qed.

Lemma handleDeleteStudent_witness :
  let d :=
    mkState StudentStorage.getDefaultStudents
      (Browser.mkEnv true (Browser.mkStorage ∅ false false false []) []) in
  students (handleDeleteStudent "404" d) = students d
  /\ map Student.id (students (handleDeleteStudent "2" d)) = ["1"; "3"]
  /\ Browser.calls (Browser.localStorage (env (handleDeleteStudent "404" d)))
     = [Browser.SetItem StudentStorage.STORAGE_KEY
          (Json.stringify
             (Json.JArr (map Student.toJs StudentStorage.getDefaultStudents)))].
Proof.
  intros d.
  pose proof (handleDeleteStudent_removes "404" d)
    as (_ & _ & _ & _ & Hcalls & Hsame).
  destruct Hsame as [Hsame _].
  { intros s [<-|[<-|[<-|[]]]]; discriminate. }
  split; [exact Hsame|]. split; [reflexivity|].
  rewrite (Hcalls eq_refl), Hsame. reflexivity.
Defined.

End DashboardFacts.

(** * Further properties of the code *)

(** ** The persistence adapter: failures, overwriting, other keys *)

Module StudentStorageMore.
Import Browser StudentStorage.

(** What [getStudents] returns depends on the window, on the entries of
    the store and on whether reading throws; not on the calls logged or on
    the console. *)
Lemma getStudents_depends (env1 env2 : Env) :
  hasWindow env1 = hasWindow env2 ->
  items (localStorage env1) = items (localStorage env2) ->
  getItemThrows (localStorage env1) = getItemThrows (localStorage env2) ->
  (getStudents env1).1 = (getStudents env2).1.
Proof.
  intros Hw Hi Ht. unfold getStudents, getStudents_try, getItem.
  rewrite Hw, Hi, Ht. destruct (hasWindow env2); simpl; [|reflexivity].
  destruct (getItemThrows (localStorage env2)); simpl; [reflexivity|].
  destruct (items (localStorage env2) !! STORAGE_KEY) as [stored|]; simpl;
    [|reflexivity].
  destruct (JsString.truthy stored); simpl; [|reflexivity].
  destruct (Json.parse stored) as [[]|]; reflexivity.
Qed.

(** With a readable store that holds the text of a record set under the
    adapter's key, [getStudents] returns that record set. *)
Lemma getStudents_of_text (env : Env) (R : list Student.t) :
  hasWindow env = true ->
  getItemThrows (localStorage env) = false ->
  items (localStorage env) !! STORAGE_KEY
  = Some (Json.stringify (Json.JArr (map Student.toJs R))) ->
  (getStudents env).1 = map Student.toJs R.
Proof.
  intros Hw Ht Hi. unfold getStudents, getStudents_try, getItem.
  rewrite Hw, Ht, Hi. simpl.
  rewrite StudentStorageFacts.map_toJs_records,
    JsonFacts.parse_stringify_records.
  reflexivity.
Qed.

(** A save on a store that accepts the write. *)
Lemma saveStudents_ok (R : list Student.t) (env : Env) :
  hasWindow env = true ->
  setItemThrows (localStorage env) = false ->
  saveStudents R env
  = (true,
     withStorage
       (mkStorage
          (<[STORAGE_KEY := Json.stringify (Json.JArr (map Student.toJs R))]>
             (items (localStorage env)))
          (getItemThrows (localStorage env)) (setItemThrows (localStorage env))
          (removeItemThrows (localStorage env))
          (calls (localStorage env)
           ++ [SetItem STORAGE_KEY
                 (Json.stringify (Json.JArr (map Student.toJs R)))]))
       env).
Proof.
  intros Hw Hset. unfold saveStudents, saveStudents_try, setItem.
  rewrite Hw. simpl.
  destruct (setItemThrows (localStorage env)); [discriminate|reflexivity].
Qed.

(** X1. A save that fails is contained: when the store refuses the write,
    [saveStudents] returns [false] instead of throwing, reports the error
    on the console, leaves every entry of the store as it was, and a
    following [getStudents] returns what it returned before. *)
Theorem saveStudents_failure_contained
    (R : list Student.t) (st : LocalStorage) (out : list string) :
  setItemThrows st = true ->
  let env := mkEnv true st out in
  let failed := saveStudents R env in
  failed.1 = false
  /\ items (localStorage failed.2) = items st
  /\ console failed.2 = out ++ ["Error saving students to storage:"]
  /\ (getStudents failed.2).1 = (getStudents env).1.
Proof.
  intros Hset env failed.
  assert (E : failed
              = (false,
                 consoleError "Error saving students to storage:"
                   (withStorage
                      (logCall
                         (SetItem STORAGE_KEY
                            (Json.stringify
                               (Json.JArr (map Student.toJs R)))) st) env))).
  { subst failed env. unfold saveStudents, saveStudents_try, setItem. simpl.
    rewrite Hset. reflexivity. }
  rewrite E. simpl. split; [reflexivity|]. split; [reflexivity|].
  split; [reflexivity|]. apply getStudents_depends; reflexivity.
Qed.

Lemma saveStudents_failure_witness :
  let st :=
    mkStorage {[ STORAGE_KEY := "[]" ]} false true false [] in
  (saveStudents getDefaultStudents (mkEnv true st [])).1 = false
  /\ (getStudents (saveStudents getDefaultStudents (mkEnv true st [])).2).1
     = [].
Proof.
  intros st.
  pose proof (saveStudents_failure_contained getDefaultStudents st []
                eq_refl) as (H1 & _ & _ & H2).
  split; [exact H1|]. rewrite H2. reflexivity.
Defined.

(** X2. [clearStudents] on a working store returns [true], removes the
    adapter's entry and no other, and a following [getStudents] returns the
    sample set; saving the empty record set is different: a following
    [getStudents] then returns the empty list. *)
Theorem clearStudents_resets_to_samples
    (st : LocalStorage) (out : list string) :
  removeItemThrows st = false ->
  getItemThrows st = false ->
  let env := mkEnv true st out in
  let cleared := clearStudents env in
  cleared.1 = true
  /\ items (localStorage cleared.2) !! STORAGE_KEY = None
  /\ (forall key, key <> STORAGE_KEY ->
        items (localStorage cleared.2) !! key = items st !! key)
  /\ (getStudents cleared.2).1 = sampleSet
  /\ (setItemThrows st = false ->
      (getStudents (saveStudents [] env).2).1 = []).
Proof.
  intros Hrem Hget env cleared.
  assert (E : cleared
              = (true,
                 withStorage
                   (mkStorage (delete STORAGE_KEY (items st)) (getItemThrows st)
                      (setItemThrows st) (removeItemThrows st)
                      (calls st ++ [RemoveItem STORAGE_KEY])) env)).
  { subst cleared env. unfold clearStudents, clearStudents_try, removeItem.
    simpl. rewrite Hrem. reflexivity. }
  rewrite E. simpl. split; [reflexivity|].
  split; [apply lookup_delete_eq|].
  split; [intros key Hk; apply lookup_delete_ne; congruence|].
  split.
  - unfold getStudents, getStudents_try, getItem. simpl.
    rewrite Hget, lookup_delete_eq. reflexivity.
  - intros Hset. rewrite (saveStudents_ok [] env eq_refl Hset).
    apply (getStudents_of_text _ []); simpl;
      [reflexivity|exact Hget|apply lookup_insert_eq].
Qed.

Lemma clearStudents_witness :
  let st :=
    mkStorage
      {[ STORAGE_KEY := "[]"; "student-dashboard-tab" := "list" ]}
      false false false [] in
  (getStudents (clearStudents (mkEnv true st [])).2).1 = sampleSet
  /\ items (localStorage (clearStudents (mkEnv true st [])).2)
     !! "student-dashboard-tab" = Some "list".
Proof.
  intros st.
  pose proof (clearStudents_resets_to_samples st [] eq_refl eq_refl)
    as (_ & _ & Hother & Hload & _).
  split; [exact Hload|].
  rewrite (Hother "student-dashboard-tab"); [reflexivity|discriminate].
Defined.

(** X3. The adapter works on its own key only: [saveStudents] and
    [clearStudents] leave every other entry of the store as it was,
    whether they succeed or fail, and [getStudents] changes no entry at
    all. *)
Theorem adapter_touches_only_its_key
    (env : Env) (R : list Student.t) (key : string) :
  key <> STORAGE_KEY ->
  items (localStorage (saveStudents R env).2) !! key
  = items (localStorage env) !! key
  /\ items (localStorage (clearStudents env).2) !! key
     = items (localStorage env) !! key
  /\ items (localStorage (getStudents env).2) = items (localStorage env).
Proof.
  intros Hk. split; [|split].
  - unfold saveStudents, saveStudents_try, setItem.
    destruct (hasWindow env); simpl; [|reflexivity].
    destruct (setItemThrows (localStorage env)); simpl; [reflexivity|].
    apply lookup_insert_ne. congruence.
  - unfold clearStudents, clearStudents_try, removeItem.
    destruct (hasWindow env); simpl; [|reflexivity].
    destruct (removeItemThrows (localStorage env)); simpl; [reflexivity|].
    apply lookup_delete_ne. congruence.
  - unfold getStudents, getStudents_try, getItem.
    destruct (hasWindow env); simpl; [|reflexivity].
    destruct (getItemThrows (localStorage env)); simpl; [reflexivity|].
    destruct (items (localStorage env) !! STORAGE_KEY) as [stored|]; simpl;
      [|reflexivity].
    destruct (JsString.truthy stored); simpl; [|reflexivity].
    destruct (Json.parse stored) as [[]|]; reflexivity.
Qed.

Lemma adapter_other_key_witness :
  let env :=
    mkEnv true
      (mkStorage {[ "user-preferences" := "{}" ]} false false false []) [] in
  items (localStorage (saveStudents getDefaultStudents env).2)
  !! "user-preferences" = Some "{}".
Proof.
  intros env.
  pose proof (adapter_touches_only_its_key env getDefaultStudents
                "user-preferences") as [H _]; [discriminate|].
  rewrite H. reflexivity.
Defined.

(** X4. Every save overwrites the one before: after [saveStudents R1] and
    then [saveStudents R2] on a working store, [getStudents] returns the
    records of [R2], whatever [R1] was. *)
Theorem saveStudents_last_write_wins
    (R1 R2 : list Student.t) (st : LocalStorage) (out : list string) :
  setItemThrows st = false ->
  getItemThrows st = false ->
  let env := mkEnv true st out in
  let env1 := (saveStudents R1 env).2 in
  let env2 := (saveStudents R2 env1).2 in
  (saveStudents R2 env1).1 = true
  /\ (getStudents env2).1 = map Student.toJs R2.
Proof.
  intros Hset Hget env env1 env2. subst env2 env1.
  rewrite (saveStudents_ok R1 env eq_refl Hset). simpl.
  rewrite saveStudents_ok by (simpl; auto). simpl.
  split; [reflexivity|].
  apply getStudents_of_text; simpl; [reflexivity|exact Hget|].
  apply lookup_insert_eq.
Qed.

Lemma saveStudents_last_write_witness :
  let env := mkEnv true (mkStorage ∅ false false false []) [] in
  (getStudents
     (saveStudents [] (saveStudents getDefaultStudents env).2).2).1 = [].
Proof.
  intros env.
  apply (saveStudents_last_write_wins getDefaultStudents []
           (mkStorage ∅ false false false []) []); reflexivity.
Defined.

End StudentStorageMore.

(** ** The mock API *)

Module MockApiFacts.
Import JsString JsStringFacts Regex RegexFacts StudentForm MockApi.

(** The copy of an object of strings is the object. *)
Lemma copy_record (fs : list (string * string)) :
  copy (Json.record fs) = Resolved (Json.record fs).
Proof.
  unfold copy, Json.parse, Json.stringify.
  rewrite JsonFacts.parse_value_record; [reflexivity|].
  pose proof (JsonFacts.length_record fs ""). simpl in *. lia.
Qed.

Lemma copy_records (objs : list (list (string * string))) :
  copy (Json.JArr (map Json.record objs))
  = Resolved (Json.JArr (map Json.record objs)).
Proof. unfold copy. rewrite JsonFacts.parse_stringify_records. reflexivity. Qed.

(** X5. The simulated availability service answers with the format
    pattern alone (its test for an at-sign never decides anything the
    pattern would not), so it accepts every address that passes
    [validateEmailFormat]; the check the form runs against it therefore
    never sets the availability result to [false], whatever the address and
    the record being edited. *)
Theorem mock_service_never_rejects
    (initialData : option Student.t) (email : string) :
  mockValidateEmail email = test emailRegex email
  /\ (validateEmailFormat email = None -> mockValidateEmail email = true)
  /\ ~ In (SetEmailValidationResult (Some false))
         (validateEmailAsync mockApiService initialData email).
Proof.
  assert (Hat : test emailRegex email = true -> includes email "@" = true).
  { intros H. apply StudentFormFacts.emailRegex_shape in H
      as (l & d & t & -> & _).
    apply StudentListFacts.includes_spec. exists l, (d +:+ "." +:+ t).
    reflexivity. }
  assert (Hsame : mockValidateEmail email = test emailRegex email).
  { unfold mockValidateEmail. destruct (includes email "@") eqn:E; simpl;
      [reflexivity|].
    destruct (test emailRegex email) eqn:Ht; [|reflexivity].
    pose proof (Hat eq_refl). congruence. }
  assert (Hvalid : validateEmailFormat email = None ->
            mockValidateEmail email = true).
  { rewrite Hsame. unfold validateEmailFormat.
    destruct (truthy (trim email)); simpl; [|discriminate].
    destruct (test emailRegex email); simpl; [reflexivity|discriminate]. }
  split; [exact Hsame|]. split; [exact Hvalid|].
  unfold validateEmailAsync, mockApiService.
  destruct (validateEmailFormat email) eqn:Hf.
  - simpl. intros [H|[]]. discriminate.
  - destruct (unchangedEmail initialData email).
    + simpl. intros [H|[]]. discriminate.
    + rewrite (Hvalid eq_refl). simpl.
      intros H. repeat (destruct H as [H|H]; [discriminate|]). exact H.
Qed.

Lemma mock_service_witness :
  mockValidateEmail "new.student@school.edu" = true.
Proof.
  apply (mock_service_never_rejects None "new.student@school.edu").
  reflexivity.
Defined.

(** X6. [getCourseById] never rejects: it resolves to a copy, equal to
    the original, of the catalog course with the given id (the ids of the
    catalog are distinct), and to [null] when no course has that id.
    [getCourses] resolves to a copy of the whole catalog, equal to it,
    unless the simulated failure strikes, in which case it rejects with
    its message. *)
Theorem getCourseById_finds (id : string) :
  (forall course, In course mockCourses -> Course.id course = id ->
     getCourseById id = Resolved (Some (Course.toJs course)))
  /\ ((forall course, In course mockCourses -> Course.id course <> id) ->
      getCourseById id = Resolved None)
  /\ (exists found, getCourseById id = Resolved found)
  /\ getCourses false = Resolved (Json.JArr (map Course.toJs mockCourses))
  /\ getCourses true = Rejected "Failed to fetch courses from API".
Proof.
  split; [|split; [|split; [|split]]].
  - intros course Hin <-. unfold getCourseById.
    assert (Hfind : List.find
                      (fun c => String.eqb (Course.id c) (Course.id course))
                      mockCourses = Some course).
    { simpl in Hin.
      destruct Hin as [<-|[<-|[<-|[<-|[<-|[]]]]]]; reflexivity. }
    rewrite Hfind. unfold Course.toJs. rewrite copy_record. reflexivity.
  - intros Hnone. unfold getCourseById.
    destruct (List.find _ mockCourses) as [course|] eqn:E; [|reflexivity].
    apply List.find_some in E as [Hin Heq].
    apply String.eqb_eq in Heq. destruct (Hnone course Hin Heq).
  - unfold getCourseById.
    destruct (List.find _ mockCourses) as [course|]; [|eauto].
    unfold Course.toJs. rewrite copy_record. eauto.
  - unfold getCourses.
    replace (map Course.toJs mockCourses)
      with (map Json.record (map Course.fields mockCourses))
      by (rewrite map_map; reflexivity).
    apply copy_records.
  - reflexivity.
Qed.

Lemma getCourseById_witness :
  getCourseById "3"
  = Resolved
      (Some (Course.toJs
               (Course.mk "3" "Web Development" "WD301"
                  "Full-stack web development with modern frameworks"
                  "1 year" "Ms. Emily Rodriguez")))
  /\ getCourseById "42" = Resolved None.
Proof.
  split.
  - apply (getCourseById_finds "3"); [|reflexivity].
    right. right. left. reflexivity.
  - apply (getCourseById_finds "42").
    intros course [<-|[<-|[<-|[<-|[<-|[]]]]]]; discriminate.
Defined.

End MockApiFacts.

(** ** The form: validation on input, upload, submission *)

Module FormModelFacts.
Import JsString JsStringFacts Regex RegexFacts StudentForm FormModel FormEvents.

(** The validators answer with a message that is not empty, or with
    nothing. *)
Lemma keep_validateName (s : string) : keep (validateName s) = validateName s.
Proof.
  unfold validateName.
  repeat match goal with |- context [if ?b then _ else _] => destruct b end;
    reflexivity.
Qed.

Lemma keep_validateEmailFormat (s : string) :
  keep (validateEmailFormat s) = validateEmailFormat s.
Proof.
  unfold validateEmailFormat.
  repeat match goal with |- context [if ?b then _ else _] => destruct b end;
    reflexivity.
Qed.

Lemma keep_validateCourse (s : string) :
  keep (validateCourse s) = validateCourse s.
Proof. unfold validateCourse. destruct (negb (truthy s)); reflexivity. Qed.

Lemma keep_fieldVerdict (field : Field) (value : string) :
  keep (fieldVerdict field value) = fieldVerdict field value.
Proof.
  destruct field; simpl;
    auto using keep_validateName, keep_validateEmailFormat,
      keep_validateCourse.
Qed.

Lemma keep_None (e : option string) : keep e = None -> present e = false.
Proof. unfold keep. destruct (present e) eqn:E; [|reflexivity].
  intros ->. discriminate. Qed.

Lemma trimStart_head (s : string) :
  trimStart s = ""
  \/ exists c r, trimStart s = String c r /\ isWhiteSpace c = false.
Proof.
  induction s as [|c s IH]; simpl; [auto|].
  destruct (isWhiteSpace c) eqn:E; [exact IH|]. right. eauto.
Qed.

Lemma trimEnd_head (c : ascii) (r : string) :
  isWhiteSpace c = false -> exists r', trimEnd (String c r) = String c r'.
Proof.
  intros Hc. simpl. destruct (trimEnd r); [rewrite Hc|]; eauto.
Qed.

Lemma trimEnd_idem (s : string) : trimEnd (trimEnd s) = trimEnd s.
Proof.
  induction s as [|c s IH]; [reflexivity|]. simpl.
  destruct (trimEnd s) as [|d r] eqn:E.
  - destruct (isWhiteSpace c) eqn:Hc; [reflexivity|]. simpl.
    rewrite Hc. reflexivity.
  - change (trimEnd (String c (String d r)))
      with (match trimEnd (String d r) with
            | EmptyString =>
                if isWhiteSpace c then EmptyString else String c EmptyString
            | r' => String c r'
            end).
    rewrite IH. reflexivity.
Qed.

(** Trimming twice is trimming once. *)
Lemma trim_idem (s : string) : trim (trim s) = trim s.
Proof.
  unfold trim. destruct (trimStart_head s) as [->|(c & r & -> & Hc)];
    [reflexivity|].
  destruct (trimEnd_head c r Hc) as [r' Hr]. rewrite Hr.
  simpl trimStart. rewrite Hc, <- Hr. apply trimEnd_idem.
Qed.

Lemma validateName_trim (s : string) : validateName (trim s) = validateName s.
Proof. unfold validateName. rewrite trim_idem. reflexivity. Qed.

Lemma toLowerCase_app (a b : string) :
  toLowerCase (a +:+ b) = toLowerCase a +:+ toLowerCase b.
Proof.
  induction a as [|c a IH]; [reflexivity|].
  rewrite app_cons. simpl. rewrite IH. reflexivity.
Qed.

Lemma emailAtom_lower (c : ascii) : emailAtom (lowerChar c) = emailAtom c.
Proof. destruct c as [[] [] [] [] [] [] [] []]; reflexivity. Qed.

Lemma notSpace_lower (c : ascii) : notSpace (lowerChar c) = notSpace c.
Proof. destruct c as [[] [] [] [] [] [] [] []]; reflexivity. Qed.

Lemma all_lower (p : ascii -> bool) (s : string) :
  (forall c, p (lowerChar c) = p c) -> all p (toLowerCase s) = all p s.
Proof.
  intros Hp. induction s as [|c s IH]; simpl; [reflexivity|].
  rewrite Hp, IH. reflexivity.
Qed.

(** An address that passes the format check still passes it in lower
    case. *)
Lemma emailRegex_lower (s : string) :
  test emailRegex s = true -> test emailRegex (toLowerCase s) = true.
Proof.
  intros H. apply StudentFormFacts.emailRegex_shape in H
    as (l & d & t & -> & [Hl1 Hl2] & [Hd1 Hd2] & [Ht1 Ht2]).
  apply StudentFormFacts.emailRegex_shape.
  exists (toLowerCase l), (toLowerCase d), (toLowerCase t).
  rewrite !StudentFormFacts.toLowerCase_truthy,
    !(all_lower emailAtom _ emailAtom_lower).
  split; [|auto].
  rewrite !toLowerCase_app. reflexivity.
Qed.

(** The address the form submits passes the format check when the one
    typed in does. *)
Lemma validateEmailFormat_normal (s : string) :
  validateEmailFormat s = None ->
  validateEmailFormat (toLowerCase (trim s)) = None
  /\ trim (toLowerCase (trim s)) = toLowerCase (trim s).
Proof.
  intros H.
  pose proof (StudentFormFacts.validateEmailFormat_trim s H) as Htrim.
  pose proof (StudentFormFacts.validateEmailFormat_truthy s H) as Htruthy.
  rewrite Htrim in *.
  assert (Hre : test emailRegex s = true).
  { unfold validateEmailFormat in H. rewrite Htrim, Htruthy in H. simpl in H.
    destruct (test emailRegex s); [reflexivity|discriminate]. }
  assert (Hfix : trim (toLowerCase s) = toLowerCase s).
  { apply trim_fixed. rewrite (all_lower notSpace _ notSpace_lower).
    apply (test_within notSpace emailRegex);
      [apply StudentFormFacts.emailRegex_within|exact Hre]. }
  split; [|exact Hfix].
  unfold validateEmailFormat.
  rewrite Hfix, StudentFormFacts.toLowerCase_truthy, Htruthy. simpl.
  rewrite (emailRegex_lower s Hre). reflexivity.
Qed.

Lemma validateForm_ok (d : FormData) (result : option bool) :
  (validateForm d result).2 = true <->
  validateName (name d) = None
  /\ validateEmailFormat (email d) = None
  /\ validateCourse (course d) = None
  /\ result <> Some false.
Proof.
  unfold validateForm. simpl.
  rewrite keep_validateName, keep_validateEmailFormat, keep_validateCourse.
  destruct (validateName (name d)), (validateEmailFormat (email d)),
    (validateCourse (course d)), result as [[]|]; simpl;
    split; intros H; try discriminate; try tauto;
    repeat split; try congruence; destruct H as (? & ? & ? & ?); congruence.
Qed.

(** X7. [handleSubmit] hands a payload to [onSubmit] exactly when the
    three validators accept the current values and the availability result
    is not [false].  Otherwise nothing is submitted, the values typed in
    stay, and the errors shown are the three verdicts, the message that the
    address is in use replacing the verdict on the address when the
    availability result is [false]. *)
Theorem handleSubmit_gate
    (accepts : Payload -> bool) (initialData : option Student.t)
    (today : string) (st : State) :
  let after := handleSubmit accepts initialData today st in
  (after.2 <> None <->
   validateName (name (formData st)) = None
   /\ validateEmailFormat (email (formData st)) = None
   /\ validateCourse (course (formData st)) = None
   /\ emailValidationResult st <> Some false)
  /\ (after.2 = None ->
      formData after.1 = formData st
      /\ errors after.1
         = mkErrors (validateName (name (formData st)))
             (match emailValidationResult st with
              | Some false => Some "This email address is already in use"
              | _ => validateEmailFormat (email (formData st))
              end)
             (validateCourse (course (formData st))) None).
Proof.
  intros after. subst after. unfold handleSubmit.
  pose proof (validateForm_ok (formData st) (emailValidationResult st)) as Hok.
  destruct (validateForm (formData st) (emailValidationResult st))
    as [newErrors ok] eqn:E.
  simpl in Hok. destruct ok; simpl.
  - split.
    + split; [intros _; apply Hok; reflexivity|].
      intros _. destruct (accepts _); [destruct initialData|]; discriminate.
    + destruct (accepts _); [destruct initialData|]; discriminate.
  - split.
    + split; [congruence|]. intros H. apply Hok in H. discriminate.
    + intros _. split; [reflexivity|].
      unfold validateForm in E. injection E as <- _.
      rewrite keep_validateName, keep_validateEmailFormat,
        keep_validateCourse.
      reflexivity.
Qed.

(** X8. Whatever [handleSubmit] hands to [onSubmit] passes the form's own
    validators again: the name is trimmed and valid, the address is
    trimmed, in lower case and well formed, a course is selected, and an
    image is either absent or not empty.  When a record is edited its
    enrollment date is kept, and its id when it has one; a new record gets
    today's date and no id. *)
Theorem submitted_payload_is_valid
    (accepts : Payload -> bool) (initialData : option Student.t)
    (today : string) (st after : State) (p : Payload) :
  handleSubmit accepts initialData today st = (after, Some p) ->
  (validateName (payloadName p) = None
   /\ trim (payloadName p) = payloadName p)
  /\ (validateEmailFormat (payloadEmail p) = None
      /\ toLowerCase (trim (payloadEmail p)) = payloadEmail p)
  /\ validateCourse (payloadCourse p) = None
  /\ payloadImage p <> Some ""
  /\ (forall record, initialData = Some record ->
        payloadEnrollmentDate p = Student.enrollmentDate record
        /\ (Student.id record <> "" -> payloadId p = Some (Student.id record)))
  /\ (initialData = None ->
        payloadId p = None /\ payloadEnrollmentDate p = today)
  /\ isSubmitting after = false.
Proof.
  intros H. unfold handleSubmit in H.
  pose proof (validateForm_ok (formData st) (emailValidationResult st)) as Hok.
  destruct (validateForm (formData st) (emailValidationResult st))
    as [newErrors ok].
  simpl in Hok. destruct ok; simpl in H; [|discriminate].
  destruct Hok as [Hok _]. destruct (Hok eq_refl) as (Hn & He & Hc & _).
  assert (Hp : p = studentData initialData today (formData st)
               /\ isSubmitting after = false).
  { destruct (accepts _); [destruct initialData|];
      injection H as <- <-; auto. }
  destruct Hp as [-> Hsub]. unfold studentData. simpl.
  destruct (validateEmailFormat_normal _ He) as [He1 He2].
  split; [split; [rewrite validateName_trim; exact Hn|apply trim_idem]|].
  split; [split; [exact He1|]|].
  { rewrite He2. apply StudentListFacts.toLowerCase_idem. }
  split; [exact Hc|].
  split.
  { destruct (profileImage (formData st)); simpl; discriminate. }
  split.
  { intros record ->. split; [reflexivity|].
    intros Hid. destruct (Student.id record); [congruence|reflexivity]. }
  split; [|exact Hsub].
  intros ->. auto.
Qed.

Lemma submitted_payload_witness :
  let st :=
    mkForm (mkData "  Jean-Luc O'Brien " "Jean.Luc@Example.ORG" "Data Science"
              "" "active")
      noErrors false false (Some true) None in
  let p :=
    mkPayload None "Jean-Luc O'Brien" "jean.luc@example.org" "Data Science"
      None "2025-01-31" "active" in
  handleSubmit (fun _ => true) None "2025-01-31" st = (initialState, Some p)
  /\ validateName (payloadName p) = None
  /\ validateEmailFormat (payloadEmail p) = None.
Proof.
  intros st p.
  assert (H : handleSubmit (fun _ => true) None "2025-01-31" st
              = (initialState, Some p)) by reflexivity.
  split; [exact H|].
  pose proof (submitted_payload_is_valid _ _ _ _ _ _ H)
    as ((Hn & _) & (He & _) & _).
  split; assumption.
Defined.

(** X9. [handleImageUpload] accepts a file exactly when its type starts
    with [image/] and its size is at most 5 MB (5 * 1024 * 1024 bytes, the
    bound included).  An accepted file becomes the profile image and the
    preview and clears the image error.  A rejected file only sets the
    image error: the image and the preview chosen before stay as they
    were, and the form does not count as valid.  In both cases the other
    fields, their errors and the flags are untouched. *)
Theorem handleImageUpload_bounds (f : File) (st : State) :
  let after := handleImageUpload (Some f) st in
  let accepted :=
    startsWith (fileType f) "image/" && (fileSize f <=? 5 * 1024 * 1024)%N in
  (if accepted
   then profileImage (formData after) = dataUrl f
        /\ imagePreview after = Some (dataUrl f)
        /\ profileImageError (errors after) = None
   else formData after = formData st
        /\ imagePreview after = imagePreview st
        /\ present (profileImageError (errors after)) = true
        /\ isFormValid after = false)
  /\ (name (formData after), email (formData after), course (formData after),
      status (formData after))
     = (name (formData st), email (formData st), course (formData st),
        status (formData st))
  /\ (nameError (errors after), emailError (errors after),
      courseError (errors after))
     = (nameError (errors st), emailError (errors st), courseError (errors st))
  /\ (isSubmitting after, isValidatingEmail after, emailValidationResult after)
     = (isSubmitting st, isValidatingEmail st, emailValidationResult st).
Proof.
  cbv zeta. unfold handleImageUpload.
  rewrite N.leb_antisym.
  destruct (startsWith (fileType f) "image/"); simpl.
  - destruct (5 * 1024 * 1024 <? fileSize f)%N; simpl.
    + unfold isFormValid, hasErrors. simpl.
      rewrite !orb_true_r, !andb_false_r. auto 10.
    + auto 10.
  - unfold isFormValid, hasErrors. simpl.
    rewrite !orb_true_r, !andb_false_r. auto 10.
Qed.

Lemma InSync_initial : InSync initialState.
Proof. intros field _. left. destruct field; reflexivity. Qed.

Lemma keep_cases (e : option string) : keep e = None \/ keep e = e.
Proof. unfold keep. destruct (present e); auto. Qed.

(** Each event keeps the errors shown in step with the values. *)
Lemma InSync_react (st : State) (e : Event) : InSync st -> InSync (react st e).
Proof.
  intros H field Hf. pose proof (H field Hf) as Hold.
  destruct e as [changed value|[file|]|]; simpl.
  - unfold handleChange, validateField. simpl.
    destruct (keep_cases (fieldVerdict changed value)) as [Hk|Hk]; rewrite Hk;
      destruct changed, field; simpl in *; auto;
      destruct Hf as [Hf|[Hf|Hf]]; discriminate.
  - unfold handleImageUpload.
    destruct (negb _); [|destruct (_ <? _)%N];
      destruct field; simpl in *; auto;
      destruct Hf as [Hf|[Hf|Hf]]; discriminate.
  - exact Hold.
  - unfold removeImage.
    destruct field; simpl in *; auto;
      destruct Hf as [Hf|[Hf|Hf]]; discriminate.
Qed.

(** X10. While the user edits the form (changes of fields, uploads and
    removals of the image, in any order and number), an error shown for
    the name, the e-mail address or the course is never stale: it is the
    verdict of that field's validator on the value the field holds now. *)
Theorem live_errors_follow_values (events : list Event) (st : State) :
  InSync st -> InSync (fold_left react events st).
Proof.
  revert st. induction events as [|e events IH]; intros st H; [exact H|].
  simpl. apply IH, InSync_react, H.
Qed.

Lemma live_errors_witness :
  let events :=
    [Change FName "A"; Change FEmail "a@b"; Upload None; Change FName "Al";
     Remove; Change FCourse ""] in
  let st := fold_left react events initialState in
  InSync st
  /\ errors st
     = mkErrors None (Some "Please enter a valid email address")
         (Some "Please select a course") None.
Proof.
  intros events st. split; [|reflexivity].
  exact (live_errors_follow_values events initialState InSync_initial).
Defined.

(** X11. When the errors shown are in step with the values, the three
    validators and the availability result let the form through, no image
    error is shown and no availability check is running, the form counts
    as valid, so that the submit control is enabled unless a submission is
    in progress: the two tests of validity agree in that direction. *)
Theorem passing_form_enables_submit (st : State) :
  InSync st ->
  (validateForm (formData st) (emailValidationResult st)).2 = true ->
  present (profileImageError (errors st)) = false ->
  isValidatingEmail st = false ->
  isFormValid st = true.
Proof.
  intros Hsync Hok Himg Hrun.
  apply validateForm_ok in Hok. destruct Hok as (Hn & He & Hc & Hr).
  assert (En : nameError (errors st) = None).
  { destruct (Hsync FName) as [E|E]; [auto|exact E|].
    simpl in E. rewrite E. exact Hn. }
  assert (Ee : emailError (errors st) = None).
  { destruct (Hsync FEmail) as [E|E]; [auto|exact E|].
    simpl in E. rewrite E. exact He. }
  assert (Ec : courseError (errors st) = None).
  { destruct (Hsync FCourse) as [E|E]; [auto|exact E|].
    simpl in E. rewrite E. exact Hc. }
  unfold isFormValid, hasErrors. rewrite En, Ee, Ec, Himg, Hrun. simpl.
  unfold validateName in Hn. unfold validateEmailFormat in He.
  unfold validateCourse in Hc.
  destruct (truthy (trim (name (formData st)))); [|discriminate].
  destruct (truthy (trim (email (formData st)))); [|discriminate].
  destruct (truthy (course (formData st))); [|discriminate].
  destruct (emailValidationResult st) as [[]|]; [reflexivity|congruence|reflexivity].
Qed.

Lemma passing_form_witness :
  let st :=
    fold_left react
      [Change FName "Ada Lovelace"; Change FEmail "ada@example.org";
       Change FCourse "Data Science"]
      initialState in
  isFormValid st = true.
Proof.
  intros st.
  apply (passing_form_enables_submit st);
    [|reflexivity|reflexivity|reflexivity].
  intros field _. left. destruct field; reflexivity.
Defined.

End FormModelFacts.

(** ** The list component: filter options and statistics *)

Module StudentListViewFacts.
Import StudentList StudentListView.

Lemma In_add (x y : string) (seen : list string) :
  In y (JsSet.add x seen) <-> In y seen \/ y = x.
Proof.
  unfold JsSet.add. destruct (existsb (String.eqb x) seen) eqn:E.
  - split; [auto|]. intros [H| ->]; [exact H|].
    apply existsb_exists in E as (z & Hz & Heq).
    apply String.eqb_eq in Heq. subst z. exact Hz.
  - rewrite in_app_iff. simpl. intuition auto.
Qed.

Lemma NoDup_add (x : string) (seen : list string) :
  NoDup seen -> NoDup (JsSet.add x seen).
Proof.
  intros H. unfold JsSet.add.
  destruct (existsb (String.eqb x) seen) eqn:E; [exact H|].
  apply NoDup_app. split; [exact H|]. split; [|apply NoDup_singleton].
  intros y Hy Hx. apply list_elem_of_In in Hy.
  apply list_elem_of_In in Hx. simpl in Hx. destruct Hx as [<-|[]].
  assert (existsb (String.eqb x) seen = true); [|congruence].
  apply existsb_exists. exists x. split; [exact Hy|apply String.eqb_refl].
Qed.

Lemma In_fold_add (l seen : list string) (y : string) :
  In y (fold_left (fun seen x => JsSet.add x seen) l seen)
  <-> In y seen \/ In y l.
Proof.
  revert seen. induction l as [|x l IH]; intros seen; simpl; [tauto|].
  rewrite IH, In_add. intuition auto.
Qed.

Lemma NoDup_fold_add (l seen : list string) :
  NoDup seen -> NoDup (fold_left (fun seen x => JsSet.add x seen) l seen).
Proof.
  revert seen. induction l as [|x l IH]; intros seen H; simpl; [exact H|].
  apply IH, NoDup_add, H.
Qed.

(** The two directions of the order exclude each other. *)
Lemma lessThan_asym (x y : string) :
  JsSort.lessThan x y = true -> JsSort.lessThan y x = false.
Proof.
  unfold JsSort.lessThan. rewrite (String.compare_antisym x y).
  destruct (String.compare y x); simpl; congruence.
Qed.

(** Two different strings are ordered one way or the other. *)
Lemma lessThan_total (x y : string) :
  x <> y -> JsSort.lessThan x y = true \/ JsSort.lessThan y x = true.
Proof.
  intros Hne. unfold JsSort.lessThan.
  rewrite (String.compare_antisym x y).
  destruct (String.compare y x) eqn:E; simpl; auto.
  apply String.compare_eq_iff in E. congruence.
Qed.

Lemma defaultCompare_le (x y : string) :
  x <> y ->
  (JsSort.defaultCompare x y <=? 0)%Z = JsSort.lessThan x y.
Proof.
  intros Hne. unfold JsSort.defaultCompare.
  destruct (JsSort.lessThan x y) eqn:E; [reflexivity|].
  destruct (lessThan_total x y Hne) as [H|H]; [congruence|].
  rewrite H. reflexivity.
Qed.

Lemma NoDup_insert (x : string) (l : list string) :
  ~ In x l -> NoDup l -> NoDup (JsArray.insert JsSort.defaultCompare x l).
Proof.
  induction l as [|y l IH]; simpl; intros Hx Hl.
  - apply NoDup_singleton.
  - destruct (JsSort.defaultCompare x y <=? 0)%Z.
    + apply NoDup_cons. split; [|exact Hl].
      rewrite list_elem_of_In. exact Hx.
    + apply NoDup_cons in Hl as [Hy Hl]. apply NoDup_cons. split.
      * rewrite list_elem_of_In, JsArrayFacts.In_insert.
        rewrite list_elem_of_In in Hy. intros [->|H]; tauto.
      * apply IH; [tauto|exact Hl].
Qed.

Lemma Ascending_insert (x : string) (l : list string) :
  ~ In x l -> JsSort.Ascending l ->
  JsSort.Ascending (JsArray.insert JsSort.defaultCompare x l).
Proof.
  unfold JsSort.Ascending.
  induction l as [|y l IH]; simpl; intros Hx Hl.
  - repeat constructor.
  - assert (Hne : x <> y) by (intros ->; tauto).
    rewrite (defaultCompare_le x y Hne).
    destruct (JsSort.lessThan x y) eqn:E.
    + constructor; [exact Hl|]. constructor. exact E.
    + apply Sorted.Sorted_inv in Hl as [Hl Hhd].
      constructor; [apply IH; [tauto|exact Hl]|].
      assert (Hyx : JsSort.lessThan y x = true).
      { destruct (lessThan_total x y Hne); congruence. }
      destruct l as [|z l]; simpl; [constructor; exact Hyx|].
      destruct (JsSort.defaultCompare x z <=? 0)%Z; constructor;
        [exact Hyx|].
      apply Sorted.HdRel_inv in Hhd. exact Hhd.
Qed.

Lemma sort_distinct (l : list string) :
  NoDup l ->
  NoDup (JsArray.sort JsSort.defaultCompare l)
  /\ JsSort.Ascending (JsArray.sort JsSort.defaultCompare l).
Proof.
  induction l as [|x l IH]; simpl; intros H.
  - split; [constructor|constructor].
  - apply NoDup_cons in H as [Hx Hl]. destruct (IH Hl) as [Hn Ha].
    rewrite list_elem_of_In in Hx.
    assert (Hx' : ~ In x (JsArray.sort JsSort.defaultCompare l))
      by (rewrite JsArrayFacts.In_sort; exact Hx).
    split; [apply NoDup_insert|apply Ascending_insert]; assumption.
Qed.

(** X12. The options of the course filter are exactly the courses some
    record is assigned to, each listed once, in ascending order of their
    code units; and every option selects at least one record. *)
Theorem availableCourses_options (students : list Student.t) :
  (forall c, In c (availableCourses students)
             <-> exists s, In s students /\ Student.course s = c)
  /\ NoDup (availableCourses students)
  /\ JsSort.Ascending (availableCourses students)
  /\ (forall c, In c (availableCourses students) ->
        filteredStudents students "" "all" c <> []).
Proof.
  assert (Hin : forall c, In c (availableCourses students)
                          <-> exists s, In s students /\ Student.course s = c).
  { intros c. unfold availableCourses, JsSet.fromList.
    rewrite JsArrayFacts.In_sort, In_fold_add, in_map_iff. simpl.
    split; [intros [[]|(s & H1 & H2)]|intros (s & H1 & H2); right];
      exists s; auto. }
  split; [exact Hin|].
  destruct (sort_distinct (JsSet.fromList (map Student.course students)))
    as [Hn Ha].
  { apply NoDup_fold_add. constructor. }
  split; [exact Hn|]. split; [exact Ha|].
  intros c Hc. apply Hin in Hc as (s & Hs & Hcourse).
  assert (Hsel : In s (filteredStudents students "" "all" c)).
  { unfold filteredStudents. apply filter_In. split; [exact Hs|].
    unfold matchesSearch, matchesStatus, matchesCourse. simpl.
    rewrite Hcourse, String.eqb_refl. apply orb_true_r. }
  intros E. rewrite E in Hsel. destruct Hsel.
Qed.

Lemma countStatus_cons (name : string) (s : Student.t) (l : list Student.t) :
  countStatus name (s :: l)
  = (if String.eqb (statusName (Student.status s)) name then 1 else 0)
    + countStatus name l.
Proof.
  unfold countStatus. simpl.
  destruct (String.eqb (statusName (Student.status s)) name); reflexivity.
Qed.

Lemma countStatus_sum (l : list Student.t) :
  length l
  = countStatus "active" l + countStatus "inactive" l
    + countStatus "graduated" l.
Proof.
  induction l as [|s l IH]; [reflexivity|].
  rewrite !countStatus_cons. simpl length. rewrite IH.
  destruct (Student.status s); simpl; lia.
Qed.

Lemma countStatus_none (name : string) (l : list Student.t) :
  (forall s, In s l -> statusName (Student.status s) <> name) ->
  countStatus name l = 0.
Proof.
  induction l as [|s l IH]; intros H; [reflexivity|].
  rewrite countStatus_cons, IH by (intros; apply H; right; assumption).
  destruct (String.eqb_spec (statusName (Student.status s)) name) as [E|E];
    [|reflexivity].
  destruct (H s (or_introl eq_refl) E).
Qed.

(** X13. The statistics of the list are computed from the records shown
    and partition them: the total is the sum of the three status counts
    and is at most the number of all records; while the status filter
    selects one status, the counts of the other statuses are zero; and
    after [clearFilters] every record is shown again. *)
Theorem statistics_partition (students : list Student.t) (f : Filters) :
  let stats := statistics (visible students f) in
  StudentListView.total stats
  = StudentListView.active stats + StudentListView.inactive stats
    + StudentListView.graduated stats
  /\ StudentListView.total stats <= length students
  /\ (forall selected other,
        statusFilter f = statusName selected -> other <> selected ->
        countStatus (statusName other) (visible students f) = 0)
  /\ visible students (clearFilters f) = students
  /\ StudentListView.total (statistics (visible students (clearFilters f)))
     = length students.
Proof.
  assert (Hall : visible students (clearFilters f) = students).
  { unfold visible, filteredStudents. simpl.
    apply ListFacts.filter_all. reflexivity. }
  cbv zeta. split; [apply countStatus_sum|].
  split.
  { simpl. apply sublist_length, ListFacts.filter_sublist. }
  split; [|split; [exact Hall|rewrite Hall; reflexivity]].
  intros selected other Hsel Hne. apply countStatus_none.
  intros s Hs E. unfold visible, filteredStudents in Hs.
  apply filter_In in Hs as [_ Hs].
  rewrite !andb_true_iff in Hs. destruct Hs as [[_ Hstatus] _].
  unfold matchesStatus in Hstatus. rewrite Hsel in Hstatus.
  apply orb_true_iff in Hstatus as [H|H].
  - destruct selected; discriminate.
  - apply String.eqb_eq in H. rewrite E in H.
    apply StudentStorageFacts.statusName_inj in H. exact (Hne H).
Qed.

End StudentListViewFacts.

(** ** The hook [useLocalStorage] beside the adapter *)

Module UseLocalStorageFacts.
Import Browser StudentStorage UseLocalStorage DashboardStore.

(** [JSON.parse(JSON.stringify(s))] is [s] for a string. *)
Lemma parse_stringify_string (s : string) :
  Json.parse (Json.stringify (Json.JStr s)) = Some (Json.JStr s).
Proof.
  unfold Json.parse, Json.stringify. cbn [Json.write_value].
  replace (2 * String.length (Json.write_string s "") + 2)
    with (S (2 * String.length (Json.write_string s "") + 1)) by lia.
  rewrite JsonFacts.parse_value_string. reflexivity.
Qed.

(** A text that [JSON.parse] accepts is not empty. *)
Lemma parse_truthy (text : string) (v : Json.value) :
  Json.parse text = Some v -> JsString.truthy text = true.
Proof. destruct text; [discriminate|reflexivity]. Qed.

Lemma sameBrowser_refl (env : Env) : sameBrowser env env.
Proof. repeat split. Qed.

Lemma sameBrowser_trans (env1 env2 env3 : Env) :
  sameBrowser env1 env2 -> sameBrowser env2 env3 -> sameBrowser env1 env3.
Proof.
  unfold sameBrowser. intros (? & ? & ? & ?) (? & ? & ? & ?).
  repeat split; congruence.
Qed.

(** What [setValue] leaves behind. *)
Lemma setValue_spec (key : string)
    (value : Json.value + (Json.value -> Json.value)) (h : Hook) :
  storedValue (setValue key value h)
  = match value with inl v => v | inr f => f (storedValue h) end
  /\ sameBrowser (env (setValue key value h)) (env h)
  /\ items (localStorage (env (setValue key value h)))
     = if hasWindow (env h) && negb (setItemThrows (localStorage (env h)))
       then <[key := Json.stringify
                       match value with
                       | inl v => v
                       | inr f => f (storedValue h)
                       end]> (items (localStorage (env h)))
       else items (localStorage (env h)).
Proof.
  unfold setValue, sameBrowser, setItem.
  destruct (hasWindow (env h)) eqn:Hw; simpl; [|rewrite Hw; auto 10].
  destruct (setItemThrows (localStorage (env h))) eqn:Hs; simpl;
    rewrite ?Hw, ?Hs; auto 10.
Qed.

Lemma removeValue_spec (key : string) (initialValue : Json.value) (h : Hook) :
  storedValue (removeValue key initialValue h) = initialValue
  /\ sameBrowser (env (removeValue key initialValue h)) (env h)
  /\ items (localStorage (env (removeValue key initialValue h)))
     = if hasWindow (env h) && negb (removeItemThrows (localStorage (env h)))
       then delete key (items (localStorage (env h)))
       else items (localStorage (env h)).
Proof.
  unfold removeValue, sameBrowser, removeItem.
  destruct (hasWindow (env h)) eqn:Hw; simpl; [|rewrite Hw; auto 10].
  destruct (removeItemThrows (localStorage (env h))) eqn:Hs; simpl;
    rewrite ?Hw, ?Hs; auto 10.
Qed.

Lemma saveStudents_spec (R : list Student.t) (env : Env) :
  sameBrowser (saveStudents R env).2 env
  /\ items (localStorage (saveStudents R env).2)
     = if hasWindow env && negb (setItemThrows (localStorage env))
       then <[STORAGE_KEY := Json.stringify (Json.JArr (map Student.toJs R))]>
              (items (localStorage env))
       else items (localStorage env).
Proof.
  unfold saveStudents, saveStudents_try, sameBrowser, setItem.
  destruct (hasWindow env) eqn:Hw; simpl; [|rewrite Hw; auto 10].
  destruct (setItemThrows (localStorage env)) eqn:Hs; simpl;
    rewrite ?Hw, ?Hs; auto 10.
Qed.

Lemma clearStudents_spec (env : Env) :
  sameBrowser (clearStudents env).2 env
  /\ items (localStorage (clearStudents env).2)
     = if hasWindow env && negb (removeItemThrows (localStorage env))
       then delete STORAGE_KEY (items (localStorage env))
       else items (localStorage env).
Proof.
  unfold clearStudents, clearStudents_try, sameBrowser, removeItem.
  destruct (hasWindow env) eqn:Hw; simpl; [|rewrite Hw; auto 10].
  destruct (removeItemThrows (localStorage env)) eqn:Hs; simpl;
    rewrite ?Hw, ?Hs; auto 10.
Qed.

(** The hook reads the window, whether reading throws, and its own key. *)
Lemma useLocalStorage_depends (key : string) (initialValue : Json.value)
    (env1 env2 : Env) :
  hasWindow env1 = hasWindow env2 ->
  getItemThrows (localStorage env1) = getItemThrows (localStorage env2) ->
  items (localStorage env1) !! key = items (localStorage env2) !! key ->
  storedValue (useLocalStorage key initialValue env1)
  = storedValue (useLocalStorage key initialValue env2).
Proof.
  intros Hw Hg Hi. unfold useLocalStorage, initial_try, getItem.
  rewrite Hw, Hg, Hi. destruct (hasWindow env2); simpl; [|reflexivity].
  destruct (getItemThrows (localStorage env2)); simpl; [reflexivity|].
  destruct (items (localStorage env2) !! key) as [item|]; simpl;
    [|reflexivity].
  destruct (JsString.truthy item); simpl; [|reflexivity].
  destruct (Json.parse item); reflexivity.
Qed.

Lemma useLocalStorage_reads (key text : string) (v initialValue : Json.value)
    (env : Env) :
  hasWindow env = true ->
  getItemThrows (localStorage env) = false ->
  items (localStorage env) !! key = Some text ->
  Json.parse text = Some v ->
  storedValue (useLocalStorage key initialValue env) = v.
Proof.
  intros Hw Hg Hi Hp. unfold useLocalStorage, initial_try, getItem.
  rewrite Hw, Hg, Hi. simpl. rewrite (parse_truthy _ _ Hp), Hp. reflexivity.
Qed.

Lemma useLocalStorage_absent (key : string) (initialValue : Json.value)
    (env : Env) :
  items (localStorage env) !! key = None ->
  storedValue (useLocalStorage key initialValue env) = initialValue.
Proof.
  intros Hi. unfold useLocalStorage, initial_try, getItem. rewrite Hi.
  destruct (hasWindow env); simpl; [|reflexivity].
  destruct (getItemThrows (localStorage env)); reflexivity.
Qed.

(** The adapter reads the window, whether reading throws, and its own
    key. *)
Lemma getStudents_depends_key (env1 env2 : Env) :
  hasWindow env1 = hasWindow env2 ->
  getItemThrows (localStorage env1) = getItemThrows (localStorage env2) ->
  items (localStorage env1) !! STORAGE_KEY
  = items (localStorage env2) !! STORAGE_KEY ->
  (getStudents env1).1 = (getStudents env2).1.
Proof.
  intros Hw Hg Hi. unfold getStudents, getStudents_try, getItem.
  rewrite Hw, Hg, Hi. destruct (hasWindow env2); simpl; [|reflexivity].
  destruct (getItemThrows (localStorage env2)); simpl; [reflexivity|].
  destruct (items (localStorage env2) !! STORAGE_KEY) as [stored|]; simpl;
    [|reflexivity].
  destruct (JsString.truthy stored); simpl; [|reflexivity].
  destruct (Json.parse stored) as [[]|]; reflexivity.
Qed.

(** X14. With a window and a store that can be read, the state of the
    hook takes the value given to [setValue], and a value that
    [JSON.parse] reproduces from its text (every string is one) is read
    back when the component mounts again, provided the write went
    through; when the store refuses the write the state and the store
    differ: a new mount reads what it would have read before.  After
    [removeValue], on a store that lets entries be removed, a new mount
    starts from the initial value. *)
Theorem setValue_then_remount
    (key : string) (value initialValue : Json.value) (h : Hook) :
  hasWindow (env h) = true ->
  getItemThrows (localStorage (env h)) = false ->
  Json.parse (Json.stringify value) = Some value ->
  let written := setValue key (inl value) h in
  storedValue written = value
  /\ (setItemThrows (localStorage (env h)) = false ->
      storedValue (useLocalStorage key initialValue (env written)) = value)
  /\ (setItemThrows (localStorage (env h)) = true ->
      storedValue (useLocalStorage key initialValue (env written))
      = storedValue (useLocalStorage key initialValue (env h)))
  /\ (removeItemThrows (localStorage (env h)) = false ->
      storedValue
        (useLocalStorage key initialValue
           (env (removeValue key initialValue written)))
      = initialValue)
  /\ (forall s, Json.parse (Json.stringify (Json.JStr s)) = Some (Json.JStr s)).
Proof.
  intros Hw Hg Hp written.
  destruct (setValue_spec key (inl value) h) as (Hv & (Hw' & Hg' & Hs' & Hr') & Hi).
  fold written in Hv, Hw', Hg', Hs', Hr', Hi. rewrite Hw in Hi. simpl in Hi.
  split; [exact Hv|].
  split; [|split; [|split; [|exact parse_stringify_string]]].
  - intros Hs. rewrite Hs in Hi. simpl in Hi.
    apply (useLocalStorage_reads key (Json.stringify value));
      [congruence|congruence| |exact Hp].
    rewrite Hi. apply lookup_insert_eq.
  - intros Hs. rewrite Hs in Hi. simpl in Hi.
    apply useLocalStorage_depends; congruence.
  - intros Hr.
    destruct (removeValue_spec key initialValue written)
      as (_ & _ & Hi2).
    apply useLocalStorage_absent. rewrite Hi2.
    replace (hasWindow (env written)) with true by congruence.
    replace (removeItemThrows (localStorage (env written))) with false
      by congruence.
    simpl. apply lookup_delete_eq.
Qed.

Lemma setValue_then_remount_witness :
  let preferences :=
    Json.JObj [("theme", Json.JStr "light"); ("viewMode", Json.JStr "table");
               ("itemsPerPage", Json.JNum "10")] in
  let h :=
    mkHook Json.JNull (mkEnv true (mkStorage ∅ false false false []) []) in
  Json.parse (Json.stringify preferences) = Some preferences
  /\ storedValue
       (useLocalStorage "user-preferences" Json.JNull
          (env (setValue "user-preferences" (inl preferences) h)))
     = preferences.
Proof.
  intros preferences h.
  assert (Hp : Json.parse (Json.stringify preferences) = Some preferences)
    by reflexivity.
  split; [exact Hp|].
  destruct (setValue_then_remount "user-preferences" preferences Json.JNull h
              eq_refl eq_refl Hp) as (_ & Hread & _).
  exact (Hread eq_refl).
Defined.

(** X15. The hook and the adapter do not step on each other: a hook on
    any key but the adapter's changes nothing of what [getStudents]
    returns, whether it sets or removes its value; and neither
    [saveStudents] nor [clearStudents] changes what such a hook reads
    when it mounts. *)
Theorem hook_and_adapter_keep_apart
    (key : string) (value : Json.value + (Json.value -> Json.value))
    (initialValue : Json.value) (R : list Student.t) (h : Hook) :
  key <> STORAGE_KEY ->
  (getStudents (env (setValue key value h))).1 = (getStudents (env h)).1
  /\ (getStudents (env (removeValue key initialValue h))).1
     = (getStudents (env h)).1
  /\ storedValue (useLocalStorage key initialValue (saveStudents R (env h)).2)
     = storedValue (useLocalStorage key initialValue (env h))
  /\ storedValue (useLocalStorage key initialValue (clearStudents (env h)).2)
     = storedValue (useLocalStorage key initialValue (env h)).
Proof.
  intros Hne. split; [|split; [|split]].
  - destruct (setValue_spec key value h) as (_ & (Hw & Hg & _) & Hi).
    apply getStudents_depends_key; [assumption..|]. rewrite Hi.
    destruct (_ && _); [apply lookup_insert_ne; congruence|reflexivity].
  - destruct (removeValue_spec key initialValue h) as (_ & (Hw & Hg & _) & Hi).
    apply getStudents_depends_key; [assumption..|]. rewrite Hi.
    destruct (_ && _); [apply lookup_delete_ne; congruence|reflexivity].
  - destruct (saveStudents_spec R (env h)) as ((Hw & Hg & _) & Hi).
    apply useLocalStorage_depends; [assumption..|]. rewrite Hi.
    destruct (_ && _); [apply lookup_insert_ne; congruence|reflexivity].
  - destruct (clearStudents_spec (env h)) as ((Hw & Hg & _) & Hi).
    apply useLocalStorage_depends; [assumption..|]. rewrite Hi.
    destruct (_ && _); [apply lookup_delete_ne; congruence|reflexivity].
Qed.

Lemma hook_and_adapter_witness :
  let env :=
    mkEnv true
      (mkStorage {[ STORAGE_KEY := "[]" ]} false false false []) [] in
  let h := mkHook (Json.JStr "list") env in
  (getStudents
     (UseLocalStorage.env
        (setValue "student-dashboard-tab" (inl (Json.JStr "form")) h))).1
  = [].
Proof.
  intros env h.
  destruct (hook_and_adapter_keep_apart "student-dashboard-tab"
              (inl (Json.JStr "form")) (Json.JStr "list") [] h)
    as (H & _); [discriminate|].
  rewrite H. reflexivity.
Defined.

End UseLocalStorageFacts.

(** ** The dashboard controller: adding, editing, and the store *)

Module DashboardHandlersFacts.
Import Browser StudentStorage DashboardHandlers DashboardStore.
Import UseLocalStorageFacts.

(** Reading a record back property by property gives the record. *)
Lemma read_toJs (s : Student.t) : StudentView.read (Student.toJs s) = Some s.
Proof. destruct s as [i n e c [p|] d []]; reflexivity. Qed.

Lemma map_read_toJs (R : list Student.t) :
  map StudentView.read (map Student.toJs R) = map Some R.
Proof.
  induction R as [|s R IH]; [reflexivity|].
  rewrite !map_cons, read_toJs, IH. reflexivity.
Qed.

(** What [setActiveTab] leaves behind. *)
Lemma setActiveTab_spec (tab : string) (st : State) :
  students (setActiveTab tab st) = students st
  /\ editingStudent (setActiveTab tab st) = editingStudent st
  /\ activeTab (setActiveTab tab st) = Json.JStr tab
  /\ error (setActiveTab tab st) = error st
  /\ sameBrowser (env (setActiveTab tab st)) (env st)
  /\ items (localStorage (env (setActiveTab tab st)))
     = if hasWindow (env st) && negb (setItemThrows (localStorage (env st)))
       then <[TAB_KEY := Json.stringify (Json.JStr tab)]>
              (items (localStorage (env st)))
       else items (localStorage (env st)).
Proof.
  destruct (setValue_spec TAB_KEY (inl (Json.JStr tab))
              (UseLocalStorage.mkHook (activeTab st) (env st)))
    as (Hv & Hb & Hi).
  unfold setActiveTab. simpl in *. auto 10.
Qed.

(** The store entry of the adapter after [setActiveTab]. *)
Lemma setActiveTab_students_entry (tab : string) (st : State) :
  items (localStorage (env (setActiveTab tab st))) !! STORAGE_KEY
  = items (localStorage (env st)) !! STORAGE_KEY.
Proof.
  destruct (setActiveTab_spec tab st) as (_ & _ & _ & _ & _ & Hi).
  rewrite Hi. destruct (_ && _); [|reflexivity].
  apply lookup_insert_ne. discriminate.
Qed.

Lemma store_spec (R : list Student.t) (st : State) :
  sameBrowser (env (store R st)) (env st)
  /\ items (localStorage (env (store R st)))
     = if hasWindow (env st) && negb (setItemThrows (localStorage (env st)))
       then <[STORAGE_KEY := Json.stringify (Json.JArr (map Student.toJs R))]>
              (items (localStorage (env st)))
       else items (localStorage (env st)).
Proof. exact (saveStudents_spec R (env st)). Qed.

Lemma setActiveTab_sameBrowser (tab : string) (st : State) :
  sameBrowser (env (setActiveTab tab st)) (env st).
Proof. apply setActiveTab_spec. Qed.

Lemma store_sameBrowser (R : list Student.t) (st : State) :
  sameBrowser (env (store R st)) (env st).
Proof. apply store_spec. Qed.

(** The handlers keep the window and the failure modes of the store. *)
Lemma perform_sameBrowser (st : State) (a : Action) :
  sameBrowser (env (perform st a)) (env st).
Proof.
  destruct a as [studentData now|studentData|studentId|student|];
    cbn [perform].
  - unfold handleAddStudent.
    eapply sameBrowser_trans;
      [apply setActiveTab_sameBrowser|apply store_sameBrowser].
  - unfold handleEditStudent.
    destruct (editingStudent st); [|apply sameBrowser_refl].
    eapply sameBrowser_trans; [apply setActiveTab_sameBrowser|].
    cbn [env]. apply store_sameBrowser.
  - unfold handleDeleteStudent, Dashboard.handleDeleteStudent. cbn [env].
    apply saveStudents_spec.
  - unfold startEditing.
    eapply sameBrowser_trans;
      [apply setActiveTab_sameBrowser|apply sameBrowser_refl].
  - unfold cancelEditing.
    eapply sameBrowser_trans;
      [apply setActiveTab_sameBrowser|apply sameBrowser_refl].
Qed.

(** No handler sets the error of the page. *)
Lemma perform_error (st : State) (a : Action) : error (perform st a) = error st.
Proof.
  destruct a as [studentData now|studentData|studentId|student|]; simpl;
    unfold handleAddStudent, handleEditStudent, startEditing, cancelEditing;
    try destruct (editingStudent st); try reflexivity;
    match goal with
    | |- error (setActiveTab ?t ?s) = _ =>
        destruct (setActiveTab_spec t s) as (_ & _ & _ & -> & _); reflexivity
    end.
Qed.

(** The array a handler leaves on the page. *)
Lemma perform_students (st : State) (a : Action) :
  students (perform st a)
  = match a with
    | Add studentData now =>
        students st ++ [withId (dateNowToString now) studentData]
    | Edit studentData =>
        match editingStudent st with
        | None => students st
        | Some editing =>
            map (fun s =>
                   if String.eqb (Student.id s) (Student.id editing)
                   then withId (Student.id editing) studentData else s)
              (students st)
        end
    | Delete studentId =>
        List.filter (fun s => negb (String.eqb (Student.id s) studentId))
          (students st)
    | StartEditing _ | CancelEditing => students st
    end.
Proof.
  destruct a as [studentData now|studentData|studentId|student|]; simpl;
    unfold handleAddStudent, handleEditStudent, startEditing, cancelEditing;
    try destruct (editingStudent st); try reflexivity;
    match goal with
    | |- students (setActiveTab ?t ?s) = _ =>
        destruct (setActiveTab_spec t s) as (-> & _); reflexivity
    end.
Qed.

(** The entry of the adapter after a handler: rewritten with the new
    array by the handlers that save, when the store takes the write. *)
Lemma perform_entry (st : State) (a : Action) :
  items (localStorage (env (perform st a))) !! STORAGE_KEY
  = match a, editingStudent st with
    | StartEditing _, _ | CancelEditing, _ | Edit _, None =>
        items (localStorage (env st)) !! STORAGE_KEY
    | _, _ =>
        if hasWindow (env st) && negb (setItemThrows (localStorage (env st)))
        then Some (Json.stringify
                     (Json.JArr (map Student.toJs (students (perform st a)))))
        else items (localStorage (env st)) !! STORAGE_KEY
    end.
Proof.
  assert (Hsave : forall R,
    items (localStorage (saveStudents R (env st)).2) !! STORAGE_KEY
    = if hasWindow (env st) && negb (setItemThrows (localStorage (env st)))
      then Some (Json.stringify (Json.JArr (map Student.toJs R)))
      else items (localStorage (env st)) !! STORAGE_KEY).
  { intros R. destruct (saveStudents_spec R (env st)) as (_ & ->).
    destruct (_ && _); [apply lookup_insert_eq|reflexivity]. }
  rewrite perform_students.
  destruct a as [studentData now|studentData|studentId|student|];
    cbn [perform]; cbv iota.
  - unfold handleAddStudent. rewrite setActiveTab_students_entry.
    destruct (editingStudent st); apply Hsave.
  - unfold handleEditStudent. destruct (editingStudent st); [|reflexivity].
    rewrite setActiveTab_students_entry. apply Hsave.
  - unfold handleDeleteStudent, Dashboard.handleDeleteStudent.
    cbn [env Dashboard.students Dashboard.env].
    destruct (editingStudent st); apply Hsave.
  - unfold startEditing. rewrite setActiveTab_students_entry.
    destruct (editingStudent st); reflexivity.
  - unfold cancelEditing. rewrite setActiveTab_students_entry.
    destruct (editingStudent st); reflexivity.
Qed.

(** X16. [handleAddStudent] appends the new record, with the text of the
    clock reading as its id, and shows the list.  Deleting that id next
    removes the new record and every older record with the same id: the
    array is the one before the addition exactly when the id was fresh;
    and a fresh id keeps the ids of the array distinct. *)
Theorem add_then_delete_restores
    (studentData : Student.t) (now : N) (st : State) :
  let id := dateNowToString now in
  let added := handleAddStudent studentData now st in
  students added = students st ++ [withId id studentData]
  /\ activeTab added = Json.JStr "list"
  /\ students (handleDeleteStudent id added)
     = List.filter (fun s => negb (String.eqb (Student.id s) id)) (students st)
  /\ (students (handleDeleteStudent id added) = students st
      <-> forall s, In s (students st) -> Student.id s <> id)
  /\ (NoDup (map Student.id (students st)) ->
      (forall s, In s (students st) -> Student.id s <> id) ->
      NoDup (map Student.id (students added))).
Proof.
  intros id added.
  assert (Hadd : students added = students st ++ [withId id studentData])
    by exact (perform_students st (Add studentData now)).
  assert (Hdel : students (handleDeleteStudent id added)
                 = List.filter
                     (fun s => negb (String.eqb (Student.id s) id))
                     (students st)).
  { rewrite (perform_students added (Delete id)
             : students (handleDeleteStudent id added) = _).
    rewrite Hadd, List.filter_app.
    simpl. rewrite String.eqb_refl. simpl. apply app_nil_r. }
  split; [exact Hadd|]. split.
  { unfold added, handleAddStudent. apply setActiveTab_spec. }
  split; [exact Hdel|]. split.
  - rewrite Hdel. split.
    + intros E s Hs Hid. rewrite <- E in Hs.
      apply filter_In in Hs as [_ Hs]. rewrite Hid, String.eqb_refl in Hs.
      discriminate.
    + intros Hfresh. apply ListFacts.filter_all. intros s Hs.
      apply negb_true_iff, String.eqb_neq, Hfresh, Hs.
  - intros Hnodup Hfresh. rewrite Hadd, map_app. simpl.
    apply NoDup_app. split; [exact Hnodup|]. split; [|apply NoDup_singleton].
    intros i Hi Hi'. apply list_elem_of_In in Hi.
    apply list_elem_of_In in Hi'. simpl in Hi'. destruct Hi' as [<-|[]].
    apply in_map_iff in Hi as (s & Hid & Hs). exact (Hfresh s Hs Hid).
Qed.

(** X17. [handleEditStudent] does nothing while no record is being
    edited.  Otherwise it leaves the edit mode and shows the list, keeps
    the number, the order and the ids of the records, and leaves every
    record with another id as it is; when the ids are distinct, the record
    with the edited id is replaced in place by the submitted data under
    that id; and when no record has the edited id any more, the array is
    unchanged. *)
Theorem handleEditStudent_replaces (studentData : Student.t) (st : State) :
  (editingStudent st = None -> handleEditStudent studentData st = st)
  /\ (forall editing, editingStudent st = Some editing ->
      let after := handleEditStudent studentData st in
      let updatedStudent := withId (Student.id editing) studentData in
      editingStudent after = None
      /\ activeTab after = Json.JStr "list"
      /\ map Student.id (students after) = map Student.id (students st)
      /\ (forall i s, students st !! i = Some s ->
            Student.id s <> Student.id editing -> students after !! i = Some s)
      /\ (forall before old behind,
            NoDup (map Student.id (students st)) ->
            students st = before ++ old :: behind ->
            Student.id old = Student.id editing ->
            students after = before ++ updatedStudent :: behind)
      /\ ((forall s, In s (students st) -> Student.id s <> Student.id editing) ->
          students after = students st)).
Proof.
  split.
  { intros E. unfold handleEditStudent. rewrite E. reflexivity. }
  intros editing E after updatedStudent.
  assert (Hst : students after
                = map (fun s =>
                         if String.eqb (Student.id s) (Student.id editing)
                         then updatedStudent else s)
                    (students st)).
  { pose proof (perform_students st (Edit studentData)) as H.
    rewrite E in H. exact H. }
  assert (Hsame : forall l,
            (forall s, In s l -> Student.id s <> Student.id editing) ->
            map (fun s =>
                   if String.eqb (Student.id s) (Student.id editing)
                   then updatedStudent else s) l = l).
  { intros l Hl. induction l as [|s l IH]; [reflexivity|].
    simpl. rewrite IH by (intros; apply Hl; right; assumption).
    destruct (String.eqb_spec (Student.id s) (Student.id editing)) as [H|H];
      [destruct (Hl s (or_introl eq_refl) H)|reflexivity]. }
  unfold after at 1 2. unfold handleEditStudent. rewrite E.
  match goal with
  | |- editingStudent (setActiveTab ?t ?s) = _ /\ _ =>
      destruct (setActiveTab_spec t s) as (_ & He & Ht & _)
  end.
  split; [exact He|]. split; [exact Ht|]. rewrite Hst.
  split; [|split; [|split; [|apply Hsame]]].
  - rewrite map_map. apply map_ext. intros s.
    destruct (String.eqb_spec (Student.id s) (Student.id editing)) as [H|H];
      [symmetry; exact H|reflexivity].
  - intros i s Hi Hne. rewrite list_lookup_fmap, Hi. simpl.
    destruct (String.eqb_spec (Student.id s) (Student.id editing));
      [contradiction|reflexivity].
  - intros before old behind Hnodup Hsplit Hold.
    rewrite Hsplit, map_app in Hnodup. simpl in Hnodup.
    apply NoDup_app in Hnodup as (_ & Hcross & Hrest).
    apply NoDup_cons in Hrest as [Hbehind _].
    rewrite Hsplit, map_app. simpl. rewrite Hold, String.eqb_refl.
    rewrite !Hsame; [reflexivity| |].
    + intros s Hs Hid. apply Hbehind. rewrite list_elem_of_In.
      apply in_map_iff. exists s. split; [congruence|exact Hs].
    + intros s Hs Hid. apply (Hcross (Student.id s)).
      * rewrite list_elem_of_In. apply in_map. exact Hs.
      * rewrite Hid, <- Hold. left.
Qed.

Lemma Working_sameBrowser (env1 env2 : Env) :
  sameBrowser env1 env2 -> Working env2 -> Working env1.
Proof.
  unfold sameBrowser, Working. intros (? & ? & ? & ?) (? & ? & ?).
  repeat split; congruence.
Qed.

Lemma ReadOnly_sameBrowser (env1 env2 : Env) :
  sameBrowser env1 env2 -> ReadOnly env2 -> ReadOnly env1.
Proof.
  unfold sameBrowser, ReadOnly. intros (? & ? & ? & ?) (? & ?).
  split; congruence.
Qed.

(** One handler on a working store. *)
Lemma perform_Persisted (st : State) (a : Action) :
  Working (env st) -> Persisted st -> Persisted (perform st a).
Proof.
  intros Hwork Hp.
  pose proof (Working_sameBrowser _ _ (perform_sameBrowser st a) Hwork)
    as (Hw' & Hg' & _).
  pose proof (perform_entry st a) as Hentry.
  destruct Hwork as (Hw & Hg & Hs). rewrite Hw, Hs in Hentry. simpl in Hentry.
  assert (Hsaved :
    items (localStorage (env (perform st a))) !! STORAGE_KEY
    = Some (Json.stringify
              (Json.JArr (map Student.toJs (students (perform st a))))) ->
    Persisted (perform st a)).
  { intros Hi. unfold Persisted.
    rewrite (StudentStorageMore.getStudents_of_text _ _ Hw' Hg' Hi).
    apply map_read_toJs. }
  assert (Hkept :
    items (localStorage (env (perform st a))) !! STORAGE_KEY
    = items (localStorage (env st)) !! STORAGE_KEY ->
    students (perform st a) = students st ->
    Persisted (perform st a)).
  { intros Hi Hst. unfold Persisted. rewrite Hst, <- Hp. f_equal.
    apply getStudents_depends_key; congruence. }
  destruct a as [studentData now|studentData|studentId|student|];
    [apply Hsaved, Hentry| |apply Hsaved, Hentry| |].
  - pose proof (perform_students st (Edit studentData)) as Hst.
    destruct (editingStudent st);
      [apply Hsaved, Hentry|apply Hkept; assumption].
  - apply Hkept; [exact Hentry|apply (perform_students st (StartEditing student))].
  - apply Hkept; [exact Hentry|apply (perform_students st CancelEditing)].
Qed.

(** X18. On a store that can be read and written the page and the store
    agree and stay in agreement: if [getStudents] would return the records
    of the page, read property by property, it still would after any
    sequence of additions, edits, deletions and changes of the edit mode;
    a reload shows what the page showed. *)
Theorem page_and_store_agree (actions : list Action) (st : State) :
  Working (env st) -> Persisted st ->
  Persisted (fold_left perform actions st)
  /\ Working (env (fold_left perform actions st)).
Proof.
  revert st. induction actions as [|a actions IH]; intros st Hw Hp;
    [split; assumption|].
  simpl. apply IH.
  - exact (Working_sameBrowser _ _ (perform_sameBrowser st a) Hw).
  - exact (perform_Persisted st a Hw Hp).
Qed.

Lemma page_and_store_witness :
  let st :=
    mkState getDefaultStudents None (Json.JStr "list") None
      (mkEnv true (mkStorage ∅ false false false []) []) in
  let ada :=
    Student.mk "" "Ada Lovelace" "ada@example.org" "Data Science" None
      "2025-01-31" active in
  let carol :=
    Student.mk "3" "Carol Davis" "carol.davis@email.com" "Web Development"
      (Some "/professional-woman-portrait.png") "2023-09-10" graduated in
  let actions :=
    [Add ada 1738281600000%N; Delete "2"; StartEditing carol;
     Edit (withId "" ada); CancelEditing] in
  Persisted st
  /\ Persisted (fold_left perform actions st)
  /\ map Student.id (students (fold_left perform actions st))
     = ["1"; "3"; "1738281600000"].
Proof.
  intros st ada carol actions.
  assert (Hp : Persisted st) by reflexivity.
  split; [exact Hp|]. split; [|reflexivity].
  refine (proj1 (page_and_store_agree actions st _ Hp)).
  split; [reflexivity|split; reflexivity].
Defined.

(** One handler on a store that refuses writes. *)
Lemma perform_ReadOnly (st : State) (a : Action) :
  ReadOnly (env st) ->
  items (localStorage (env (perform st a))) !! STORAGE_KEY
  = items (localStorage (env st)) !! STORAGE_KEY.
Proof.
  intros (Hw & Hs). rewrite perform_entry, Hw, Hs. simpl.
  destruct a, (editingStudent st); reflexivity.
Qed.

(** X19. A store that refuses writes is not noticed on the page: after
    any sequence of additions, edits and deletions the page shows its new
    array and no error, while [getStudents] returns what it returned
    before the first of them, so that a reload loses every change; an
    addition, for one, has made the array of the page longer. *)
Theorem refused_writes_go_unnoticed (actions : list Action) (st : State) :
  ReadOnly (env st) ->
  let after := fold_left perform actions st in
  (getStudents (env after)).1 = (getStudents (env st)).1
  /\ error after = error st
  /\ ReadOnly (env after)
  /\ (forall studentData now,
        length (students (handleAddStudent studentData now after))
        = S (length (students after))
        /\ (getStudents (env (handleAddStudent studentData now after))).1
           = (getStudents (env st)).1).
Proof.
  intros Hro after.
  assert (Hstep : forall acts s, ReadOnly (env s) ->
            (getStudents (env (fold_left perform acts s))).1
            = (getStudents (env s)).1
            /\ error (fold_left perform acts s) = error s
            /\ ReadOnly (env (fold_left perform acts s))).
  { induction acts as [|a acts IH]; intros s Hs; [auto|].
    simpl.
    pose proof (perform_sameBrowser s a) as Hb.
    destruct (IH (perform s a) (ReadOnly_sameBrowser _ _ Hb Hs))
      as (H1 & H2 & H3).
    rewrite H1, H2, perform_error. split; [|auto].
    destruct Hb as (Hw & Hg & _).
    apply getStudents_depends_key; [exact Hw|exact Hg|].
    apply perform_ReadOnly, Hs. }
  destruct (Hstep actions st Hro) as (H1 & H2 & H3).
  split; [exact H1|]. split; [exact H2|]. split; [exact H3|].
  intros studentData now. split.
  - rewrite (perform_students after (Add studentData now)
             : students (handleAddStudent studentData now after) = _).
    rewrite length_app.
    simpl. lia.
  - destruct (Hstep [Add studentData now] after H3) as (H4 & _).
    cbn [fold_left perform] in H4. rewrite H4. exact H1.
Qed.

Lemma refused_writes_witness :
  let st :=
    mkState getDefaultStudents None (Json.JStr "list") None
      (mkEnv true (mkStorage ∅ false true false []) []) in
  let after := fold_left perform [Delete "1"; Delete "2"] st in
  length (students after) = 1
  /\ (getStudents (env after)).1 = sampleSet.
Proof.
  intros st after. split; [reflexivity|].
  destruct (refused_writes_go_unnoticed [Delete "1"; Delete "2"] st)
    as (H & _); [split; reflexivity|].
  exact H.
Defined.

Lemma filter_impl_sublist {A : Type} (f g : A -> bool) (l : list A) :
  (forall x, f x = true -> g x = true) ->
  sublist (List.filter f l) (List.filter g l).
Proof.
  intros H. induction l as [|x l IH]; simpl; [constructor|].
  destruct (f x) eqn:E.
  - rewrite (H x E). constructor. exact IH.
  - destruct (g x); [constructor|]; exact IH.
Qed.

(** X20. The search of the page shows every record while the term is
    empty; for a term that is not empty it shows, in their order, exactly
    the records whose name, e-mail address or course contains the term,
    letter case ignored; so it shows every record the search of the list
    component shows for the same term. *)
Theorem page_search_exact (students : list Student.t) (term : string) :
  filteredStudents students "" = students
  /\ sublist (filteredStudents students term) students
  /\ (forall s, term <> "" ->
        (In s (filteredStudents students term)
         <-> In s students
             /\ (StudentList.containsIgnoringCase (Student.name s) term
                 \/ StudentList.containsIgnoringCase (Student.email s) term
                 \/ StudentList.containsIgnoringCase (Student.course s) term)))
  /\ sublist (StudentList.filteredStudents students term "all" "all")
       (filteredStudents students term).
Proof.
  split; [reflexivity|]. split; [|split].
  - unfold filteredStudents. destruct (negb _); [reflexivity|].
    apply ListFacts.filter_sublist.
  - intros s Hne. unfold filteredStudents.
    destruct term as [|c term]; [congruence|]. cbn [JsString.truthy negb].
    rewrite filter_In, !orb_true_iff, !StudentListFacts.includes_spec.
    unfold StudentList.containsIgnoringCase. tauto.
  - unfold filteredStudents, StudentList.filteredStudents.
    destruct term as [|c term]; cbn [JsString.truthy negb].
    + apply ListFacts.filter_sublist.
    + apply filter_impl_sublist. intros s.
      unfold StudentList.matchesSearch, StudentList.matchesStatus,
        StudentList.matchesCourse.
      rewrite !andb_true_iff, !orb_true_iff. simpl.
      intros [[[[H|H]|H] _] _]; [discriminate|auto..].
Qed.

End DashboardHandlersFacts.
